(** * lcsc-grabber: the conversion core, embedded and verified

    A shallow embedding of the EasyEDA -> KiCad conversion core of the
    plugin:

    - [utils/geometry.py]            (module [geometry]),
    - [api/models.py]                (module [models]),
    - [converters/symbol_converter.py]    (module [SymbolConverter]),
    - [converters/footprint_converter.py] (module [FootprintConverter]),
    - [kicad/model3d_config.py]      (module [Model3DConfig]),
    - [_escape_string] and [_sanitize_name] of [kicad/footprint_writer.py]
      and [kicad/symbol_writer.py] (modules [FootprintWriter],
      [SymbolWriter]).

    Python floats are kept abstract behind the class [Number]; its
    instance is [binary64] (IEEE 754 double precision, the kernel's
    primitive floats: what CPython computes, bit for bit).  Theorems that
    only follow the control flow are stated for every instance; the ones
    that need the order of numbers are stated for [binary64].

    Python exceptions, [try]/[except] and the (possibly endless) [while]
    loops of [normalize_angle] are modelled by the monad [M]: a computation
    over the converter's current object either is [Done], or [Raise]s, or
    [Hang]s (fuel exhausted). *)

From Stdlib Require Import ZArith Floats String Ascii List Bool Lia.
From stdpp Require Import gmap strings.
Import ListNotations.

Set Implicit Arguments.
Unset Strict Implicit.
Set Warnings "-register-all,-inexact-float".

(* ------------------------------------------------------------------ *)
(** ** Python numbers *)

(** The operations the converters perform on [float] values.  [nltb x y]
    is Python's [x < y] ([x > y] is [nltb y x]), [nleb x y] is [x <= y]
    ([x >= y] is [nleb y x]); [of_decimal m k] is the literal
    [m * 10^-k] of the source text. *)
Class Number (F : Type) : Type := {
  nadd : F -> F -> F;
  nsub : F -> F -> F;
  nmul : F -> F -> F;
  ndiv : F -> F -> F;
  nopp : F -> F;
  nltb : F -> F -> bool;
  nleb : F -> F -> bool;
  of_decimal : Z -> nat -> F
}.

Declare Scope num_scope.
Delimit Scope num_scope with num.
Infix "+" := nadd : num_scope.
Infix "-" := nsub : num_scope.
Infix "*" := nmul : num_scope.
Infix "/" := ndiv : num_scope.
Notation "- x" := (nopp x) : num_scope.
Infix "<?" := nltb : num_scope.
Infix "<=?" := nleb : num_scope.
Notation "x >? y" := (nltb y x) (only parsing) : num_scope.
Notation "x >=? y" := (nleb y x) (only parsing) : num_scope.

(** Integer literals of the source ([0], [2], [180], [360]). *)
Definition of_int {F} `{Number F} (z : Z) : F := of_decimal z 0.

(** [Z] to binary64; exact for [|z| < 2^53], the only use made of it. *)
Definition float_of_Z (z : Z) : float :=
  match z with
  | Z0 => PrimFloat.zero
  | Zpos _ => PrimFloat.of_uint63 (Uint63.of_Z z)
  | Zneg p => PrimFloat.opp (PrimFloat.of_uint63 (Uint63.of_Z (Zpos p)))
  end.

(** IEEE 754 binary64.  A decimal literal is the correctly rounded quotient
    of two exactly represented integers, hence the double nearest to the
    decimal, as CPython's parser yields (mantissa below [2^53], at most 18
    fractional digits). *)
#[export] Instance binary64 : Number float := {|
  nadd := PrimFloat.add;
  nsub := PrimFloat.sub;
  nmul := PrimFloat.mul;
  ndiv := PrimFloat.div;
  nopp := PrimFloat.opp;
  nltb := PrimFloat.ltb;
  nleb := PrimFloat.leb;
  of_decimal := fun m k => PrimFloat.div (float_of_Z m) (float_of_Z (10 ^ Z.of_nat k))
|}.


(* ------------------------------------------------------------------ *)
(** ** Python strings (ASCII text) *)

Module pystr.

Definition is_space (c : ascii) : bool :=
  let n := nat_of_ascii c in
  ((9 <=? n) && (n <=? 13) || (28 <=? n) && (n <=? 32))%nat.

Definition is_digit (c : ascii) : bool :=
  let n := nat_of_ascii c in ((48 <=? n) && (n <=? 57))%nat.

Definition upper_char (c : ascii) : ascii :=
  let n := nat_of_ascii c in
  if ((97 <=? n) && (n <=? 122))%nat then ascii_of_nat (n - 32) else c.

Definition lower_char (c : ascii) : ascii :=
  let n := nat_of_ascii c in
  if ((65 <=? n) && (n <=? 90))%nat then ascii_of_nat (n + 32) else c.

Fixpoint map_chars (f : ascii -> ascii) (s : string) : string :=
  match s with
  | EmptyString => EmptyString
  | String c r => String (f c) (map_chars f r)
  end.

(** [s.upper()], [s.lower()]. *)
Definition upper : string -> string := map_chars upper_char.
Definition lower : string -> string := map_chars lower_char.

(** [s.startswith(p)]. *)
Definition startswith (s p : string) : bool := String.prefix p s.

(** [p in s]. *)
Fixpoint contains (s p : string) : bool :=
  String.prefix p s ||
  match s with
  | EmptyString => false
  | String _ r => contains r p
  end.

(** Puts a character in front of the first piece of a split. *)
Definition cons_head (c : ascii) (l : list string) : list string :=
  match l with
  | h :: t => String c h :: t
  | [] => [String c EmptyString]
  end.

(** [s.split(sep)] for a non-empty separator: [skip] counts the characters
    of a separator found earlier that are still to be passed over. *)
Fixpoint split_from (sep : string) (skip : nat) (s : string) : list string :=
  match s with
  | EmptyString => [EmptyString]
  | String c r =>
      match skip with
      | S k => split_from sep k r
      | O =>
          if String.prefix sep s
          then EmptyString :: split_from sep (String.length sep - 1) r
          else cons_head c (split_from sep 0 r)
      end
  end.

Definition split (s sep : string) : list string := split_from sep 0 s.

Fixpoint lstrip (s : string) : string :=
  match s with
  | String c r => if is_space c then lstrip r else s
  | EmptyString => EmptyString
  end.

Fixpoint rstrip (s : string) : string :=
  match s with
  | EmptyString => EmptyString
  | String c r =>
      match rstrip r with
      | EmptyString => if is_space c then EmptyString else String c EmptyString
      | r' => String c r'
      end
  end.

(** [s.strip()]. *)
Definition strip (s : string) : string := rstrip (lstrip s).

(** [s.replace(c, "")] for a one-character [c]. *)
Fixpoint remove_char (c : ascii) (s : string) : string :=
  match s with
  | EmptyString => EmptyString
  | String d r => if Ascii.eqb c d then remove_char c r else String d (remove_char c r)
  end.

(** [s.replace(c, r)] for a one-character [c]. *)
Fixpoint replace_char (c : ascii) (r : string) (s : string) : string :=
  match s with
  | EmptyString => EmptyString
  | String d t =>
      if Ascii.eqb c d then (r ++ replace_char c r t)%string
      else String d (replace_char c r t)
  end.

Fixpoint all_chars (p : ascii -> bool) (s : string) : bool :=
  match s with
  | EmptyString => true
  | String c r => p c && all_chars p r
  end.

(** [s.isdigit()]: non-empty and made of digits. *)
Definition isdigit (s : string) : bool :=
  match s with
  | EmptyString => false
  | _ => all_chars is_digit s
  end.

(** ASCII text, and the class [\w] on it: letters, digits and the
    underscore. *)
Definition is_ascii (s : string) : bool :=
  all_chars (fun c => (nat_of_ascii c <? 128)%nat) s.

Definition is_alpha (c : ascii) : bool :=
  let n := nat_of_ascii c in
  ((65 <=? n) && (n <=? 90) || (97 <=? n) && (n <=? 122))%nat.

Definition is_word (c : ascii) : bool :=
  is_alpha c || is_digit c || Ascii.eqb c "_".

Definition digit_value (c : ascii) : Z := Z.of_nat (nat_of_ascii c - 48).

Fixpoint int_from (acc : Z) (s : string) : Z :=
  match s with
  | EmptyString => acc
  | String c r => int_from (10 * acc + digit_value c) r
  end.

(** [int(s)] on a string for which [s.isdigit()] holds. *)
Definition int (s : string) : Z := int_from 0 s.

(** [re.split(r'[,\s]+', s)]: the pieces between maximal runs of commas
    and white space; [in_sep] tells that the run has already started. *)
Definition is_sep (c : ascii) : bool := Ascii.eqb c "," || is_space c.

Fixpoint re_split_from (in_sep : bool) (s : string) : list string :=
  match s with
  | EmptyString => [EmptyString]
  | String c r =>
      if is_sep c
      then (if in_sep then re_split_from true r
            else EmptyString :: re_split_from true r)
      else cons_head c (re_split_from false r)
  end.

Definition re_split_commas_spaces (s : string) : list string :=
  re_split_from false s.

(** [re.sub(r'[MLZmlz]', ' ', s)]. *)
Definition is_path_letter (c : ascii) : bool :=
  existsb (Ascii.eqb c) ["M"; "L"; "Z"; "m"; "l"; "z"]%char.

Definition blank_path_letters : string -> string :=
  map_chars (fun c => if is_path_letter c then " "%char else c).

(** Plain decimal text: an optional sign, digits, and an optional
    fraction; [Some (m, k)] stands for [m * 10^-k]. *)
Fixpoint digits_of (s : string) : string * string :=
  match s with
  | String c r =>
      if is_digit c then let (d, t) := digits_of r in (String c d, t)
      else (EmptyString, s)
  | EmptyString => (EmptyString, EmptyString)
  end.

Definition unsigned_decimal (s : string) : option (Z * nat) :=
  let (ip, t) := digits_of s in
  match t with
  | EmptyString =>
      match ip with
      | EmptyString => None
      | _ => Some (int ip, O)
      end
  | String "." f =>
      let (fp, t') := digits_of f in
      match t', (ip ++ fp)%string with
      | EmptyString, String _ _ => Some (int (ip ++ fp), String.length fp)
      | _, _ => None
      end
  | _ => None
  end.

Definition decimal (s : string) : option (Z * nat) :=
  match s with
  | String "-" r =>
      match unsigned_decimal r with
      | Some (m, k) => Some (- m, k)%Z
      | None => None
      end
  | String "+" r => unsigned_decimal r
  | _ => unsigned_decimal s
  end.

End pystr.

(** [float(s)] restricted to plain decimal text ([decimal]); every other
    text is refused.  CPython also reads exponents, [inf], [nan],
    underscores and surrounding blanks: the general statements below
    therefore quantify over the runtime's [py_float], and this reader only
    serves in evaluated examples, all of which use plain decimals. *)
Definition decimal_float {F} `{Number F} (s : string) : option F :=
  match pystr.decimal s with
  | Some (m, k) => Some (of_decimal m k)
  | None => None
  end.

(* ------------------------------------------------------------------ *)
(** ** Exceptions, state and loops *)

Inductive exn : Type :=
| IndexError | AttributeError | TypeError | ValueError
| JSONDecodeError | RecursionError.

(** What running a method on the current object [S] comes to. *)
Inductive outcome (S A : Type) : Type :=
| Done (a : A) (s : S)
| Raise (e : exn) (s : S)
| Hang.
Arguments Done {S A} a s.
Arguments Raise {S A} e s.
Arguments Hang {S A}.

Definition M (S A : Type) : Type := S -> outcome S A.

Definition ret {S A} (a : A) : M S A := fun s => Done a s.

Definition bind {S A B} (m : M S A) (k : A -> M S B) : M S B :=
  fun s =>
    match m s with
    | Done a s' => k a s'
    | Raise e s' => Raise e s'
    | Hang => Hang
    end.

Definition raise {S A} (e : exn) : M S A := fun s => Raise e s.
Definition hang {S A} : M S A := fun _ => Hang.
Definition get {S} : M S S := fun s => Done s s.
Definition modify {S} (f : S -> S) : M S unit := fun s => Done tt (f s).

(** [try: body except Exception as e: handler e]. *)
Definition try_except {S A} (body : M S A) (handler : exn -> M S A) : M S A :=
  fun s =>
    match body s with
    | Raise e s' => handler e s'
    | o => o
    end.

Declare Scope py_scope.
Delimit Scope py_scope with py.
Notation "x <- m ;; k" := (bind m (fun x => k))
  (at level 100, m at next level, right associativity) : py_scope.
Notation "m ;;; k" := (bind m (fun _ => k))
  (at level 100, right associativity) : py_scope.

(** [l[i]]: raises [IndexError] out of range. *)
Definition index {S A} (l : list A) (i : nat) : M S A :=
  match nth_error l i with
  | Some a => ret a
  | None => raise IndexError
  end.

(** [for x in l: body x]. *)
Fixpoint for_each {S A} (l : list A) (body : A -> M S unit) : M S unit :=
  match l with
  | [] => ret tt
  | x :: r => bind (body x) (fun _ => for_each r body)
  end.

(** A result of a loop that may not end: [None] when the fuel ran out. *)
Definition of_loop {S A} (r : option A) : M S A :=
  match r with
  | Some a => ret a
  | None => hang
  end.

(** [keeps h P m]: run from a state in [P], [m] ends in a state in [P],
    whether it returns or raises; it may only hang when [h] holds. *)
Definition keeps {S} (h : Prop) (P : S -> Prop) {B} (m : M S B) : Prop :=
  forall s, P s ->
    match m s with
    | Done _ s' => P s'
    | Raise _ s' => P s'
    | Hang => h
    end.

(** [m] never lets an exception out. *)
Definition catches_all {S B} (m : M S B) : Prop :=
  forall s, match m s with Raise _ _ => False | _ => True end.

(* ------------------------------------------------------------------ *)
(** ** Payloads and the runtime *)

(** The objects a payload is made of (what [json.loads] builds); a number
    only matters through its truth value, so an integer stands for it. *)
Inductive json : Type :=
| JNull
| JBool (b : bool)
| JNum (z : Z)
| JStr (s : string)
| JList (l : list json)
| JDict (d : list (string * json)).

(** [d.get(k)] on the items of a dict. *)
Fixpoint dict_get (d : list (string * json)) (k : string) : option json :=
  match d with
  | [] => None
  | (k', v) :: r => if String.eqb k k' then Some v else dict_get r k
  end.

(** Python's truth value of an object. *)
Definition truthy (v : json) : bool :=
  match v with
  | JNull => false
  | JBool b => b
  | JNum z => negb (Z.eqb z 0)
  | JStr s => negb (String.eqb s "")
  | JList l => match l with [] => false | _ => true end
  | JDict d => match d with [] => false | _ => true end
  end.

(** Functions of Python's library that the converters call and the
    repository does not define: [float(s)] ([None]: [ValueError]),
    [json.loads] ([None]: [JSONDecodeError]), the two [re.search] calls of
    the arc mini-grammar (the groups read afterwards: 1 and 2 of the [M]
    pattern; 1, 2, 6 and 7 of the [A] pattern), [math.atan2] and
    [math.degrees]. *)
Class Runtime (F : Type) : Type := {
  py_float : string -> option F;
  json_loads : string -> option json;
  re_search_M : string -> option (string * string);
  re_search_A : string -> option (string * string * string * string);
  math_atan2 : F -> F -> F;
  math_degrees : F -> F
}.

(** [if isinstance(data, str): data = json.loads(data)]; [None] when the
    text is refused. *)
Definition loads_if_text {F} {rt : Runtime F} (data : json) : option json :=
  match data with
  | JStr text => json_loads text
  | _ => Some data
  end.

(* ------------------------------------------------------------------ *)
(** ** utils/geometry.py *)

Module geometry.
Section Geometry.
Context {F : Type} {num : Number F} {rt : Runtime F}.
Local Open Scope num_scope.

Definition EASYEDA_UNIT_TO_MM : F := of_decimal 254 3.

Definition flip_y (y : F) : F := - y.

(** [normalize_angle]: the two [while] loops, each test costing one unit
    of fuel. *)
Fixpoint add_turns (fuel : nat) (angle : F) : option F :=
  match fuel with
  | O => None
  | S f => if angle <? of_int 0 then add_turns f (angle + of_int 360) else Some angle
  end.

Fixpoint sub_turns (fuel : nat) (angle : F) : option F :=
  match fuel with
  | O => None
  | S f => if angle >=? of_int 360 then sub_turns f (angle - of_int 360) else Some angle
  end.

Definition normalize_angle (fuel : nat) (angle : F) : option F :=
  match add_turns fuel angle with
  | Some a => sub_turns fuel a
  | None => None
  end.

(** [parse_float(value, default)]: never raises. *)
Definition parse_float_or (value : string) (default : F) : F :=
  match py_float value with
  | Some v => v
  | None => default
  end.

Definition parse_float (value : string) : F := parse_float_or value (of_decimal 0 1).

(** [min(...)] and [max(...)] over a sequence with first element [x]: the
    running value is replaced when the next one compares below (above) it. *)
Definition min_from (x : F) (xs : list F) : F :=
  fold_left (fun m v => if v <? m then v else m) xs x.

Definition max_from (x : F) (xs : list F) : F :=
  fold_left (fun m v => if v >? m then v else m) xs x.

(** [max(a, b)]. *)
Definition max2 (a b : F) : F := max_from a [b].

Definition bounding_box (points : list (F * F)) : F * F * F * F :=
  match points with
  | [] => (of_int 0, of_int 0, of_int 0, of_int 0)
  | p :: ps =>
      let xs := map fst ps in
      let ys := map snd ps in
      (min_from (fst p) xs, min_from (snd p) ys,
       max_from (fst p) xs, max_from (snd p) ys)
  end.

Definition expand_bbox (bbox : F * F * F * F) (margin : F) : F * F * F * F :=
  let '(x0, y0, x1, y1) := bbox in
  (x0 - margin, y0 - margin, x1 + margin, y1 + margin).

End Geometry.
End geometry.

(* ------------------------------------------------------------------ *)
(** ** api/models.py *)

Module models.

Inductive PinType : Type :=
| INPUT | OUTPUT | BIDIRECTIONAL | TRI_STATE | PASSIVE | FREE | UNSPECIFIED
| POWER_IN | POWER_OUT | OPEN_COLLECTOR | OPEN_EMITTER | NO_CONNECT.

Inductive PinShape : Type :=
| LINE | INVERTED | CLOCK | INVERTED_CLOCK | INPUT_LOW | CLOCK_LOW
| OUTPUT_LOW | EDGE_CLOCK_HIGH | NON_LOGIC.

Inductive PadShape : Type :=
| RECT | CIRCLE | OVAL | ROUNDRECT | TRAPEZOID | CUSTOM.

Inductive PadType : Type :=
| SMD | THRU_HOLE | NPTH | CONNECT.

Section Models.
Context {F : Type} {num : Number F}.
Local Open Scope num_scope.

Record Point : Type := {
  pt_x : F;
  pt_y : F
}.

Record SymbolPin : Type := {
  pin_number : string;
  pin_name : string;
  pin_x : F;
  pin_y : F;
  pin_length : F;
  pin_rotation : F;
  pin_type : PinType;
  pin_shape : PinShape;
  pin_hidden : bool;
  pin_name_visible : bool;
  pin_number_visible : bool
}.

Record SymbolRectangle : Type := {
  rect_x : F;
  rect_y : F;
  rect_width : F;
  rect_height : F;
  rect_stroke_width : F;
  rect_fill : string
}.

Record SymbolPolyline : Type := {
  poly_points : list Point;
  poly_stroke_width : F;
  poly_fill : string
}.

Record SymbolCircle : Type := {
  scircle_cx : F;
  scircle_cy : F;
  scircle_radius : F;
  scircle_stroke_width : F;
  scircle_fill : string
}.

Record SymbolArc : Type := {
  sarc_cx : F;
  sarc_cy : F;
  sarc_radius : F;
  sarc_start_angle : F;
  sarc_end_angle : F;
  sarc_stroke_width : F
}.

Record SymbolText : Type := {
  stext_text : string;
  stext_x : F;
  stext_y : F;
  stext_font_size : F;
  stext_rotation : F;
  stext_h_align : string;
  stext_v_align : string
}.

Record EasyEdaSymbol : Type := {
  sym_name : string;
  sym_prefix : string;
  sym_pins : list SymbolPin;
  sym_rectangles : list SymbolRectangle;
  sym_polylines : list SymbolPolyline;
  sym_circles : list SymbolCircle;
  sym_arcs : list SymbolArc;
  sym_texts : list SymbolText;
  sym_properties : gmap string string;
  sym_offset_x : F;
  sym_offset_y : F;
  sym_unit_count : Z
}.

(** [EasyEdaSymbol(name=name)]. *)
Definition new_symbol (name : string) : EasyEdaSymbol := {|
  sym_name := name;
  sym_prefix := "U";
  sym_pins := [];
  sym_rectangles := [];
  sym_polylines := [];
  sym_circles := [];
  sym_arcs := [];
  sym_texts := [];
  sym_properties := ∅;
  sym_offset_x := of_int 0;
  sym_offset_y := of_int 0;
  sym_unit_count := 1
|}.

Record FootprintPad : Type := {
  pad_number : string;
  pad_x : F;
  pad_y : F;
  pad_width : F;
  pad_height : F;
  pad_shape : PadShape;
  pad_type : PadType;
  pad_rotation : F;
  pad_drill_size : F;
  pad_drill_shape : string;
  pad_layers : list string;
  pad_roundrect_ratio : F
}.

Record FootprintLine : Type := {
  line_x1 : F;
  line_y1 : F;
  line_x2 : F;
  line_y2 : F;
  line_layer : string;
  line_stroke_width : F
}.

(** [FootprintLine(x1, y1, x2, y2, layer)]: the default stroke is 0.12. *)
Definition FootprintLine_default (x1 y1 x2 y2 : F) (layer : string) : FootprintLine :=
  {| line_x1 := x1; line_y1 := y1; line_x2 := x2; line_y2 := y2;
     line_layer := layer; line_stroke_width := of_decimal 12 2 |}.

Record FootprintCircle : Type := {
  circle_cx : F;
  circle_cy : F;
  circle_radius : F;
  circle_layer : string;
  circle_stroke_width : F;
  circle_fill : string
}.

Record FootprintArc : Type := {
  arc_cx : F;
  arc_cy : F;
  arc_radius : F;
  arc_start_angle : F;
  arc_end_angle : F;
  arc_layer : string;
  arc_stroke_width : F
}.

Record FootprintPolygon : Type := {
  polygon_points : list Point;
  polygon_layer : string;
  polygon_stroke_width : F;
  polygon_fill : string
}.

Record FootprintText : Type := {
  text_text : string;
  text_x : F;
  text_y : F;
  text_layer : string;
  text_font_size : F;
  text_thickness : F;
  text_rotation : F;
  text_type : string
}.

Record FootprintHole : Type := {
  hole_x : F;
  hole_y : F;
  hole_diameter : F
}.

Record EasyEdaFootprint : Type := {
  fp_name : string;
  fp_pads : list FootprintPad;
  fp_lines : list FootprintLine;
  fp_circles : list FootprintCircle;
  fp_arcs : list FootprintArc;
  fp_polygons : list FootprintPolygon;
  fp_texts : list FootprintText;
  fp_holes : list FootprintHole;
  fp_model_3d_path : option string;
  fp_model_3d_offset : F * F * F;
  fp_model_3d_rotation : F * F * F;
  fp_model_3d_scale : F * F * F;
  fp_bounds : option (F * F * F * F)
}.

(** [EasyEdaFootprint(name=name)]. *)
Definition new_footprint (name : string) : EasyEdaFootprint := {|
  fp_name := name;
  fp_pads := [];
  fp_lines := [];
  fp_circles := [];
  fp_arcs := [];
  fp_polygons := [];
  fp_texts := [];
  fp_holes := [];
  fp_model_3d_path := None;
  fp_model_3d_offset := (of_int 0, of_int 0, of_int 0);
  fp_model_3d_rotation := (of_int 0, of_int 0, of_int 0);
  fp_model_3d_scale := (of_int 1, of_int 1, of_int 1);
  fp_bounds := None
|}.

Definition has_courtyard (fp : EasyEdaFootprint) : bool :=
  existsb (fun line => String.eqb (line_layer line) "F.CrtYd"
                       || String.eqb (line_layer line) "B.CrtYd")
          (fp_lines fp).

End Models.

Arguments Point F : clear implicits.
Arguments SymbolPin F : clear implicits.
Arguments SymbolRectangle F : clear implicits.
Arguments SymbolPolyline F : clear implicits.
Arguments SymbolCircle F : clear implicits.
Arguments SymbolArc F : clear implicits.
Arguments SymbolText F : clear implicits.
Arguments EasyEdaSymbol F : clear implicits.
Arguments FootprintPad F : clear implicits.
Arguments FootprintLine F : clear implicits.
Arguments FootprintCircle F : clear implicits.
Arguments FootprintArc F : clear implicits.
Arguments FootprintPolygon F : clear implicits.
Arguments FootprintText F : clear implicits.
Arguments FootprintHole F : clear implicits.
Arguments EasyEdaFootprint F : clear implicits.

(** A dict literal, looked up in the order it is written. *)
Fixpoint table_get {A} (t : list (string * A)) (k : string) : option A :=
  match t with
  | [] => None
  | (k', v) :: r => if String.eqb k k' then Some v else table_get r k
  end.

Definition EASYEDA_LAYER_MAP : list (string * string) :=
  [("1", "F.Cu"); ("2", "B.Cu"); ("3", "F.SilkS"); ("4", "B.SilkS");
   ("5", "F.Paste"); ("6", "B.Paste"); ("7", "F.Mask"); ("8", "B.Mask");
   ("10", "Edge.Cuts"); ("11", "Edge.Cuts"); ("12", "Cmts.User");
   ("13", "F.Fab"); ("14", "B.Fab"); ("15", "Dwgs.User");
   ("21", "F.CrtYd"); ("22", "B.CrtYd");
   ("99", "F.Fab"); ("100", "F.SilkS"); ("101", "F.SilkS")]%string.

Definition get_kicad_layer (easyeda_layer : string) : string :=
  match table_get EASYEDA_LAYER_MAP easyeda_layer with
  | Some l => l
  | None => "F.SilkS"
  end.

Definition COMPONENT_PREFIX_MAP : list (string * string) :=
  [("resistor", "R"); ("capacitor", "C"); ("inductor", "L"); ("diode", "D");
   ("led", "D"); ("transistor", "Q"); ("mosfet", "Q"); ("ic", "U");
   ("mcu", "U"); ("microcontroller", "U"); ("connector", "J");
   ("switch", "SW"); ("relay", "K"); ("crystal", "Y"); ("oscillator", "Y");
   ("transformer", "T"); ("fuse", "F"); ("sensor", "U")]%string.

Definition guess_reference_prefix (description category : string) : string :=
  let search_text := pystr.lower (description ++ " " ++ category) in
  match find (fun kp => pystr.contains search_text (fst kp)) COMPONENT_PREFIX_MAP with
  | Some kp => snd kp
  | None => "U"
  end.

End models.

(** What a call of a converter's [convert] comes to: it returns, or it
    never does (a loop hangs). *)
Inductive call (A : Type) : Type :=
| Returns (r : A)
| NoReturn.
Arguments Returns {A} r.
Arguments NoReturn {A}.

(** What [for x in v] iterates over: the elements of a list, the keys of a
    dict, the characters of a string; [TypeError] on other objects. *)
Definition iterate {S} (v : json) : M S (list json) :=
  match v with
  | JList l => ret l
  | JDict d => ret (map (fun kv => JStr (fst kv)) d)
  | JStr s => ret (map (fun c => JStr (String c EmptyString)) (list_ascii_of_string s))
  | _ => raise TypeError
  end.

(* ------------------------------------------------------------------ *)
(** ** converters/symbol_converter.py *)

Module SymbolConverter.
Import models geometry.
Section Converter.
Context {F : Type} {num : Number F} {rt : Runtime F}.
Local Open Scope num_scope.
Local Open Scope py_scope.

Definition SCALE : F := of_decimal 254 3.

(** The current object of the converter: [self.current_symbol]. *)
Local Abbreviation symbol := (EasyEdaSymbol F).

Definition set_prefix (p : string) (s : symbol) : symbol :=
  {| sym_name := sym_name s; sym_prefix := p; sym_pins := sym_pins s;
     sym_rectangles := sym_rectangles s; sym_polylines := sym_polylines s;
     sym_circles := sym_circles s; sym_arcs := sym_arcs s;
     sym_texts := sym_texts s; sym_properties := sym_properties s;
     sym_offset_x := sym_offset_x s; sym_offset_y := sym_offset_y s;
     sym_unit_count := sym_unit_count s |}.

Definition set_pins (l : list (SymbolPin F)) (s : symbol) : symbol :=
  {| sym_name := sym_name s; sym_prefix := sym_prefix s; sym_pins := l;
     sym_rectangles := sym_rectangles s; sym_polylines := sym_polylines s;
     sym_circles := sym_circles s; sym_arcs := sym_arcs s;
     sym_texts := sym_texts s; sym_properties := sym_properties s;
     sym_offset_x := sym_offset_x s; sym_offset_y := sym_offset_y s;
     sym_unit_count := sym_unit_count s |}.

Definition set_rectangles (l : list (SymbolRectangle F)) (s : symbol) : symbol :=
  {| sym_name := sym_name s; sym_prefix := sym_prefix s; sym_pins := sym_pins s;
     sym_rectangles := l; sym_polylines := sym_polylines s;
     sym_circles := sym_circles s; sym_arcs := sym_arcs s;
     sym_texts := sym_texts s; sym_properties := sym_properties s;
     sym_offset_x := sym_offset_x s; sym_offset_y := sym_offset_y s;
     sym_unit_count := sym_unit_count s |}.

Definition set_polylines (l : list (SymbolPolyline F)) (s : symbol) : symbol :=
  {| sym_name := sym_name s; sym_prefix := sym_prefix s; sym_pins := sym_pins s;
     sym_rectangles := sym_rectangles s; sym_polylines := l;
     sym_circles := sym_circles s; sym_arcs := sym_arcs s;
     sym_texts := sym_texts s; sym_properties := sym_properties s;
     sym_offset_x := sym_offset_x s; sym_offset_y := sym_offset_y s;
     sym_unit_count := sym_unit_count s |}.

Definition set_circles (l : list (SymbolCircle F)) (s : symbol) : symbol :=
  {| sym_name := sym_name s; sym_prefix := sym_prefix s; sym_pins := sym_pins s;
     sym_rectangles := sym_rectangles s; sym_polylines := sym_polylines s;
     sym_circles := l; sym_arcs := sym_arcs s;
     sym_texts := sym_texts s; sym_properties := sym_properties s;
     sym_offset_x := sym_offset_x s; sym_offset_y := sym_offset_y s;
     sym_unit_count := sym_unit_count s |}.

Definition set_arcs (l : list (SymbolArc F)) (s : symbol) : symbol :=
  {| sym_name := sym_name s; sym_prefix := sym_prefix s; sym_pins := sym_pins s;
     sym_rectangles := sym_rectangles s; sym_polylines := sym_polylines s;
     sym_circles := sym_circles s; sym_arcs := l;
     sym_texts := sym_texts s; sym_properties := sym_properties s;
     sym_offset_x := sym_offset_x s; sym_offset_y := sym_offset_y s;
     sym_unit_count := sym_unit_count s |}.

Definition set_texts (l : list (SymbolText F)) (s : symbol) : symbol :=
  {| sym_name := sym_name s; sym_prefix := sym_prefix s; sym_pins := sym_pins s;
     sym_rectangles := sym_rectangles s; sym_polylines := sym_polylines s;
     sym_circles := sym_circles s; sym_arcs := sym_arcs s;
     sym_texts := l; sym_properties := sym_properties s;
     sym_offset_x := sym_offset_x s; sym_offset_y := sym_offset_y s;
     sym_unit_count := sym_unit_count s |}.

Definition set_offset (ox oy : F) (s : symbol) : symbol :=
  {| sym_name := sym_name s; sym_prefix := sym_prefix s; sym_pins := sym_pins s;
     sym_rectangles := sym_rectangles s; sym_polylines := sym_polylines s;
     sym_circles := sym_circles s; sym_arcs := sym_arcs s;
     sym_texts := sym_texts s; sym_properties := sym_properties s;
     sym_offset_x := ox; sym_offset_y := oy;
     sym_unit_count := sym_unit_count s |}.

(** The test a field passes to become the pin's name. *)
Definition name_candidate (part : string) : bool :=
  negb (String.eqb part "")
  && negb (pystr.startswith part "#")
  && negb (pystr.startswith part "^^")
  && negb (pystr.isdigit (pystr.remove_char "-" (pystr.remove_char "." part)))
  && negb (existsb (String.eqb part)
             ["start"; "end"; "middle"; "show"; "hide"; "0"; "1"]%string)
  && (0 <? String.length part)%nat && (String.length part <? 30)%nat.

(** The scan [for i in range(10, min(len(parts), 20))] with its [break]. *)
Definition scan_pin_name (parts : list string) : string :=
  match find name_candidate (firstn 10 (skipn 10 parts)) with
  | Some part => part
  | None => ""
  end.

Definition _parse_pin (fuel : nat) (parts : list string) (full_str : string)
  : M symbol unit :=
  if (length parts <? 7)%nat then ret tt else
  try_except
    (pin_number <- (if (3 <? length parts)%nat then index parts 3 else ret "?"%string) ;;
     p4 <- index parts 4 ;;
     let x := parse_float p4 * SCALE in
     p5 <- index parts 5 ;;
     let y := parse_float p5 * SCALE in
     p6 <- index parts 6 ;;
     let rotation := parse_float p6 in
     let pin_name := scan_pin_name parts in
     let pin_length := of_decimal 254 2 in
     kicad_rotation <- of_loop (normalize_angle fuel (rotation + of_int 180)) ;;
     let pin := {| pin_number := pin_number; pin_name := pin_name;
                   pin_x := x; pin_y := - y; pin_length := pin_length;
                   pin_rotation := kicad_rotation; pin_type := UNSPECIFIED;
                   pin_shape := LINE; pin_hidden := false;
                   pin_name_visible := true; pin_number_visible := true |} in
     modify (fun s => set_pins (sym_pins s ++ [pin]) s))
    (fun _ => ret tt).

Definition _parse_rectangle (parts : list string) : M symbol unit :=
  if (length parts <? 7)%nat then ret tt else
  try_except
    (p1 <- index parts 1 ;;
     let x := parse_float p1 * SCALE in
     p2 <- index parts 2 ;;
     let y := parse_float p2 * SCALE in
     p5 <- index parts 5 ;;
     let width := parse_float p5 * SCALE in
     p6 <- index parts 6 ;;
     let height := parse_float p6 * SCALE in
     stroke_width <-
       (if (8 <? length parts)%nat
        then try_except (p8 <- index parts 8 ;; ret (parse_float p8 * SCALE))
                        (fun _ => ret (of_decimal 254 3))
        else ret (of_decimal 254 3)) ;;
     let rect := {| rect_x := x; rect_y := - y - height;
                    rect_width := width; rect_height := height;
                    rect_stroke_width := max2 stroke_width (of_decimal 1 1);
                    rect_fill := "none" |} in
     modify (fun s => set_rectangles (sym_rectangles s ++ [rect]) s))
    (fun _ => ret tt).

(** The loop [for i in range(0, len(values) - 1, 2)] of [_parse_point_list]. *)
Fixpoint point_pairs (values : list string) : list (Point F) :=
  match values with
  | vx :: vy :: r =>
      let x := parse_float vx * SCALE in
      let y := parse_float vy * SCALE in
      {| pt_x := x; pt_y := - y |} :: point_pairs r
  | _ => []
  end.

Definition _parse_point_list (points_str : string) : list (Point F) :=
  point_pairs (pystr.re_split_commas_spaces (pystr.strip points_str)).

Definition _parse_polyline (parts : list string) : M symbol unit :=
  if (length parts <? 2)%nat then ret tt else
  try_except
    (points_str <- index parts 1 ;;
     let points := _parse_point_list points_str in
     match points with
     | [] => ret tt
     | _ =>
         stroke_width <-
           (if (3 <? length parts)%nat
            then try_except (p3 <- index parts 3 ;; ret (parse_float p3 * SCALE))
                            (fun _ => ret (of_decimal 254 3))
            else ret (of_decimal 254 3)) ;;
         let polyline := {| poly_points := points;
                            poly_stroke_width := max2 stroke_width (of_decimal 1 1);
                            poly_fill := "none" |} in
         modify (fun s => set_polylines (sym_polylines s ++ [polyline]) s)
     end)
    (fun _ => ret tt).

Definition _parse_line (parts : list string) : M symbol unit :=
  if (length parts <? 5)%nat then ret tt else
  try_except
    (p1 <- index parts 1 ;;
     let x1 := parse_float p1 * SCALE in
     p2 <- index parts 2 ;;
     let y1 := parse_float p2 * SCALE in
     p3 <- index parts 3 ;;
     let x2 := parse_float p3 * SCALE in
     p4 <- index parts 4 ;;
     let y2 := parse_float p4 * SCALE in
     let polyline := {| poly_points := [ {| pt_x := x1; pt_y := - y1 |};
                                         {| pt_x := x2; pt_y := - y2 |} ];
                        poly_stroke_width := of_decimal 254 3;
                        poly_fill := "none" |} in
     modify (fun s => set_polylines (sym_polylines s ++ [polyline]) s))
    (fun _ => ret tt).

Definition _parse_circle (parts : list string) : M symbol unit :=
  if (length parts <? 4)%nat then ret tt else
  try_except
    (p1 <- index parts 1 ;;
     let cx := parse_float p1 * SCALE in
     p2 <- index parts 2 ;;
     let cy := parse_float p2 * SCALE in
     p3 <- index parts 3 ;;
     let radius := parse_float p3 * SCALE in
     let circle := {| scircle_cx := cx; scircle_cy := - cy;
                      scircle_radius := radius;
                      scircle_stroke_width := of_decimal 254 3;
                      scircle_fill := "none" |} in
     modify (fun s => set_circles (sym_circles s ++ [circle]) s))
    (fun _ => ret tt).

Definition _parse_arc (parts : list string) : M symbol unit :=
  if (length parts <? 7)%nat then ret tt else
  try_except
    (p1 <- index parts 1 ;;
     let cx := parse_float p1 * SCALE in
     p2 <- index parts 2 ;;
     let cy := parse_float p2 * SCALE in
     p3 <- index parts 3 ;;
     let rx := parse_float p3 * SCALE in
     p4 <- index parts 4 ;;
     let ry := parse_float p4 * SCALE in
     p5 <- index parts 5 ;;
     let start_angle := parse_float p5 in
     p6 <- index parts 6 ;;
     let end_angle := parse_float p6 in
     let radius := (rx + ry) / of_int 2 in
     let arc := {| sarc_cx := cx; sarc_cy := - cy; sarc_radius := radius;
                   sarc_start_angle := - end_angle;
                   sarc_end_angle := - start_angle;
                   sarc_stroke_width := of_decimal 254 3 |} in
     modify (fun s => set_arcs (sym_arcs s ++ [arc]) s))
    (fun _ => ret tt).

Definition _parse_text (parts : list string) : M symbol unit :=
  if (length parts <? 7)%nat then ret tt else
  try_except
    (p2 <- index parts 2 ;;
     let x := parse_float p2 * SCALE in
     p3 <- index parts 3 ;;
     let y := parse_float p3 * SCALE in
     p4 <- index parts 4 ;;
     let rotation := parse_float p4 in
     font_size <-
       (if (6 <? length parts)%nat
        then p6 <- index parts 6 ;; ret (parse_float p6 * SCALE)
        else ret (of_decimal 127 2)) ;;
     text_content <-
       (if (8 <? length parts)%nat then index parts 8 else ret ""%string) ;;
     if negb (String.eqb text_content "") && negb (pystr.startswith text_content "#")
     then
       let text_obj := {| stext_text := text_content; stext_x := x; stext_y := - y;
                          stext_font_size := max2 font_size (of_decimal 5 1);
                          stext_rotation := rotation;
                          stext_h_align := "center"; stext_v_align := "center" |} in
       modify (fun s => set_texts (sym_texts s ++ [text_obj]) s)
     else ret tt)
    (fun _ => ret tt).

Definition set_fill (fill : string) (p : SymbolPolyline F) : SymbolPolyline F :=
  {| poly_points := poly_points p; poly_stroke_width := poly_stroke_width p;
     poly_fill := fill |}.

(** [polylines[-1].fill = "outline"], guarded by [if polylines]. *)
Definition mark_last_outline (l : list (SymbolPolyline F)) : list (SymbolPolyline F) :=
  match l with
  | [] => l
  | _ => alter (set_fill "outline") (length l - 1)%nat l
  end.

Definition _parse_polygon (parts : list string) : M symbol unit :=
  _parse_polyline parts ;;;
  modify (fun s => set_polylines (mark_last_outline (sym_polylines s)) s).

Definition _parse_shape (fuel : nat) (shape_str : string) : M symbol unit :=
  if String.eqb shape_str "" then ret tt else
  let parts := pystr.split shape_str "~" in
  match parts with
  | [] => ret tt
  | _ =>
      p0 <- index parts 0 ;;
      let shape_type := pystr.upper p0 in
      try_except
        (if String.eqb shape_type "P" then _parse_pin fuel parts shape_str
         else if String.eqb shape_type "R" then _parse_rectangle parts
         else if String.eqb shape_type "PL" then _parse_polyline parts
         else if String.eqb shape_type "L" then _parse_line parts
         else if String.eqb shape_type "C" || String.eqb shape_type "E"
              then _parse_circle parts
         else if String.eqb shape_type "A" then _parse_arc parts
         else if String.eqb shape_type "T" then _parse_text parts
         else if String.eqb shape_type "PG" then _parse_polygon parts
         else ret tt)
        (fun _ => ret tt)
  end.

(** The points [_calculate_offset] collects. *)
Definition offset_points (s : symbol) : list (F * F) :=
  map (fun pin => (pin_x pin, pin_y pin)) (sym_pins s)
  ++ flat_map (fun rect => [(rect_x rect, rect_y rect);
                            (rect_x rect + rect_width rect,
                             rect_y rect + rect_height rect)])
              (sym_rectangles s)
  ++ flat_map (fun poly => map (fun pt => (pt_x pt, pt_y pt)) (poly_points poly))
              (sym_polylines s)
  ++ flat_map (fun c => [(scircle_cx c - scircle_radius c,
                          scircle_cy c - scircle_radius c);
                         (scircle_cx c + scircle_radius c,
                          scircle_cy c + scircle_radius c)])
              (sym_circles s).

(** What [_calculate_offset] makes of the symbol. *)
Definition with_offset (s : symbol) : symbol :=
  match offset_points s with
  | [] => s
  | p :: ps =>
      let min_x := min_from (fst p) (map fst ps) in
      let max_x := max_from (fst p) (map fst ps) in
      let min_y := min_from (snd p) (map snd ps) in
      let max_y := max_from (snd p) (map snd ps) in
      let center_x := (min_x + max_x) / of_int 2 in
      let center_y := (min_y + max_y) / of_int 2 in
      set_offset (- center_x) (- center_y) s
  end.

Definition _calculate_offset : M symbol unit := modify with_offset.

(** [symbol_data.get("shape", [])]: [AttributeError] unless a dict. *)
Definition get_shape (symbol_data : json) : M symbol json :=
  match symbol_data with
  | JDict d =>
      match dict_get d "shape" with
      | Some v => ret v
      | None => ret (JList [])
      end
  | _ => raise AttributeError
  end.

(** [shapes.split("#@$")] when [shapes] is a string. *)
Definition split_shapes (shapes : json) : json :=
  match shapes with
  | JStr s => JList (map JStr (pystr.split s "#@$"))
  | _ => shapes
  end.

(** The part of [convert] that reads the shapes: from
    [symbol_data.get("shape", [])] to the end of the loop. *)
Definition parse_shapes (fuel : nat) (symbol_data : json) : M symbol unit :=
  shapes <- get_shape symbol_data ;;
  items <- iterate (split_shapes shapes) ;;
  for_each items (fun shape =>
    match shape with
    | JStr shape_str => _parse_shape fuel shape_str
    | _ => ret tt
    end).

Definition convert_body (fuel : nat) (symbol_data : json)
    (description category : string) : M symbol (option symbol) :=
  modify (set_prefix (guess_reference_prefix description category)) ;;;
  match loads_if_text symbol_data with
  | None => ret None
  | Some data =>
      parse_shapes fuel data ;;;
      _calculate_offset ;;;
      s <- get ;;
      ret (Some s)
  end.

(** [convert]: the outer [try] turns every exception into [None]. *)
Definition convert (fuel : nat) (symbol_data : json)
    (component_name description category : string) : call (option symbol) :=
  match convert_body fuel symbol_data description category
          (new_symbol component_name) with
  | Done r _ => Returns r
  | Raise _ _ => Returns None
  | Hang => NoReturn
  end.

End Converter.
End SymbolConverter.

(* ------------------------------------------------------------------ *)
(** ** converters/footprint_converter.py *)

Module FootprintConverter.
Import models geometry.
Section Converter.
Context {F : Type} {num : Number F} {rt : Runtime F}.
Local Open Scope num_scope.
Local Open Scope py_scope.

Definition SCALE : F := of_decimal 254 3.

Definition PAD_SHAPE_MAP : list (string * PadShape) :=
  [("ELLIPSE", CIRCLE); ("OVAL", OVAL); ("RECT", RECT);
   ("POLYGON", CUSTOM); ("ROUND", CIRCLE)]%string.

(** The current object of the converter: [self.current_footprint]. *)
Local Abbreviation footprint := (EasyEdaFootprint F).

Definition set_pads (l : list (FootprintPad F)) (fp : footprint) : footprint :=
  {| fp_name := fp_name fp; fp_pads := l; fp_lines := fp_lines fp;
     fp_circles := fp_circles fp; fp_arcs := fp_arcs fp;
     fp_polygons := fp_polygons fp; fp_texts := fp_texts fp;
     fp_holes := fp_holes fp; fp_model_3d_path := fp_model_3d_path fp;
     fp_model_3d_offset := fp_model_3d_offset fp;
     fp_model_3d_rotation := fp_model_3d_rotation fp;
     fp_model_3d_scale := fp_model_3d_scale fp; fp_bounds := fp_bounds fp |}.

Definition set_lines (l : list (FootprintLine F)) (fp : footprint) : footprint :=
  {| fp_name := fp_name fp; fp_pads := fp_pads fp; fp_lines := l;
     fp_circles := fp_circles fp; fp_arcs := fp_arcs fp;
     fp_polygons := fp_polygons fp; fp_texts := fp_texts fp;
     fp_holes := fp_holes fp; fp_model_3d_path := fp_model_3d_path fp;
     fp_model_3d_offset := fp_model_3d_offset fp;
     fp_model_3d_rotation := fp_model_3d_rotation fp;
     fp_model_3d_scale := fp_model_3d_scale fp; fp_bounds := fp_bounds fp |}.

Definition set_circles (l : list (FootprintCircle F)) (fp : footprint) : footprint :=
  {| fp_name := fp_name fp; fp_pads := fp_pads fp; fp_lines := fp_lines fp;
     fp_circles := l; fp_arcs := fp_arcs fp;
     fp_polygons := fp_polygons fp; fp_texts := fp_texts fp;
     fp_holes := fp_holes fp; fp_model_3d_path := fp_model_3d_path fp;
     fp_model_3d_offset := fp_model_3d_offset fp;
     fp_model_3d_rotation := fp_model_3d_rotation fp;
     fp_model_3d_scale := fp_model_3d_scale fp; fp_bounds := fp_bounds fp |}.

Definition set_arcs (l : list (FootprintArc F)) (fp : footprint) : footprint :=
  {| fp_name := fp_name fp; fp_pads := fp_pads fp; fp_lines := fp_lines fp;
     fp_circles := fp_circles fp; fp_arcs := l;
     fp_polygons := fp_polygons fp; fp_texts := fp_texts fp;
     fp_holes := fp_holes fp; fp_model_3d_path := fp_model_3d_path fp;
     fp_model_3d_offset := fp_model_3d_offset fp;
     fp_model_3d_rotation := fp_model_3d_rotation fp;
     fp_model_3d_scale := fp_model_3d_scale fp; fp_bounds := fp_bounds fp |}.

Definition set_polygons (l : list (FootprintPolygon F)) (fp : footprint) : footprint :=
  {| fp_name := fp_name fp; fp_pads := fp_pads fp; fp_lines := fp_lines fp;
     fp_circles := fp_circles fp; fp_arcs := fp_arcs fp;
     fp_polygons := l; fp_texts := fp_texts fp;
     fp_holes := fp_holes fp; fp_model_3d_path := fp_model_3d_path fp;
     fp_model_3d_offset := fp_model_3d_offset fp;
     fp_model_3d_rotation := fp_model_3d_rotation fp;
     fp_model_3d_scale := fp_model_3d_scale fp; fp_bounds := fp_bounds fp |}.

Definition set_texts (l : list (FootprintText F)) (fp : footprint) : footprint :=
  {| fp_name := fp_name fp; fp_pads := fp_pads fp; fp_lines := fp_lines fp;
     fp_circles := fp_circles fp; fp_arcs := fp_arcs fp;
     fp_polygons := fp_polygons fp; fp_texts := l;
     fp_holes := fp_holes fp; fp_model_3d_path := fp_model_3d_path fp;
     fp_model_3d_offset := fp_model_3d_offset fp;
     fp_model_3d_rotation := fp_model_3d_rotation fp;
     fp_model_3d_scale := fp_model_3d_scale fp; fp_bounds := fp_bounds fp |}.

Definition set_holes (l : list (FootprintHole F)) (fp : footprint) : footprint :=
  {| fp_name := fp_name fp; fp_pads := fp_pads fp; fp_lines := fp_lines fp;
     fp_circles := fp_circles fp; fp_arcs := fp_arcs fp;
     fp_polygons := fp_polygons fp; fp_texts := fp_texts fp;
     fp_holes := l; fp_model_3d_path := fp_model_3d_path fp;
     fp_model_3d_offset := fp_model_3d_offset fp;
     fp_model_3d_rotation := fp_model_3d_rotation fp;
     fp_model_3d_scale := fp_model_3d_scale fp; fp_bounds := fp_bounds fp |}.

Definition set_bounds (b : option (F * F * F * F)) (fp : footprint) : footprint :=
  {| fp_name := fp_name fp; fp_pads := fp_pads fp; fp_lines := fp_lines fp;
     fp_circles := fp_circles fp; fp_arcs := fp_arcs fp;
     fp_polygons := fp_polygons fp; fp_texts := fp_texts fp;
     fp_holes := fp_holes fp; fp_model_3d_path := fp_model_3d_path fp;
     fp_model_3d_offset := fp_model_3d_offset fp;
     fp_model_3d_rotation := fp_model_3d_rotation fp;
     fp_model_3d_scale := fp_model_3d_scale fp; fp_bounds := b |}.

Definition _parse_pad (parts : list string) : M footprint unit :=
  if (length parts <? 9)%nat then ret tt else
  try_except
    (p1 <- index parts 1 ;;
     let shape_str := pystr.upper p1 in
     p2 <- index parts 2 ;;
     let x := parse_float p2 * SCALE in
     p3 <- index parts 3 ;;
     let y := parse_float p3 * SCALE in
     p4 <- index parts 4 ;;
     let width := parse_float p4 * SCALE in
     p5 <- index parts 5 ;;
     let height := parse_float p5 * SCALE in
     layer <- index parts 6 ;;
     number <- index parts 8 ;;
     let shape := match table_get PAD_SHAPE_MAP shape_str with
                  | Some sh => sh
                  | None => RECT
                  end in
     drill_and_type <-
       (if (9 <? length parts)%nat
        then p9 <- index parts 9 ;;
             let hole_radius := parse_float p9 * SCALE in
             if hole_radius >? of_int 0
             then ret (hole_radius * of_int 2, THRU_HOLE)
             else ret (of_int 0, SMD)
        else ret (of_int 0, SMD)) ;;
     let drill_size := fst drill_and_type in
     let pad_type := snd drill_and_type in
     rotation <-
       (if (11 <? length parts)%nat
        then p11 <- index parts 11 ;; ret (parse_float p11)
        else ret (of_int 0)) ;;
     let kicad_layer := get_kicad_layer layer in
     let layers :=
       match pad_type with
       | THRU_HOLE => ["*.Cu"; "*.Paste"; "*.Mask"]
       | _ => if pystr.startswith kicad_layer "F."
              then ["F.Cu"; "F.Paste"; "F.Mask"]
              else ["B.Cu"; "B.Paste"; "B.Mask"]
       end%string in
     let pad := {| pad_number := number; pad_x := x; pad_y := - y;
                   pad_width := width; pad_height := height;
                   pad_shape := shape; pad_type := pad_type;
                   pad_rotation := rotation; pad_drill_size := drill_size;
                   pad_drill_shape := "circle"; pad_layers := layers;
                   pad_roundrect_ratio := of_decimal 25 2 |} in
     modify (fun fp => set_pads (fp_pads fp ++ [pad]) fp))
    (fun _ => ret tt).

(** The loop [for i in range(0, len(values) - 1, 2)] of [_parse_point_list]
    and the [while] loop of [_parse_svg_path_points]: both read the values
    two by two. *)
Fixpoint value_pairs (values : list string) : list (F * F) :=
  match values with
  | vx :: vy :: r =>
      let x := parse_float vx * SCALE in
      let y := parse_float vy * SCALE in
      (x, y) :: value_pairs r
  | _ => []
  end.

Definition _parse_point_list (points_str : string) : list (F * F) :=
  value_pairs (pystr.re_split_commas_spaces (pystr.strip points_str)).

Definition _parse_svg_path_points (path_str : string) : list (F * F) :=
  let clean := pystr.blank_path_letters path_str in
  value_pairs (pystr.re_split_commas_spaces (pystr.strip clean)).

(** The loop [for i in range(len(points) - 1)] of [_parse_track]. *)
Fixpoint track_segments (points : list (F * F)) (kicad_layer : string)
    (stroke_width : F) : list (FootprintLine F) :=
  match points with
  | p :: (q :: _) as r =>
      {| line_x1 := fst p; line_y1 := - snd p;
         line_x2 := fst q; line_y2 := - snd q;
         line_layer := kicad_layer;
         line_stroke_width := max2 stroke_width (of_decimal 1 1) |}
      :: track_segments r kicad_layer stroke_width
  | _ => []
  end.

Definition _parse_track (parts : list string) : M footprint unit :=
  if (length parts <? 5)%nat then ret tt else
  try_except
    (p1 <- index parts 1 ;;
     let stroke_width := parse_float p1 * SCALE in
     layer <- index parts 2 ;;
     points_str <- index parts 4 ;;
     let kicad_layer := get_kicad_layer layer in
     let points := _parse_point_list points_str in
     modify (fun fp =>
       set_lines (fp_lines fp ++ track_segments points kicad_layer stroke_width) fp))
    (fun _ => ret tt).

Definition _parse_circle (parts : list string) : M footprint unit :=
  if (length parts <? 6)%nat then ret tt else
  try_except
    (p1 <- index parts 1 ;;
     let cx := parse_float p1 * SCALE in
     p2 <- index parts 2 ;;
     let cy := parse_float p2 * SCALE in
     p3 <- index parts 3 ;;
     let radius := parse_float p3 * SCALE in
     p4 <- index parts 4 ;;
     let stroke_width := parse_float p4 * SCALE in
     layer <- index parts 5 ;;
     let kicad_layer := get_kicad_layer layer in
     let circle := {| circle_cx := cx; circle_cy := - cy; circle_radius := radius;
                      circle_layer := kicad_layer;
                      circle_stroke_width := max2 stroke_width (of_decimal 1 1);
                      circle_fill := "none" |} in
     modify (fun fp => set_circles (fp_circles fp ++ [circle]) fp))
    (fun _ => ret tt).

Definition _parse_arc_path (path_data : string) : option (F * F * F * F * F) :=
  match re_search_M path_data, re_search_A path_data with
  | Some (m1, m2), Some (a1, a2, a6, a7) =>
      let x1 := parse_float m1 * SCALE in
      let y1 := parse_float m2 * SCALE in
      let rx := parse_float a1 * SCALE in
      let ry := parse_float a2 * SCALE in
      let x2 := parse_float a6 * SCALE in
      let y2 := parse_float a7 * SCALE in
      let radius := (rx + ry) / of_int 2 in
      let cx := (x1 + x2) / of_int 2 in
      let cy := (y1 + y2) / of_int 2 in
      let start_angle := math_degrees (math_atan2 (y1 - cy) (x1 - cx)) in
      let end_angle := math_degrees (math_atan2 (y2 - cy) (x2 - cx)) in
      Some (cx, cy, radius, start_angle, end_angle)
  | _, _ => None
  end.

Definition _parse_arc (parts : list string) : M footprint unit :=
  if (length parts <? 5)%nat then ret tt else
  try_except
    (p1 <- index parts 1 ;;
     let stroke_width := parse_float p1 * SCALE in
     layer <- index parts 2 ;;
     path_data <- index parts 4 ;;
     let kicad_layer := get_kicad_layer layer in
     match _parse_arc_path path_data with
     | Some (cx, cy, radius, start_angle, end_angle) =>
         let arc := {| arc_cx := cx; arc_cy := - cy; arc_radius := radius;
                       arc_start_angle := - end_angle;
                       arc_end_angle := - start_angle;
                       arc_layer := kicad_layer;
                       arc_stroke_width := max2 stroke_width (of_decimal 1 1) |} in
         modify (fun fp => set_arcs (fp_arcs fp ++ [arc]) fp)
     | None => ret tt
     end)
    (fun _ => ret tt).

Definition _parse_rect (parts : list string) : M footprint unit :=
  if (length parts <? 6)%nat then ret tt else
  try_except
    (p1 <- index parts 1 ;;
     let x := parse_float p1 * SCALE in
     p2 <- index parts 2 ;;
     let y := parse_float p2 * SCALE in
     p3 <- index parts 3 ;;
     let width := parse_float p3 * SCALE in
     p4 <- index parts 4 ;;
     let height := parse_float p4 * SCALE in
     layer <- index parts 5 ;;
     let kicad_layer := get_kicad_layer layer in
     let y_flipped := - y in
     let lines :=
       [ FootprintLine_default x y_flipped (x + width) y_flipped kicad_layer;
         FootprintLine_default (x + width) y_flipped (x + width) (y_flipped - height)
                               kicad_layer;
         FootprintLine_default (x + width) (y_flipped - height) x (y_flipped - height)
                               kicad_layer;
         FootprintLine_default x (y_flipped - height) x y_flipped kicad_layer ] in
     modify (fun fp => set_lines (fp_lines fp ++ lines) fp))
    (fun _ => ret tt).

Definition _parse_solid_region (parts : list string) : M footprint unit :=
  if (length parts <? 4)%nat then ret tt else
  try_except
    (layer <- index parts 1 ;;
     path_str <- index parts 3 ;;
     let kicad_layer := get_kicad_layer layer in
     if existsb (String.eqb layer) ["99"; "100"; "101"]%string then ret tt else
     match _parse_svg_path_points path_str with
     | [] => ret tt
     | points =>
         let polygon :=
           {| polygon_points := map (fun p => {| pt_x := fst p; pt_y := - snd p |}) points;
              polygon_layer := kicad_layer;
              polygon_stroke_width := of_decimal 12 2;
              polygon_fill := "solid" |} in
         modify (fun fp => set_polygons (fp_polygons fp ++ [polygon]) fp)
     end)
    (fun _ => ret tt).

Definition _parse_text (parts : list string) : M footprint unit :=
  if (length parts <? 11)%nat then ret tt else
  try_except
    (p1 <- index parts 1 ;;
     let text_type_str := pystr.lower p1 in
     p2 <- index parts 2 ;;
     let x := parse_float p2 * SCALE in
     p3 <- index parts 3 ;;
     let y := parse_float p3 * SCALE in
     p4 <- index parts 4 ;;
     let stroke_width := parse_float p4 * SCALE in
     p5 <- index parts 5 ;;
     let rotation := parse_float p5 in
     layer <- index parts 7 ;;
     p9 <- index parts 9 ;;
     let font_size := parse_float p9 * SCALE in
     text_content <-
       (if (10 <? length parts)%nat then index parts 10 else ret ""%string) ;;
     let kicad_layer := get_kicad_layer layer in
     let typed :=
       if existsb (String.eqb text_type_str) ["ref"; "reference"]%string
       then ("reference", "REF**")
       else if existsb (String.eqb text_type_str) ["val"; "value"]%string
       then ("value", text_content)
       else ("user", text_content) in
     let text := {| text_text := snd typed; text_x := x; text_y := - y;
                    text_layer := kicad_layer;
                    text_font_size := max2 font_size (of_decimal 5 1);
                    text_thickness := max2 stroke_width (of_decimal 1 1);
                    text_rotation := rotation; text_type := fst typed |} in
     modify (fun fp => set_texts (fp_texts fp ++ [text]) fp))
    (fun _ => ret tt).

Definition _parse_hole (parts : list string) : M footprint unit :=
  if (length parts <? 4)%nat then ret tt else
  try_except
    (p1 <- index parts 1 ;;
     let x := parse_float p1 * SCALE in
     p2 <- index parts 2 ;;
     let y := parse_float p2 * SCALE in
     p3 <- index parts 3 ;;
     let diameter := parse_float p3 * SCALE in
     let hole := {| hole_x := x; hole_y := - y; hole_diameter := diameter |} in
     modify (fun fp => set_holes (fp_holes fp ++ [hole]) fp))
    (fun _ => ret tt).

Definition _parse_via (parts : list string) : M footprint unit :=
  if (length parts <? 5)%nat then ret tt else
  try_except
    (p1 <- index parts 1 ;;
     let x := parse_float p1 * SCALE in
     p2 <- index parts 2 ;;
     let y := parse_float p2 * SCALE in
     p3 <- index parts 3 ;;
     let diameter := parse_float p3 * SCALE in
     p4 <- index parts 4 ;;
     let drill := parse_float p4 * SCALE in
     let pad := {| pad_number := ""; pad_x := x; pad_y := - y;
                   pad_width := diameter; pad_height := diameter;
                   pad_shape := CIRCLE; pad_type := THRU_HOLE;
                   pad_rotation := of_int 0; pad_drill_size := drill;
                   pad_drill_shape := "circle"; pad_layers := ["*.Cu"%string];
                   pad_roundrect_ratio := of_decimal 25 2 |} in
     if drill >? of_decimal 1 1
     then modify (fun fp => set_pads (fp_pads fp ++ [pad]) fp)
     else ret tt)
    (fun _ => ret tt).

Definition _parse_shape_dict (shape : list (string * json)) : M footprint unit :=
  ret tt.

Definition _parse_shape_string (shape_str : string) : M footprint unit :=
  if String.eqb shape_str "" then ret tt else
  let parts := pystr.split shape_str "~" in
  match parts with
  | [] => ret tt
  | _ =>
      p0 <- index parts 0 ;;
      let shape_type := pystr.upper p0 in
      try_except
        (if String.eqb shape_type "PAD" then _parse_pad parts
         else if String.eqb shape_type "TRACK" then _parse_track parts
         else if String.eqb shape_type "CIRCLE" then _parse_circle parts
         else if String.eqb shape_type "ARC" then _parse_arc parts
         else if String.eqb shape_type "RECT" then _parse_rect parts
         else if String.eqb shape_type "SOLIDREGION" then _parse_solid_region parts
         else if String.eqb shape_type "TEXT" then _parse_text parts
         else if String.eqb shape_type "HOLE" then _parse_hole parts
         else if String.eqb shape_type "VIA" then _parse_via parts
         else if String.eqb shape_type "SVGNODE" then ret tt
         else ret tt)
        (fun _ => ret tt)
  end.

(** [data.get(k)] as an object ([None] when the key is missing);
    [AttributeError] unless [data] is a dict. *)
Definition get_or_none (data : json) (k : string) : M footprint json :=
  match data with
  | JDict d =>
      match dict_get d k with
      | Some v => ret v
      | None => ret JNull
      end
  | _ => raise AttributeError
  end.

(** [shapes.split("#@$")] when [shapes] is a string. *)
Definition split_shapes (shapes : json) : json :=
  match shapes with
  | JStr s => JList (map JStr (pystr.split s "#@$"))
  | _ => shapes
  end.

(** The loop [for shape in shapes] of [_parse_footprint_data]. *)
Definition parse_shape_list (items : list json) : M footprint unit :=
  for_each items (fun shape =>
    match shape with
    | JStr shape_str => _parse_shape_string shape_str
    | JDict d => _parse_shape_dict d
    | _ => ret tt
    end).

(** [_parse_footprint_data]; [limit] is the depth of calls the interpreter
    still allows ([RecursionError] beyond it). *)
Fixpoint _parse_footprint_data (limit : nat) (data : json) : M footprint unit :=
  match limit with
  | O => raise RecursionError
  | S limit' =>
      shape <- get_or_none data "shape" ;;
      shapes <- (if truthy shape then ret shape
                 else alt <- get_or_none data "shapes" ;;
                      if truthy alt then ret alt else ret (JList [])) ;;
      items <- iterate (split_shapes shapes) ;;
      parse_shape_list items ;;;
      match data with
      | JDict d =>
          match dict_get d "dataStr" with
          | Some nested =>
              let nested :=
                match nested with
                | JStr text =>
                    match json_loads text with
                    | Some v => v
                    | None => nested
                    end
                | _ => nested
                end in
              match nested with
              | JDict _ => _parse_footprint_data limit' nested
              | _ => ret tt
              end
          | None => ret tt
          end
      | _ => raise TypeError
      end
  end.

Definition shift_pad (cx cy : F) (pad : FootprintPad F) : FootprintPad F :=
  {| pad_number := pad_number pad; pad_x := pad_x pad - cx; pad_y := pad_y pad - cy;
     pad_width := pad_width pad; pad_height := pad_height pad;
     pad_shape := pad_shape pad; pad_type := pad_type pad;
     pad_rotation := pad_rotation pad; pad_drill_size := pad_drill_size pad;
     pad_drill_shape := pad_drill_shape pad; pad_layers := pad_layers pad;
     pad_roundrect_ratio := pad_roundrect_ratio pad |}.

Definition shift_line (cx cy : F) (line : FootprintLine F) : FootprintLine F :=
  {| line_x1 := line_x1 line - cx; line_y1 := line_y1 line - cy;
     line_x2 := line_x2 line - cx; line_y2 := line_y2 line - cy;
     line_layer := line_layer line; line_stroke_width := line_stroke_width line |}.

Definition shift_circle (cx cy : F) (c : FootprintCircle F) : FootprintCircle F :=
  {| circle_cx := circle_cx c - cx; circle_cy := circle_cy c - cy;
     circle_radius := circle_radius c; circle_layer := circle_layer c;
     circle_stroke_width := circle_stroke_width c; circle_fill := circle_fill c |}.

Definition shift_arc (cx cy : F) (a : FootprintArc F) : FootprintArc F :=
  {| arc_cx := arc_cx a - cx; arc_cy := arc_cy a - cy; arc_radius := arc_radius a;
     arc_start_angle := arc_start_angle a; arc_end_angle := arc_end_angle a;
     arc_layer := arc_layer a; arc_stroke_width := arc_stroke_width a |}.

Definition shift_point (cx cy : F) (pt : Point F) : Point F :=
  {| pt_x := pt_x pt - cx; pt_y := pt_y pt - cy |}.

Definition shift_polygon (cx cy : F) (p : FootprintPolygon F) : FootprintPolygon F :=
  {| polygon_points := map (shift_point cx cy) (polygon_points p);
     polygon_layer := polygon_layer p;
     polygon_stroke_width := polygon_stroke_width p;
     polygon_fill := polygon_fill p |}.

Definition shift_text (cx cy : F) (t : FootprintText F) : FootprintText F :=
  {| text_text := text_text t; text_x := text_x t - cx; text_y := text_y t - cy;
     text_layer := text_layer t; text_font_size := text_font_size t;
     text_thickness := text_thickness t; text_rotation := text_rotation t;
     text_type := text_type t |}.

Definition shift_hole (cx cy : F) (h : FootprintHole F) : FootprintHole F :=
  {| hole_x := hole_x h - cx; hole_y := hole_y h - cy;
     hole_diameter := hole_diameter h |}.

(** The points [_calculate_bounds_and_center] takes the centre of: the pad
    centres, or, without pads, the line ends and the circle centres. *)
Definition center_points (fp : footprint) : list (F * F) :=
  match fp_pads fp with
  | [] =>
      flat_map (fun line => [(line_x1 line, line_y1 line);
                             (line_x2 line, line_y2 line)]) (fp_lines fp)
      ++ map (fun c => (circle_cx c, circle_cy c)) (fp_circles fp)
  | pads => map (fun pad => (pad_x pad, pad_y pad)) pads
  end.

(** The centre [(center_x, center_y)], when there is a point. *)
Definition center_of (all_points : list (F * F)) : option (F * F) :=
  match all_points with
  | [] => None
  | p :: ps =>
      let min_x := min_from (fst p) (map fst ps) in
      let max_x := max_from (fst p) (map fst ps) in
      let min_y := min_from (snd p) (map snd ps) in
      let max_y := max_from (snd p) (map snd ps) in
      Some ((min_x + max_x) / of_int 2, (min_y + max_y) / of_int 2)
  end.

Definition shift_all (cx cy : F) (fp : footprint) : footprint :=
  {| fp_name := fp_name fp;
     fp_pads := map (shift_pad cx cy) (fp_pads fp);
     fp_lines := map (shift_line cx cy) (fp_lines fp);
     fp_circles := map (shift_circle cx cy) (fp_circles fp);
     fp_arcs := map (shift_arc cx cy) (fp_arcs fp);
     fp_polygons := map (shift_polygon cx cy) (fp_polygons fp);
     fp_texts := map (shift_text cx cy) (fp_texts fp);
     fp_holes := map (shift_hole cx cy) (fp_holes fp);
     fp_model_3d_path := fp_model_3d_path fp;
     fp_model_3d_offset := fp_model_3d_offset fp;
     fp_model_3d_rotation := fp_model_3d_rotation fp;
     fp_model_3d_scale := fp_model_3d_scale fp;
     fp_bounds := fp_bounds fp |}.

(** What [_calculate_bounds_and_center] makes of the footprint. *)
Definition centered (fp : footprint) : footprint :=
  match center_of (center_points fp) with
  | None => fp
  | Some (center_x, center_y) => shift_all center_x center_y fp
  end.

Definition _calculate_bounds_and_center : M footprint unit := modify centered.

(** The points [_calculate_bounds] takes the bounding box of. *)
Definition bounds_points (fp : footprint) : list (F * F) :=
  flat_map (fun pad =>
              let hw := pad_width pad / of_int 2 in
              let hh := pad_height pad / of_int 2 in
              [(pad_x pad - hw, pad_y pad - hh); (pad_x pad + hw, pad_y pad + hh)])
           (fp_pads fp)
  ++ flat_map (fun line => [(line_x1 line, line_y1 line);
                            (line_x2 line, line_y2 line)]) (fp_lines fp)
  ++ flat_map (fun c => [(circle_cx c - circle_radius c, circle_cy c - circle_radius c);
                         (circle_cx c + circle_radius c, circle_cy c + circle_radius c)])
              (fp_circles fp)
  ++ flat_map (fun polygon => map (fun pt => (pt_x pt, pt_y pt)) (polygon_points polygon))
              (fp_polygons fp).

(** What [_calculate_bounds] makes of the footprint. *)
Definition with_bounds (fp : footprint) : footprint :=
  match bounds_points fp with
  | [] => fp
  | all_points => set_bounds (Some (bounding_box all_points)) fp
  end.

Definition _calculate_bounds : M footprint unit := modify with_bounds.

(** The four lines of the courtyard around [bounds]. *)
Definition courtyard_lines (bounds : F * F * F * F) : list (FootprintLine F) :=
  let '(min_x, min_y, max_x, max_y) := expand_bbox bounds (of_decimal 25 2) in
  let line x1 y1 x2 y2 :=
    {| line_x1 := x1; line_y1 := y1; line_x2 := x2; line_y2 := y2;
       line_layer := "F.CrtYd"; line_stroke_width := of_decimal 5 2 |} in
  [ line min_x min_y max_x min_y;
    line max_x min_y max_x max_y;
    line max_x max_y min_x max_y;
    line min_x max_y min_x min_y ].

(** What [_generate_courtyard] makes of the footprint. *)
Definition with_courtyard (fp : footprint) : footprint :=
  match fp_bounds fp with
  | None => fp
  | Some bounds => set_lines (fp_lines fp ++ courtyard_lines bounds) fp
  end.

Definition _generate_courtyard : M footprint unit := modify with_courtyard.

Definition convert_body (limit : nat) (footprint_data : json)
  : M footprint (option footprint) :=
  match loads_if_text footprint_data with
  | None => ret None
  | Some data =>
      _parse_footprint_data limit data ;;;
      _calculate_bounds_and_center ;;;
      _calculate_bounds ;;;
      fp <- get ;;
      (if has_courtyard fp then ret tt else _generate_courtyard) ;;;
      fp' <- get ;;
      ret (Some fp')
  end.

(** [convert]: the outer [try] turns every exception into [None]. *)
Definition convert (limit : nat) (footprint_data : json) (component_name : string)
  : call (option footprint) :=
  match convert_body limit footprint_data (new_footprint component_name) with
  | Done r _ => Returns r
  | Raise _ _ => Returns None
  | Hang => NoReturn
  end.

End Converter.
End FootprintConverter.

(* ------------------------------------------------------------------ *)
(** ** kicad/model3d_config.py *)

Module Model3DConfig.
Import models geometry.
Section Config.
Context {F : Type} {num : Number F}.
Local Open Scope num_scope.

(** [self.overrides]: component id -> {"offset" | "rotation" | "scale" ->
    list of numbers}.  [save_overrides] only writes the file (and logs a
    failure): it leaves the object as it is, so it has no counterpart. *)
Local Abbreviation overrides_t := (gmap string (gmap string (list F))).

(** [list(t)] of a 3-tuple. *)
Definition list_of_tuple (t : F * F * F) : list F :=
  let '(a, b, c) := t in [a; b; c].

Definition set_field (k : string) (v : option (F * F * F))
    (entry : gmap string (list F)) : gmap string (list F) :=
  match v with
  | Some t => <[k := list_of_tuple t]> entry
  | None => entry
  end.

Definition set_override (overrides : overrides_t) (lcsc_id : string)
    (offset rotation scale : option (F * F * F)) : overrides_t :=
  let lcsc_id := pystr.upper lcsc_id in
  let entry := match overrides !! lcsc_id with
               | Some e => e
               | None => ∅
               end in
  <[lcsc_id := set_field "scale" scale
                 (set_field "rotation" rotation
                    (set_field "offset" offset entry))]> overrides.

Definition get_override (overrides : overrides_t) (lcsc_id : string)
  : option (gmap string (list F)) :=
  overrides !! pystr.upper lcsc_id.

Definition remove_override (overrides : overrides_t) (lcsc_id : string) : overrides_t :=
  delete (pystr.upper lcsc_id) overrides.

(** [sorted(key=...)]: a stable sort, by insertion. *)
Fixpoint insert_by {A} (key : A -> Z) (x : A) (l : list A) : list A :=
  match l with
  | [] => [x]
  | y :: r => if (key x <=? key y)%Z then x :: l else y :: insert_by key x r
  end.

Definition sort_by {A} (key : A -> Z) (l : list A) : list A :=
  fold_right (insert_by key) [] l.

Definition _find_pin1 (footprint : EasyEdaFootprint F) : option (FootprintPad F) :=
  match find (fun pad => existsb (String.eqb (pad_number pad))
                                 ["1"; "A1"; "A"; "P1"]%string)
             (fp_pads footprint) with
  | Some pad => Some pad
  | None =>
      let numbered_pads := List.filter (fun p => pystr.isdigit (pad_number p))
                                  (fp_pads footprint) in
      match sort_by (fun p => pystr.int (pad_number p)) numbered_pads with
      | first :: _ => Some first
      | [] => head (fp_pads footprint)
      end
  end.

Definition _calculate_rotation_from_pin1 (pin1 : FootprintPad F)
    (centroid_x centroid_y min_x max_x min_y max_y : F) : F :=
  let rel_x := pad_x pin1 - centroid_x in
  let rel_y := pad_y pin1 - centroid_y in
  let width := max_x - min_x in
  let height := max_y - min_y in
  if (width <? of_decimal 1 1) || (height <? of_decimal 1 1) then of_decimal 0 1 else
  let threshold := of_decimal 3 1 in
  if (rel_x <? - width * threshold) && (rel_y <? - height * threshold)
  then of_decimal 0 1
  else if (rel_x >? width * threshold) && (rel_y <? - height * threshold)
  then of_decimal 900 1
  else if (rel_x >? width * threshold) && (rel_y >? height * threshold)
  then of_decimal 1800 1
  else if (rel_x <? - width * threshold) && (rel_y >? height * threshold)
  then of_decimal 2700 1
  else of_decimal 0 1.

Definition _calculate_heuristic_transform (footprint : EasyEdaFootprint F)
  : list F * list F * list F :=
  let zero := of_decimal 0 1 in
  let scale := [of_decimal 10 1; of_decimal 10 1; of_decimal 10 1] in
  match map (fun p => (pad_x p, pad_y p)) (fp_pads footprint) with
  | [] => ([zero; zero; zero], [zero; zero; zero], scale)
  | p :: ps =>
      let min_x := min_from (fst p) (map fst ps) in
      let max_x := max_from (fst p) (map fst ps) in
      let min_y := min_from (snd p) (map snd ps) in
      let max_y := max_from (snd p) (map snd ps) in
      let centroid_x := (min_x + max_x) / of_int 2 in
      let centroid_y := (min_y + max_y) / of_int 2 in
      let offset_x := - centroid_x in
      let offset_y := - centroid_y in
      let rotation_z :=
        match _find_pin1 footprint with
        | Some pin1 => _calculate_rotation_from_pin1 pin1 centroid_x centroid_y
                         min_x max_x min_y max_y
        | None => zero
        end in
      ([offset_x; offset_y; zero], [zero; zero; rotation_z], scale)
  end.

(** [override.get(k, default)]. *)
Definition field_or (entry : gmap string (list F)) (k : string) (default : list F)
  : list F :=
  match entry !! k with
  | Some v => v
  | None => default
  end.

Definition calculate_transform (overrides : overrides_t) (lcsc_id : string)
    (footprint : EasyEdaFootprint F) : list F * list F * list F :=
  match get_override overrides lcsc_id with
  | Some override =>
      if decide (override = ∅) then _calculate_heuristic_transform footprint
      else (field_or override "offset" [of_int 0; of_int 0; of_int 0],
            field_or override "rotation" [of_int 0; of_int 0; of_int 0],
            field_or override "scale" [of_int 1; of_int 1; of_int 1])
  | None => _calculate_heuristic_transform footprint
  end.

(** The calls that reach the object between two observations. *)
Inductive op : Type :=
| SetOverride (lcsc_id : string) (offset rotation scale : option (F * F * F))
| RemoveOverride (lcsc_id : string)
| CalculateTransform (lcsc_id : string) (footprint : EasyEdaFootprint F).

Definition step (overrides : overrides_t) (o : op) : overrides_t :=
  match o with
  | SetOverride i off rot sc => set_override overrides i off rot sc
  | RemoveOverride i => remove_override overrides i
  | CalculateTransform _ _ => overrides
  end.

Definition run (overrides : overrides_t) (ops : list op) : overrides_t :=
  fold_left step ops overrides.

End Config.
End Model3DConfig.

(* ------------------------------------------------------------------ *)
(** ** kicad/footprint_writer.py and kicad/symbol_writer.py: names and
    strings *)

(** The quote and the backslash, as characters and as one-character
    strings. *)
Definition quote_char : ascii := "034"%char.
Definition backslash_char : ascii := "092"%char.
Definition quote : string := String quote_char EmptyString.
Definition backslash : string := String backslash_char EmptyString.

(** [_escape_string], the same in both writers: the empty string gives two
    quotes; otherwise every backslash is doubled, then every quote gets a
    backslash, and the whole is put between quotes. *)
Definition escape_string (s : string) : string :=
  if String.eqb s "" then (quote ++ quote)%string
  else
    let s := pystr.replace_char backslash_char (backslash ++ backslash) s in
    let s := pystr.replace_char quote_char (backslash ++ quote) s in
    (quote ++ s ++ quote)%string.

(** [_sanitize_name], the same in both writers but for the name given to
    an empty result: [re.sub(r'[^\w\-_.]', '_', name)] (on ASCII text),
    an underscore before a leading digit, [name or fallback]. *)
Definition name_char (c : ascii) : bool :=
  pystr.is_word c || Ascii.eqb c "-" || Ascii.eqb c "_" || Ascii.eqb c ".".

Definition sanitize_name (fallback name : string) : string :=
  let name := pystr.map_chars (fun c => if name_char c then c else "_"%char) name in
  let name :=
    match name with
    | String c _ => if pystr.is_digit c then String "_" name else name
    | EmptyString => name
    end in
  if String.eqb name "" then fallback else name.

Module FootprintWriter.

Definition _escape_string : string -> string := escape_string.

Definition _sanitize_name : string -> string := sanitize_name "Footprint".

End FootprintWriter.

Module SymbolWriter.

Definition _escape_string : string -> string := escape_string.

Definition _sanitize_name : string -> string := sanitize_name "Component".

End SymbolWriter.

(* ------------------------------------------------------------------ *)
(** ** A runtime for evaluated examples *)

(** [float] reads plain decimals ([decimal_float]).  The examples below
    hold no JSON text and no [ARC] command, so the other functions are
    never reached: [json.loads] refuses every text, the arc patterns match
    nothing. *)
Definition plain_runtime {F} {num : Number F} : Runtime F := {|
  py_float := decimal_float;
  json_loads := fun _ => None;
  re_search_M := fun _ => None;
  re_search_A := fun _ => None;
  math_atan2 := fun y _ => y;
  math_degrees := fun x => x
|}.

(** The same runtime, reading also the spellings [inf] and [-inf], which
    [float] accepts. *)
Definition infinity_runtime : Runtime float := {|
  py_float := fun s =>
    if String.eqb s "inf" then Some infinity
    else if String.eqb s "-inf" then Some neg_infinity
    else decimal_float s;
  json_loads := fun _ => None;
  re_search_M := fun _ => None;
  re_search_A := fun _ => None;
  math_atan2 := fun y _ => y;
  math_degrees := fun x => x
|}.

(* ------------------------------------------------------------------ *)
(** ** The vocabulary of the specification *)

Module Spec.
Import models geometry.
Section Vocabulary.
Context {F : Type} {num : Number F} {rt : Runtime F}.
Local Open Scope num_scope.
Local Open Scope py_scope.

(** "No geometry": every list of primitives is empty. *)
Definition symbol_empty (s : EasyEdaSymbol F) : Prop :=
  sym_pins s = [] /\ sym_rectangles s = [] /\ sym_polylines s = [] /\
  sym_circles s = [] /\ sym_arcs s = [] /\ sym_texts s = [].

Definition footprint_empty (fp : EasyEdaFootprint F) : Prop :=
  fp_pads fp = [] /\ fp_lines fp = [] /\ fp_circles fp = [] /\
  fp_arcs fp = [] /\ fp_polygons fp = [] /\ fp_texts fp = [] /\
  fp_holes fp = [].

(** The symbol object as [convert] holds it when the shapes are read. *)
Definition fresh_symbol (name description category : string) : EasyEdaSymbol F :=
  SymbolConverter.set_prefix (guess_reference_prefix description category)
                             (new_symbol name).

(** The footprint pipeline up to the courtyard step: shapes read, geometry
    centred, bounds computed. *)
Definition before_courtyard (limit : nat) (data : json)
  : M (EasyEdaFootprint F) unit :=
  FootprintConverter._parse_footprint_data limit data ;;;
  FootprintConverter._calculate_bounds_and_center ;;;
  FootprintConverter._calculate_bounds.

(** What [convert] makes of the footprint the shapes were read into. *)
Definition finished (fp0 : EasyEdaFootprint F) : EasyEdaFootprint F :=
  let fp := FootprintConverter.with_bounds (FootprintConverter.centered fp0) in
  if has_courtyard fp then fp else FootprintConverter.with_courtyard fp.

(** The bounding box of a pad, its centre, and the unweighted centroid
    (arithmetic mean) of the pads' boxes. *)
Definition pad_bbox (pad : FootprintPad F) : F * F * F * F :=
  let hw := pad_width pad / of_int 2 in
  let hh := pad_height pad / of_int 2 in
  (pad_x pad - hw, pad_y pad - hh, pad_x pad + hw, pad_y pad + hh).

Definition bbox_centre (b : F * F * F * F) : F * F :=
  let '(x0, y0, x1, y1) := b in ((x0 + x1) / of_int 2, (y0 + y1) / of_int 2).





(** The midpoint of the bounding box of the pad centres. *)
Definition pad_centre_box_midpoint (pads : list (FootprintPad F)) : F * F :=
  bbox_centre (bounding_box (map (fun p => (pad_x p, pad_y p)) pads)).

(** The field a [PAD] command gives the hole radius in, scaled. *)
Definition parsed_hole_radius (parts : list string) : option F :=
  match nth_error parts 9 with
  | Some p9 => Some (parse_float p9 * FootprintConverter.SCALE)
  | None => None
  end.

(** Calls that leave the rotation stored for [key] as it is. *)
Definition keeps_rotation (key : string) (o : Model3DConfig.op (F:=F)) : Prop :=
  match o with
  | Model3DConfig.SetOverride i _ rotation _ =>
      pystr.upper i <> key \/ rotation = None
  | Model3DConfig.RemoveOverride i => pystr.upper i <> key
  | Model3DConfig.CalculateTransform _ _ => True
  end.

(** The entry stored for [key] holds the rotation [r]. *)
Definition holds_rotation (key : string) (r : list F)
    (overrides : gmap string (gmap string (list F))) : Prop :=
  exists entry, overrides !! key = Some entry /\ entry !! "rotation"%string = Some r.

(** A closed outline: every line starts where the one before it ends, the
    first one where the last one ends. *)
Definition line_start (l : FootprintLine F) : F * F := (line_x1 l, line_y1 l).
Definition line_end (l : FootprintLine F) : F * F := (line_x2 l, line_y2 l).

Fixpoint chained (ls : list (FootprintLine F)) : Prop :=
  match ls with
  | a :: (b :: _) as r => line_end a = line_start b /\ chained r
  | _ => True
  end.

Definition closed_loop (ls : list (FootprintLine F)) : Prop :=
  chained ls /\
  match ls with
  | [] => True
  | a :: _ => line_end (List.last ls a) = line_start a
  end.

(** The rectangle with corners [(x0, y0)] and [(x1, y1)], drawn on the
    front courtyard layer with a 0.05 mm stroke. *)
Definition courtyard_rectangle (x0 y0 x1 y1 : F) : list (FootprintLine F) :=
  let side a b c d :=
    {| line_x1 := a; line_y1 := b; line_x2 := c; line_y2 := d;
       line_layer := "F.CrtYd"; line_stroke_width := of_decimal 5 2 |} in
  [side x0 y0 x1 y0; side x1 y0 x1 y1; side x1 y1 x0 y1; side x0 y1 x0 y0].


(** A footprint made of 1 mm square SMD pads at the given places. *)
Definition pad_at (number : string) (x y : F) : FootprintPad F :=
  {| pad_number := number; pad_x := x; pad_y := y;
     pad_width := of_int 1; pad_height := of_int 1;
     pad_shape := RECT; pad_type := SMD; pad_rotation := of_int 0;
     pad_drill_size := of_int 0; pad_drill_shape := "circle";
     pad_layers := ["F.Cu"; "F.Paste"; "F.Mask"]%string;
     pad_roundrect_ratio := of_decimal 25 2 |}.

Definition footprint_of_pads (pads : list (FootprintPad F)) : EasyEdaFootprint F :=
  FootprintConverter.set_pads pads (new_footprint "FP").

(** A [PAD] command and the number of its fields. *)
Definition is_pad_command (shape_str : string) : Prop :=
  pystr.upper (hd ""%string (pystr.split shape_str "~")) = "PAD"%string.

Definition field_count (shape_str : string) : nat :=
  length (pystr.split shape_str "~").

(** The kind of a shape command, and the number of fields the parser of
    each kind asks for before it reads any. *)
Definition command_type (shape_str : string) : string :=
  pystr.upper (hd ""%string (pystr.split shape_str "~")).

Definition required_fields (shape_type : string) : option nat :=
  table_get [("PAD", 9%nat); ("TRACK", 5%nat); ("CIRCLE", 6%nat); ("ARC", 5%nat);
             ("RECT", 6%nat); ("SOLIDREGION", 4%nat); ("TEXT", 11%nat);
             ("HOLE", 4%nat); ("VIA", 5%nat)]%string shape_type.

(** A command that cannot be read: of a kind the converter does not know,
    or with fewer fields than its kind asks for. *)
Definition unreadable (shape_str : string) : Prop :=
  match required_fields (command_type shape_str) with
  | Some n => (field_count shape_str < n)%nat
  | None => True
  end.

(** [fp'] is [fp] with primitives added at the end of its lists: nothing
    that was there is lost or changed. *)
Definition grown_from (fp fp' : EasyEdaFootprint F) : Prop :=
  fp_name fp' = fp_name fp /\
  fp_bounds fp' = fp_bounds fp /\
  (exists new, fp_pads fp' = fp_pads fp ++ new) /\
  (exists new, fp_lines fp' = fp_lines fp ++ new) /\
  (exists new, fp_circles fp' = fp_circles fp ++ new) /\
  (exists new, fp_arcs fp' = fp_arcs fp ++ new) /\
  (exists new, fp_polygons fp' = fp_polygons fp ++ new) /\
  (exists new, fp_texts fp' = fp_texts fp ++ new) /\
  (exists new, fp_holes fp' = fp_holes fp ++ new).

(** The stroke widths and font sizes the shape parsers store: a value
    clamped from below ([max(w, 0.1)], [max(w, 0.5)]) or one of the
    defaults 0.12 and 0.254. *)
Definition parsed_stroke (v : F) : Prop :=
  (exists w, v = max2 w (of_decimal 1 1)) \/
  v = of_decimal 12 2 \/ v = of_decimal 254 3.

Definition parsed_font (v : F) : Prop :=
  exists w, v = max2 w (of_decimal 5 1).

(** A footprint as the shape parsers leave it: no bounds yet, every stroke
    and font size a parsed one. *)
Definition footprint_as_parsed (fp : EasyEdaFootprint F) : Prop :=
  fp_bounds fp = None /\
  Forall (fun l => parsed_stroke (line_stroke_width l)) (fp_lines fp) /\
  Forall (fun c => parsed_stroke (circle_stroke_width c)) (fp_circles fp) /\
  Forall (fun a => parsed_stroke (arc_stroke_width a)) (fp_arcs fp) /\
  Forall (fun p => parsed_stroke (polygon_stroke_width p)) (fp_polygons fp) /\
  Forall (fun t => parsed_stroke (text_thickness t) /\
                   parsed_font (text_font_size t)) (fp_texts fp).

Definition symbol_as_parsed (s : EasyEdaSymbol F) : Prop :=
  Forall (fun r => parsed_stroke (rect_stroke_width r)) (sym_rectangles s) /\
  Forall (fun p => parsed_stroke (poly_stroke_width p)) (sym_polylines s) /\
  Forall (fun c => parsed_stroke (scircle_stroke_width c)) (sym_circles s) /\
  Forall (fun a => parsed_stroke (sarc_stroke_width a)) (sym_arcs s) /\
  Forall (fun t => parsed_font (stext_font_size t)) (sym_texts s).

(** A property of footprints that appending parsed primitives keeps. *)
Definition parsing_closed (P : EasyEdaFootprint F -> Prop) : Prop :=
  (forall fp l, P fp -> P (FootprintConverter.set_pads l fp)) /\
  (forall fp l, P fp -> P (FootprintConverter.set_holes l fp)) /\
  (forall fp new, P fp ->
     Forall (fun l => parsed_stroke (line_stroke_width l)) new ->
     P (FootprintConverter.set_lines (fp_lines fp ++ new) fp)) /\
  (forall fp c, P fp -> parsed_stroke (circle_stroke_width c) ->
     P (FootprintConverter.set_circles (fp_circles fp ++ [c]) fp)) /\
  (forall fp a, P fp -> parsed_stroke (arc_stroke_width a) ->
     P (FootprintConverter.set_arcs (fp_arcs fp ++ [a]) fp)) /\
  (forall fp g, P fp -> parsed_stroke (polygon_stroke_width g) ->
     P (FootprintConverter.set_polygons (fp_polygons fp ++ [g]) fp)) /\
  (forall fp t, P fp -> parsed_stroke (text_thickness t) ->
     parsed_font (text_font_size t) ->
     P (FootprintConverter.set_texts (fp_texts fp ++ [t]) fp)).

(** [p] lies in the box [b], borders included. *)
Definition inside (b : F * F * F * F) (p : F * F) : bool :=
  let '(x0, y0, x1, y1) := b in
  (x0 <=? fst p) && (fst p <=? x1) && (y0 <=? snd p) && (snd p <=? y1).

(** Both corners of the box [inner] lie in [b]. *)
Definition box_inside (b inner : F * F * F * F) : bool :=
  let '(x0, y0, x1, y1) := inner in inside b (x0, y0) && inside b (x1, y1).

Definition circle_bbox (c : FootprintCircle F) : F * F * F * F :=
  (circle_cx c - circle_radius c, circle_cy c - circle_radius c,
   circle_cx c + circle_radius c, circle_cy c + circle_radius c).

(** The KiCad layers: the values of [EASYEDA_LAYER_MAP]. *)
Definition known_layer (layer : string) : Prop :=
  In layer (map snd EASYEDA_LAYER_MAP).

(** The pads the footprint converter builds: surface-mount pads without
    drill on the three front or the three back layers, through-hole pads
    of a [PAD] command (drill twice a positive radius) and the pads of a
    [VIA] command. *)
Definition pad_as_converted (pad : FootprintPad F) : Prop :=
  In (pad_shape pad) [RECT; CIRCLE; OVAL; CUSTOM] /\
  pad_drill_shape pad = "circle"%string /\
  ((pad_type pad = SMD /\ pad_drill_size pad = of_int 0 /\
    (pad_layers pad = ["F.Cu"; "F.Paste"; "F.Mask"]%string \/
     pad_layers pad = ["B.Cu"; "B.Paste"; "B.Mask"]%string)) \/
   (pad_type pad = THRU_HOLE /\
    pad_layers pad = ["*.Cu"; "*.Paste"; "*.Mask"]%string /\
    exists r, (r >? of_int 0) = true /\ pad_drill_size pad = r * of_int 2) \/
   (pad_type pad = THRU_HOLE /\ pad_layers pad = ["*.Cu"]%string /\
    pad_number pad = ""%string /\ pad_shape pad = CIRCLE /\
    pad_width pad = pad_height pad /\
    (pad_drill_size pad >? of_decimal 1 1) = true)).

Definition text_as_converted (t : FootprintText F) : Prop :=
  known_layer (text_layer t) /\
  ((text_type t = "reference"%string /\ text_text t = "REF**"%string) \/
   text_type t = "value"%string \/ text_type t = "user"%string).

(** What the shape parsers keep of every primitive, and centring, bounds
    and courtyard after them. *)
Definition footprint_well_formed (fp : EasyEdaFootprint F) : Prop :=
  Forall pad_as_converted (fp_pads fp) /\
  Forall (fun l => known_layer (line_layer l)) (fp_lines fp) /\
  Forall (fun c => known_layer (circle_layer c) /\ circle_fill c = "none"%string)
         (fp_circles fp) /\
  Forall (fun a => known_layer (arc_layer a)) (fp_arcs fp) /\
  Forall (fun g => known_layer (polygon_layer g) /\ polygon_fill g = "solid"%string)
         (fp_polygons fp) /\
  Forall text_as_converted (fp_texts fp).


(** The pins the symbol converter builds: the rotation is a result of
    [normalize_angle], the length is 2.54, the electrical type is left
    unspecified. *)
Definition pin_as_converted (pin : SymbolPin F) : Prop :=
  (exists fuel angle, normalize_angle fuel angle = Some (pin_rotation pin)) /\
  pin_length pin = of_decimal 254 2 /\
  pin_type pin = UNSPECIFIED /\ pin_shape pin = LINE /\
  pin_hidden pin = false /\
  pin_name_visible pin = true /\ pin_number_visible pin = true.

(** What the shape parsers keep of a symbol named [name], with the
    reference prefix [prefix]. *)
Definition symbol_well_formed (name prefix : string) (s : EasyEdaSymbol F) : Prop :=
  sym_name s = name /\ sym_prefix s = prefix /\
  sym_unit_count s = 1%Z /\ sym_properties s = ∅ /\
  Forall pin_as_converted (sym_pins s) /\
  Forall (fun r => rect_fill r = "none"%string) (sym_rectangles s) /\
  Forall (fun p => poly_fill p = "none"%string \/ poly_fill p = "outline"%string)
         (sym_polylines s) /\
  Forall (fun c => scircle_fill c = "none"%string) (sym_circles s) /\
  Forall (fun t => stext_text t <> ""%string /\
                   pystr.startswith (stext_text t) "#" = false /\
                   stext_h_align t = "center"%string /\
                   stext_v_align t = "center"%string) (sym_texts s).

(** The payload [{"shape": [...]}]. *)
Definition shape_payload (shapes : list string) : json :=
  JDict [("shape"%string, JList (map JStr shapes))].

End Vocabulary.

(** A point of binary64 coordinates neither of which is NaN. *)
Definition no_nan (p : float * float) : Prop :=
  PrimFloat.is_nan (fst p) = false /\ PrimFloat.is_nan (snd p) = false.

(** [w] is not below [c]; it is at least [c] when it is a number. *)
Definition at_least (c w : float) : Prop :=
  PrimFloat.ltb w c = false /\
  (PrimFloat.is_nan w = false -> PrimFloat.leb c w = true).

(** The text between the quotes of a string token: no quote but after a
    backslash, no backslash left alone at the end. *)
Fixpoint well_escaped (s : string) : bool :=
  match s with
  | EmptyString => true
  | String c r =>
      if Ascii.eqb c backslash_char then
        match r with
        | String _ r' => well_escaped r'
        | EmptyString => false
        end
      else if Ascii.eqb c quote_char then false
      else well_escaped r
  end.

(** What a reader makes of it: a backslash stands for the character that
    follows it. *)
Fixpoint unescaped (s : string) : string :=
  match s with
  | EmptyString => EmptyString
  | String c r =>
      if Ascii.eqb c backslash_char then
        match r with
        | String d r' => String d (unescaped r')
        | EmptyString => EmptyString
        end
      else String c (unescaped r)
  end.

(** What the two replacements of [_escape_string] make of one character. *)
Definition escaped_char (c : ascii) : string :=
  if Ascii.eqb c backslash_char then (backslash ++ backslash)%string
  else if Ascii.eqb c quote_char then (backslash ++ quote)%string
  else String c EmptyString.

(** A name fit for a KiCad identifier: not empty, made of letters, digits,
    [_], [-] and [.], and not started by a digit. *)
Definition clean_name (name : string) : Prop :=
  name <> EmptyString /\
  pystr.all_chars name_char name = true /\
  match name with
  | String c _ => pystr.is_digit c = false
  | EmptyString => True
  end.

(** Payloads of the evaluated examples. *)
Definition unsupported_payload : json :=
  shape_payload ["FOO~1~2"; "SVGNODE~x"; ""]%string.

Definition three_pads_payload : json :=
  shape_payload ["PAD~RECT~0~0~4~4~1~~1~0";
                 "PAD~RECT~0~0~4~4~1~~2~0";
                 "PAD~RECT~30~10~4~4~1~~3~1.5"]%string.

Definition two_pads_payload : json :=
  shape_payload ["PAD~RECT~1~1~4~4~1~~1~0"; "PAD~RECT~16~16~4~4~1~~2~0"]%string.

Definition mixed_payload : json :=
  shape_payload ["PAD~RECT~0~0~4~4~1~~1~0"; "PAD~ELLIPSE~10~0~4~4~11~~2~1.5";
                 "VIA~5~5~2~1"; "TRACK~1~3~~0 0 10 0 10 10"; "CIRCLE~5~5~2~1~3";
                 "TEXT~ref~0~0~1~0~~3~~5~R1"; "TEXT~N~0~0~1~0~~13~~5~hello";
                 "HOLE~1~1~2"; "SOLIDREGION~3~~M 0 0 L 10 0 L 10 10 Z"]%string.

Definition symbol_payload : json :=
  shape_payload ["R~0~0~~~10~10~#000000~1"; "P~show~0~1~10~20~90~gge1";
                 "P~show~0~2~10~30~~gge2~0~M 10 30 h 10~#880000~1~VCC";
                 "PL~0 0 10 10~#000000~1"; "PG~0 0 10 0 10 10~#000000~1";
                 "E~5~5~2~2"; "T~L~5~5~0~#000~8~~comment"]%string.

Definition courtyard_payload : json :=
  shape_payload ["PAD~RECT~0~0~4~4~1~~1~0";
                 "TRACK~1~21~~-10 -10 10 -10 10 10"]%string.

Definition ten_pads : list string :=
  ["PAD~RECT~0~0~4~4~1~~1~0"; "PAD~RECT~10~0~4~4~1~~2~0";
   "PAD~RECT~20~0~4~4~1~~3~0"; "PAD~OVAL~30";
   "PAD~RECT~30~0~4~4~1~~4~0"; "PAD~RECT~40~0~4~4~1~~5~0";
   "PAD~RECT~0~50~4~4~1~~6~0"; "PAD~RECT~10~50~4~4~1~~7~0";
   "PAD~RECT~20~50~4~4~1~~8~0"; "PAD~ELLIPSE~30~50~4~4~1~~9~1.5"]%string.


Definition polyline_then_polygon : json :=
  shape_payload ["PL~0 0 10 10~#000000~1"; "PG~"]%string.

End Spec.

(* ================================================================== *)
(** * Properties *)

Unset Implicit Arguments.

(** ** Running the monad *)

Section MonadFacts.
Context {S A : Type}.

Lemma index_Done (l : list A) (i : nat) (d : A) (s : S) :
  (i < length l)%nat -> index l i s = Done (nth i l d) s.
Proof.
  intros H. unfold index.
  rewrite (nth_error_nth' l d H). reflexivity.
Qed.

Lemma index_nth_error (l : list A) (i : nat) (a : A) (s : S) :
  nth_error l i = Some a -> index l i s = Done a s.
Proof. intros H. unfold index. rewrite H. reflexivity. Qed.

Lemma keeps_ret h (P : S -> Prop) {B} (b : B) : keeps h P (ret b).
Proof. intros s Hs. exact Hs. Qed.

Lemma keeps_raise h (P : S -> Prop) {B} e : keeps h P (raise e : M S B).
Proof. intros s Hs. exact Hs. Qed.

Lemma keeps_index h (P : S -> Prop) (l : list A) i : keeps h P (index l i).
Proof. intros s Hs. unfold index. destruct (nth_error l i); exact Hs. Qed.

Lemma keeps_get h (P : S -> Prop) : keeps h P (get : M S S).
Proof. intros s Hs. exact Hs. Qed.

Lemma keeps_modify h (P : S -> Prop) f :
  (forall s, P s -> P (f s)) -> keeps h P (modify f).
Proof. intros Hf s Hs. apply Hf, Hs. Qed.

Lemma keeps_of_loop (P : S -> Prop) {B} (r : option B) : keeps True P (of_loop r).
Proof. intros s Hs. destruct r; simpl; auto. Qed.

Lemma keeps_bind h (P : S -> Prop) {B C} (m : M S B) (k : B -> M S C) :
  keeps h P m -> (forall b, keeps h P (k b)) -> keeps h P (bind m k).
Proof.
  intros Hm Hk s Hs. unfold bind.
  specialize (Hm s Hs). destruct (m s) as [b s'| e s' |]; auto.
  apply Hk, Hm.
Qed.

Lemma keeps_try h (P : S -> Prop) {B} (body : M S B) handler :
  keeps h P body -> (forall e, keeps h P (handler e)) ->
  keeps h P (try_except body handler).
Proof.
  intros Hb Hh s Hs. unfold try_except.
  specialize (Hb s Hs). destruct (body s) as [b s'| e s' |]; auto.
  apply Hh, Hb.
Qed.

Lemma keeps_for_each h (P : S -> Prop) {B} (l : list B) (body : B -> M S unit) :
  (forall b, keeps h P (body b)) -> keeps h P (for_each l body).
Proof.
  intros Hb. induction l as [|x r IH]; simpl.
  - apply keeps_ret.
  - apply keeps_bind; auto.
Qed.

Lemma catches_ret {B} (b : B) : catches_all (S := S) (ret b).
Proof. intros s. exact I. Qed.

Lemma catches_try_ret {B} (body : M S B) (b : B) :
  catches_all (try_except body (fun _ => ret b)).
Proof. intros s. unfold try_except. destruct (body s); exact I. Qed.

Lemma catches_bind {B C} (m : M S B) (k : B -> M S C) :
  catches_all m -> (forall b, catches_all (k b)) -> catches_all (bind m k).
Proof.
  intros Hm Hk s. unfold bind. specialize (Hm s).
  destruct (m s) as [b s'| |]; auto. apply Hk.
Qed.

Lemma catches_for_each {B} (l : list B) (body : B -> M S unit) :
  (forall b, catches_all (body b)) -> catches_all (for_each l body).
Proof.
  intros Hb. induction l as [|x r IH]; simpl.
  - apply catches_ret.
  - apply catches_bind; auto.
Qed.

End MonadFacts.

Lemma for_each_app {S A} (l1 l2 : list A) (body : A -> M S unit) (s : S) :
  for_each (l1 ++ l2) body s =
  bind (for_each l1 body) (fun _ => for_each l2 body) s.
Proof.
  revert s. induction l1 as [|x r IH]; intros s; simpl.
  - reflexivity.
  - unfold bind in *. destruct (body x s) as [[] s'| |]; auto.
Qed.

(** Unfolds the monad and runs the indexings that are in range. *)
Ltac mrun :=
  unfold try_except, bind, ret, modify, get, raise;
  repeat first [ rewrite (index_Done _ _ EmptyString) by (simpl; lia)
               | progress cbv beta iota ].

(** ** Strings *)

Lemma cons_head_not_nil c l : pystr.cons_head c l <> [].
Proof. destruct l; discriminate. Qed.

Lemma split_from_not_nil sep k s : pystr.split_from sep k s <> [].
Proof.
  revert k. induction s as [|c r IH]; intros k.
  - discriminate.
  - cbn [pystr.split_from]. destruct k; [|apply IH].
    destruct (String.prefix sep (String c r)); [discriminate|apply cons_head_not_nil].
Qed.

Lemma split_length_pos s sep : (0 < length (pystr.split s sep))%nat.
Proof.
  unfold pystr.split. pose proof (split_from_not_nil sep 0 s) as H.
  destruct (pystr.split_from sep 0 s); [congruence|simpl; lia].
Qed.

(* ------------------------------------------------------------------ *)
(** ** Pads: through-hole iff a positive hole radius *)

Section Pads.
Context {F : Type} {num : Number F} {rt : Runtime F}.
Import models geometry.
Local Open Scope num_scope.

Lemma parse_pad_short (parts : list string) (fp : EasyEdaFootprint F) :
  (length parts < 9)%nat -> FootprintConverter._parse_pad parts fp = Done tt fp.
Proof.
  intros H. unfold FootprintConverter._parse_pad.
  destruct (Nat.ltb_spec (length parts) 9); [reflexivity|lia].
Qed.

Lemma hole_radius_present (parts : list string) :
  (9 < length parts)%nat ->
  Spec.parsed_hole_radius parts =
  Some (parse_float (nth 9 parts EmptyString) * FootprintConverter.SCALE).
Proof.
  intros H. unfold Spec.parsed_hole_radius.
  rewrite (nth_error_nth' parts EmptyString H). reflexivity.
Qed.

Lemma hole_radius_absent (parts : list string) :
  (length parts <= 9)%nat -> Spec.parsed_hole_radius parts = None.
Proof.
  intros H. unfold Spec.parsed_hole_radius.
  destruct (nth_error parts 9) eqn:E; [|reflexivity].
  assert (9 < length parts)%nat by (apply nth_error_Some; congruence). lia.
Qed.

(** A [PAD] command of nine fields or more appends one pad. *)
Lemma parse_pad_appends (parts : list string) (fp : EasyEdaFootprint F) :
  (9 <= length parts)%nat ->
  exists pad,
    FootprintConverter._parse_pad parts fp
    = Done tt (FootprintConverter.set_pads (fp_pads fp ++ [pad]) fp).
Proof.
  intros H. unfold FootprintConverter._parse_pad.
  destruct (Nat.ltb_spec (length parts) 9) as [Hlt|_]; [lia|].
  mrun.
  destruct (Nat.ltb_spec 9 (length parts)) as [H9|H9];
    destruct (Nat.ltb_spec 11 (length parts)) as [H11|H11]; try lia; mrun;
    try destruct (nltb (of_int 0)
                    (parse_float (nth 9 parts EmptyString) * FootprintConverter.SCALE));
    mrun; eexists; reflexivity.
Qed.

(** C3.  An accepted [PAD] command (nine fields or more) appends exactly one
    pad.  Its type is [thru_hole] if and only if a hole radius was parsed
    (field 9, scaled) and is strictly positive; the drill size is then
    exactly twice that radius; otherwise the pad is [smd] with drill 0. *)
Theorem pad_type_iff_hole_radius (parts : list string) (fp : EasyEdaFootprint F) :
  (9 <= length parts)%nat ->
  exists pad,
    FootprintConverter._parse_pad parts fp
      = Done tt (FootprintConverter.set_pads (fp_pads fp ++ [pad]) fp) /\
    (pad_type pad = THRU_HOLE <->
       exists r, Spec.parsed_hole_radius parts = Some r /\ (r >? of_int 0) = true) /\
    (forall r, Spec.parsed_hole_radius parts = Some r -> (r >? of_int 0) = true ->
       pad_type pad = THRU_HOLE /\ pad_drill_size pad = r * of_int 2) /\
    (pad_type pad <> THRU_HOLE ->
       pad_type pad = SMD /\ pad_drill_size pad = of_int 0).
Proof.
  intros H. unfold FootprintConverter._parse_pad.
  destruct (Nat.ltb_spec (length parts) 9) as [Hlt|_]; [lia|].
  mrun.
  destruct (Nat.ltb_spec 9 (length parts)) as [H9|H9].
  - rewrite (hole_radius_present parts H9).
    destruct (Nat.ltb_spec 11 (length parts)) as [H11|H11]; mrun;
      destruct (nltb (of_int 0)
                  (parse_float (nth 9 parts EmptyString) * FootprintConverter.SCALE))
        eqn:Hr; mrun;
      (eexists; split; [reflexivity|]; cbn [pad_type pad_drill_size fst snd];
       repeat split;
       try solve [ intros; eauto
                 | intros (r & Hs & Hp); congruence
                 | intros r Hs Hp; congruence
                 | intros; congruence ]).
  - rewrite (hole_radius_absent parts) by lia.
    destruct (Nat.ltb_spec 11 (length parts)) as [H11|H11]; [lia|]. mrun.
    eexists; split; [reflexivity|]; cbn [pad_type pad_drill_size fst snd].
    repeat split; try solve [ intros (r & Hs & Hp); congruence
                            | intros; congruence ].
Qed.

End Pads.

(** A through-hole pad of the plain runtime: radius 1.5 units, drill
    0.762 mm. *)
Lemma pad_type_iff_hole_radius_witness :
  (9 <= length (pystr.split "PAD~RECT~30~10~4~4~1~~3~1.5" "~"))%nat /\
  exists pad : models.FootprintPad float,
    FootprintConverter._parse_pad (rt := plain_runtime)
      (pystr.split "PAD~RECT~30~10~4~4~1~~3~1.5" "~") (models.new_footprint "X")
      = Done tt (FootprintConverter.set_pads [pad] (models.new_footprint "X")) /\
    models.pad_type pad = models.THRU_HOLE /\
    models.pad_drill_size pad = 0.762%float.
Proof.
  assert (Hlen : (9 <= length (pystr.split "PAD~RECT~30~10~4~4~1~~3~1.5" "~"))%nat)
    by (vm_compute; lia).
  split; [exact Hlen|].
  destruct (pad_type_iff_hole_radius (F := float) (rt := plain_runtime)
              (pystr.split "PAD~RECT~30~10~4~4~1~~3~1.5" "~")
              (models.new_footprint "X") Hlen) as (pad & Hrun & _ & Hpos & _).
  exists pad. split; [exact Hrun|].
  destruct (Hpos (0.381)%float) as [Ht Hd]; [vm_compute; reflexivity|vm_compute; reflexivity|].
  split; [exact Ht|]. rewrite Hd. vm_compute. reflexivity.
Defined.

(* ------------------------------------------------------------------ *)
(** ** Pins: the Y coordinate is negated once *)

Section Pins.
Context {F : Type} {num : Number F} {rt : Runtime F}.
Import models geometry.
Local Open Scope num_scope.







End Pins.

(** *** The rotation loop in binary64 *)

Section RotationLoops.
Context {rt : Runtime float}.
Import models geometry.
Local Open Scope num_scope.

Lemma sub_turns_infinity (fuel : nat) : sub_turns fuel infinity = None.
Proof.
  induction fuel as [|fuel IH]; [reflexivity|].
  cbn [sub_turns].
  replace (infinity >=? of_int 360) with true by (vm_compute; reflexivity).
  replace (infinity - of_int 360) with infinity by (vm_compute; reflexivity).
  exact IH.
Qed.

Lemma add_turns_neg_infinity (fuel : nat) : add_turns fuel neg_infinity = None.
Proof.
  induction fuel as [|fuel IH]; [reflexivity|].
  cbn [add_turns].
  replace (neg_infinity <? of_int 0) with true by (vm_compute; reflexivity).
  replace (neg_infinity + of_int 360) with neg_infinity by (vm_compute; reflexivity).
  exact IH.
Qed.

Lemma normalize_angle_infinite (fuel : nat) (rotation : float) :
  rotation = infinity \/ rotation = neg_infinity ->
  normalize_angle fuel (rotation + of_int 180) = None.
Proof.
  intros [-> | ->]; unfold normalize_angle.
  - replace (infinity + of_int 180) with infinity by (vm_compute; reflexivity).
    destruct fuel as [|fuel]; [reflexivity|]. cbn [add_turns].
    replace (infinity <? of_int 0) with false by (vm_compute; reflexivity).
    apply sub_turns_infinity.
  - replace (neg_infinity + of_int 180) with neg_infinity by (vm_compute; reflexivity).
    rewrite add_turns_neg_infinity. reflexivity.
Qed.

Lemma parse_pin_hangs (fuel : nat) (parts : list string) (full_str p6 : string)
    (s : EasyEdaSymbol float) :
  (7 <= length parts)%nat ->
  nth_error parts 6 = Some p6 ->
  py_float p6 = Some infinity \/ py_float p6 = Some neg_infinity ->
  SymbolConverter._parse_pin fuel parts full_str s = Hang.
Proof.
  intros Hlen H6 Hinf. unfold SymbolConverter._parse_pin.
  destruct (Nat.ltb_spec (length parts) 7) as [Hlt|_]; [lia|].
  destruct (Nat.ltb_spec 3 (length parts)) as [_|Hge]; [|lia].
  mrun.
  rewrite (nth_error_nth parts 6 EmptyString H6).
  rewrite (normalize_angle_infinite fuel (parse_float p6)); [reflexivity|].
  unfold parse_float, parse_float_or. destruct Hinf as [-> | ->]; auto.
Qed.


End RotationLoops.




(* ------------------------------------------------------------------ *)
(** ** Polygons: which polyline gets the "outline" fill *)

Section Polygons.
Context {F : Type} {num : Number F} {rt : Runtime F}.
Import models geometry.
Local Open Scope num_scope.

Lemma mark_last_outline_snoc (l : list (SymbolPolyline F)) (p : SymbolPolyline F) :
  SymbolConverter.mark_last_outline (l ++ [p])
  = l ++ [SymbolConverter.set_fill "outline" p].
Proof.
  unfold SymbolConverter.mark_last_outline.
  destruct (l ++ [p]) eqn:E; [destruct l; discriminate|]. rewrite <- E.
  rewrite length_app. simpl length.
  replace (length l + 1 - 1)%nat with (length l + 0)%nat by lia.
  rewrite alter_app_r. reflexivity.
Qed.

(** A [PL]/[PG] command with points appends one polyline. *)
Lemma parse_polyline_with_points (parts : list string) (s : EasyEdaSymbol F) :
  (2 <= length parts)%nat ->
  SymbolConverter._parse_point_list (nth 1 parts EmptyString) <> [] ->
  exists w,
    SymbolConverter._parse_polyline parts s
    = Done tt (SymbolConverter.set_polylines
                 (sym_polylines s ++
                  [{| poly_points := SymbolConverter._parse_point_list (nth 1 parts EmptyString);
                      poly_stroke_width := max2 w (of_decimal 1 1);
                      poly_fill := "none" |}]) s).
Proof.
  intros Hlen Hpts. unfold SymbolConverter._parse_polyline.
  destruct (Nat.ltb_spec (length parts) 2) as [Hlt|_]; [lia|].
  mrun.
  destruct (SymbolConverter._parse_point_list (nth 1 parts EmptyString)) eqn:E;
    [congruence|].
  destruct (Nat.ltb_spec 3 (length parts)); mrun; eexists; reflexivity.
Qed.

(** Without points (or with a single field) it leaves the symbol as it is. *)
Lemma parse_polyline_without_points (parts : list string) (s : EasyEdaSymbol F) :
  (length parts < 2)%nat \/
  SymbolConverter._parse_point_list (nth 1 parts EmptyString) = [] ->
  SymbolConverter._parse_polyline parts s = Done tt s.
Proof.
  intros H. unfold SymbolConverter._parse_polyline.
  destruct (Nat.ltb_spec (length parts) 2) as [Hlt|Hge]; [reflexivity|].
  destruct H as [H|H]; [lia|]. mrun. rewrite H. reflexivity.
Qed.

(** When the [PG] command brings points, the polyline it appends is the
    one marked: those parsed before stay as they were. *)
Lemma parse_polygon_with_points (parts : list string) (s : EasyEdaSymbol F) :
  (2 <= length parts)%nat ->
  SymbolConverter._parse_point_list (nth 1 parts EmptyString) <> [] ->
  exists p,
    SymbolConverter._parse_polygon parts s
    = Done tt (SymbolConverter.set_polylines (sym_polylines s ++ [p]) s) /\
    poly_fill p = "outline"%string.
Proof.
  intros Hlen Hpts.
  destruct (parse_polyline_with_points parts s Hlen Hpts) as (w & Hrun).
  unfold SymbolConverter._parse_polygon, bind. rewrite Hrun.
  unfold modify. cbn [sym_polylines SymbolConverter.set_polylines].
  rewrite mark_last_outline_snoc.
  eexists. split; [reflexivity|reflexivity].
Qed.

(** When it brings none, the mark falls on the last polyline parsed
    before it. *)
Lemma parse_polygon_without_points (parts : list string) (s : EasyEdaSymbol F)
    (l : list (SymbolPolyline F)) (p : SymbolPolyline F) :
  (length parts < 2)%nat \/
  SymbolConverter._parse_point_list (nth 1 parts EmptyString) = [] ->
  sym_polylines s = l ++ [p] ->
  SymbolConverter._parse_polygon parts s
  = Done tt (SymbolConverter.set_polylines
               (l ++ [SymbolConverter.set_fill "outline" p]) s).
Proof.
  intros H Hl.
  unfold SymbolConverter._parse_polygon, bind.
  rewrite (parse_polyline_without_points parts s H).
  unfold modify. rewrite Hl, mark_last_outline_snoc. reflexivity.
Qed.

End Polygons.

(** C10 (the code departs from it).  The payload [PL~0 0 10 10~#000000~1]
    followed by [PG~]: the [PG] command has no point and appends nothing,
    yet the polyline parsed from [PL] ends up filled "outline"; without the
    [PG] command its fill is "none". *)
Theorem polygon_without_points_refills_previous :
  (exists s p,
     SymbolConverter.convert (F := float) (rt := plain_runtime) 4
       Spec.polyline_then_polygon "X" "" "" = Returns (Some s) /\
     models.sym_polylines s = [p] /\
     models.poly_fill p = "outline"%string) /\
  (exists s p,
     SymbolConverter.convert (F := float) (rt := plain_runtime) 4
       (Spec.shape_payload ["PL~0 0 10 10~#000000~1"%string]) "X" "" ""
       = Returns (Some s) /\
     models.sym_polylines s = [p] /\
     models.poly_fill p = "none"%string).
Proof.
  split; vm_compute; eexists; eexists; (split; [reflexivity|]); split; reflexivity.
Qed.

(* ------------------------------------------------------------------ *)
(** ** What the footprint shape parsers keep *)

(** One step through the structure of a computation. *)
Ltac keeps_step :=
  lazymatch goal with
  | |- keeps _ _ (ret _) => apply keeps_ret
  | |- keeps _ _ (raise _) => apply keeps_raise
  | |- keeps _ _ (index _ _) => apply keeps_index
  | |- keeps _ _ get => apply keeps_get
  | |- keeps _ _ (bind _ _) => apply keeps_bind; [|intros ?]
  | |- keeps _ _ (try_except _ _) => apply keeps_try; [|intros ?]
  | |- keeps _ _ (for_each _ _) => apply keeps_for_each; intros ?
  | |- keeps _ _ (modify _) => apply keeps_modify
  | |- keeps _ _ (match ?x with _ => _ end) => destruct x
  end.

Create HintDb strokes.

Section FootprintParsing.
Context {F : Type} {num : Number F} {rt : Runtime F}.
Import models geometry.
Local Open Scope num_scope.

Lemma clamped_stroke (w : F) : Spec.parsed_stroke (max2 w (of_decimal 1 1)).
Proof. left. exists w. reflexivity. Qed.

Lemma default_stroke_012 : Spec.parsed_stroke (of_decimal 12 2 : F).
Proof. right. left. reflexivity. Qed.

Lemma default_stroke_0254 : Spec.parsed_stroke (of_decimal 254 3 : F).
Proof. right. right. reflexivity. Qed.

Lemma clamped_font (w : F) : Spec.parsed_font (max2 w (of_decimal 5 1)).
Proof. exists w. reflexivity. Qed.

Lemma track_segments_strokes (points : list (F * F)) (layer : string) (w : F) :
  Forall (fun l => Spec.parsed_stroke (line_stroke_width l))
         (FootprintConverter.track_segments points layer w).
Proof.
  induction points as [|p r IH]; [constructor|].
  destruct r as [|q r']; [constructor|].
  cbn [FootprintConverter.track_segments]. constructor; [apply clamped_stroke|exact IH].
Qed.

Hint Resolve clamped_stroke default_stroke_012 default_stroke_0254 clamped_font
  track_segments_strokes : strokes.

Variable h : Prop.
Variable P : EasyEdaFootprint F -> Prop.
Hypothesis P_closed : Spec.parsing_closed P.

(** Closes what a [modify] leaves, by the closure of [P]. *)
Ltac closed_modify :=
  let fp := fresh "fp" in
  let H := fresh "H" in
  intros fp H;
  destruct P_closed as (Hpads & Hholes & Hlines & Hcircles & Harcs & Hpolys & Htexts);
  first [ apply Hpads; exact H
        | apply Hholes; exact H
        | apply Hlines; [exact H|];
          repeat first [apply List.Forall_nil | apply List.Forall_cons];
          cbn [line_stroke_width FootprintLine_default]; auto with strokes
        | apply Hcircles; [exact H|]; cbn [circle_stroke_width]; auto with strokes
        | apply Harcs; [exact H|]; cbn [arc_stroke_width]; auto with strokes
        | apply Hpolys; [exact H|]; cbn [polygon_stroke_width]; auto with strokes
        | apply Htexts; [exact H| |];
          cbn [text_thickness text_font_size]; auto with strokes ].

Ltac keeps_parser := repeat keeps_step; try closed_modify.

Lemma parse_pad_keeps parts : keeps h P (FootprintConverter._parse_pad parts).
Proof. unfold FootprintConverter._parse_pad. keeps_parser. Qed.

Lemma parse_track_keeps parts : keeps h P (FootprintConverter._parse_track parts).
Proof. unfold FootprintConverter._parse_track. keeps_parser. Qed.

Lemma parse_circle_keeps parts : keeps h P (FootprintConverter._parse_circle parts).
Proof. unfold FootprintConverter._parse_circle. keeps_parser. Qed.

Lemma parse_arc_keeps parts : keeps h P (FootprintConverter._parse_arc parts).
Proof. unfold FootprintConverter._parse_arc. keeps_parser. Qed.

Lemma parse_rect_keeps parts : keeps h P (FootprintConverter._parse_rect parts).
Proof. unfold FootprintConverter._parse_rect. keeps_parser. Qed.

Lemma parse_solid_region_keeps parts :
  keeps h P (FootprintConverter._parse_solid_region parts).
Proof. unfold FootprintConverter._parse_solid_region. keeps_parser. Qed.

Lemma parse_text_keeps parts : keeps h P (FootprintConverter._parse_text parts).
Proof. unfold FootprintConverter._parse_text. keeps_parser. Qed.

Lemma parse_hole_keeps parts : keeps h P (FootprintConverter._parse_hole parts).
Proof. unfold FootprintConverter._parse_hole. keeps_parser. Qed.

Lemma parse_via_keeps parts : keeps h P (FootprintConverter._parse_via parts).
Proof. unfold FootprintConverter._parse_via. keeps_parser. Qed.

Lemma parse_shape_string_keeps (shape_str : string) :
  keeps h P (FootprintConverter._parse_shape_string shape_str).
Proof.
  unfold FootprintConverter._parse_shape_string.
  destruct (String.eqb shape_str ""); [apply keeps_ret|].
  destruct (pystr.split shape_str "~") eqn:E; [apply keeps_ret|]. rewrite <- E.
  apply keeps_bind; [apply keeps_index|intros p0].
  apply keeps_try; [|intros e; apply keeps_ret].
  repeat match goal with
         | |- keeps _ _ (if ?b then _ else _) => destruct b
         end;
    auto using parse_pad_keeps, parse_track_keeps, parse_circle_keeps,
      parse_arc_keeps, parse_rect_keeps, parse_solid_region_keeps,
      parse_text_keeps, parse_hole_keeps, parse_via_keeps, keeps_ret.
Qed.

Lemma parse_shape_list_keeps (items : list json) :
  keeps h P (FootprintConverter.parse_shape_list items).
Proof.
  unfold FootprintConverter.parse_shape_list.
  apply keeps_for_each. intros [| | |shape_str| |d]; try apply keeps_ret.
  apply parse_shape_string_keeps.
Qed.

Lemma iterate_keeps {S} (Q : S -> Prop) (v : json) : keeps h Q (iterate v).
Proof. destruct v; simpl; first [apply keeps_ret | apply keeps_raise]. Qed.

Lemma get_or_none_keeps (data : json) (k : string) :
  keeps h P (FootprintConverter.get_or_none (F := F) data k).
Proof.
  unfold FootprintConverter.get_or_none.
  destruct data as [| | | | |d];
    [apply keeps_raise|apply keeps_raise|apply keeps_raise|apply keeps_raise
    |apply keeps_raise|].
  destruct (dict_get d k); apply keeps_ret.
Qed.

Lemma parse_footprint_data_keeps (limit : nat) (data : json) :
  keeps h P (FootprintConverter._parse_footprint_data limit data).
Proof.
  revert data. induction limit as [|limit IH]; intros data; simpl.
  - apply keeps_raise.
  - apply keeps_bind; [apply get_or_none_keeps|intros shape].
    apply keeps_bind.
    { destruct (truthy shape); [apply keeps_ret|].
      apply keeps_bind; [apply get_or_none_keeps|intros alt].
      destruct (truthy alt); apply keeps_ret. }
    intros shapes.
    apply keeps_bind; [apply iterate_keeps|intros items].
    apply keeps_bind; [apply parse_shape_list_keeps|intros _].
    destruct data as [| | | | |d];
      [apply keeps_raise|apply keeps_raise|apply keeps_raise|apply keeps_raise
      |apply keeps_raise|].
    destruct (dict_get d "dataStr") as [nested|]; [|apply keeps_ret].
    match goal with
    | |- keeps _ _ (match ?n with _ => _ end) => destruct n
    end; first [apply keeps_ret | apply IH].
Qed.

End FootprintParsing.

Section FootprintConversion.
Context {F : Type} {num : Number F} {rt : Runtime F}.
Import models geometry.
Local Open Scope num_scope.

Lemma as_parsed_closed : Spec.parsing_closed (Spec.footprint_as_parsed (F := F)).
Proof.
  unfold Spec.parsing_closed, Spec.footprint_as_parsed.
  repeat split; intros;
    repeat match goal with H : _ /\ _ |- _ => destruct H end;
    cbn [fp_bounds fp_lines fp_circles fp_arcs fp_polygons fp_texts
         FootprintConverter.set_pads FootprintConverter.set_lines
         FootprintConverter.set_circles FootprintConverter.set_arcs
         FootprintConverter.set_polygons FootprintConverter.set_texts
         FootprintConverter.set_holes];
    try assumption;
    apply Forall_app; split; try assumption;
    repeat first [apply List.Forall_nil | apply List.Forall_cons]; try split; assumption.
Qed.

Lemma anything_closed : Spec.parsing_closed (fun _ : EasyEdaFootprint F => True).
Proof. unfold Spec.parsing_closed. repeat split. Qed.

Lemma done_of_keeps {S A} (P : S -> Prop) (m : M S A) (s : S) :
  keeps False P m -> catches_all m -> P s ->
  exists a s', m s = Done a s' /\ P s'.
Proof.
  intros Hk Hc Hs. specialize (Hk s Hs). specialize (Hc s).
  destruct (m s) as [a s'| |]; [eauto|contradiction|contradiction].
Qed.

(** No exception leaves [_parse_shape_string]: the first field is always
    there, and the dispatch is inside [try]. *)
Lemma parse_shape_string_catches (shape_str : string) :
  catches_all (S := EasyEdaFootprint F)
              (FootprintConverter._parse_shape_string shape_str).
Proof.
  unfold FootprintConverter._parse_shape_string.
  destruct (String.eqb shape_str ""); [apply catches_ret|].
  pose proof (split_length_pos shape_str "~") as Hpos.
  destruct (pystr.split shape_str "~") eqn:E; [apply catches_ret|]. rewrite <- E.
  intros st. unfold bind.
  rewrite (index_Done _ _ EmptyString) by (rewrite E; simpl; lia).
  apply catches_try_ret.
Qed.

Lemma parse_shape_list_catches (items : list json) :
  catches_all (S := EasyEdaFootprint F) (FootprintConverter.parse_shape_list items).
Proof.
  unfold FootprintConverter.parse_shape_list.
  apply catches_for_each. intros [| | |shape_str| |d]; try apply catches_ret.
  apply parse_shape_string_catches.
Qed.

(** The loop over the shapes always runs to its end. *)
Lemma parse_shape_list_done (items : list json) (fp : EasyEdaFootprint F) :
  exists fp', FootprintConverter.parse_shape_list items fp = Done tt fp'.
Proof.
  destruct (done_of_keeps (fun _ => True) (FootprintConverter.parse_shape_list items) fp)
    as ([] & fp' & H & _);
    [apply parse_shape_list_keeps, anything_closed
    |apply parse_shape_list_catches|exact I|eauto].
Qed.

Lemma new_footprint_as_parsed (name : string) :
  Spec.footprint_as_parsed (new_footprint (F := F) name).
Proof. unfold Spec.footprint_as_parsed. simpl. repeat split; constructor. Qed.

(** How [convert] ends, from how the reading of the shapes ends. *)
Lemma convert_unfold (limit : nat) (data : json) (name : string) :
  FootprintConverter.convert limit data name =
  match loads_if_text data with
  | None => Returns None
  | Some d =>
      match FootprintConverter._parse_footprint_data limit d (new_footprint name) with
      | Done _ fp0 => Returns (Some (Spec.finished fp0))
      | Raise _ _ => Returns None
      | Hang => NoReturn
      end
  end.
Proof.
  unfold FootprintConverter.convert, FootprintConverter.convert_body.
  destruct (loads_if_text data) as [d|]; [|reflexivity].
  unfold bind.
  destruct (FootprintConverter._parse_footprint_data limit d (new_footprint name))
    as [[] fp0| |]; try reflexivity.
  unfold FootprintConverter._calculate_bounds_and_center,
    FootprintConverter._calculate_bounds, FootprintConverter._generate_courtyard,
    modify, get, ret, Spec.finished.
  cbv beta iota zeta.
  destruct (has_courtyard
              (FootprintConverter.with_bounds (FootprintConverter.centered fp0)));
    reflexivity.
Qed.

(** [convert] on a footprint payload always returns. *)
Lemma convert_returns_always (limit : nat) (data : json) (name : string) :
  FootprintConverter.convert limit data name <> NoReturn.
Proof.
  rewrite convert_unfold.
  destruct (loads_if_text data) as [d|]; [|discriminate].
  pose proof (@parse_footprint_data_keeps F num rt False _ as_parsed_closed limit d
                (new_footprint name) (new_footprint_as_parsed name)) as Hk.
  destruct (FootprintConverter._parse_footprint_data limit d (new_footprint name));
    [discriminate|discriminate|contradiction].
Qed.

Lemma convert_Some_inv (limit : nat) (data : json) (name : string)
    (fp : EasyEdaFootprint F) :
  FootprintConverter.convert limit data name = Returns (Some fp) ->
  exists d fp0,
    loads_if_text data = Some d /\
    FootprintConverter._parse_footprint_data limit d (new_footprint name)
      = Done tt fp0 /\
    Spec.footprint_as_parsed fp0 /\
    fp = Spec.finished fp0.
Proof.
  rewrite convert_unfold. intros H.
  destruct (loads_if_text data) as [d|]; [|discriminate].
  pose proof (@parse_footprint_data_keeps F num rt True _ as_parsed_closed limit d
                (new_footprint name) (new_footprint_as_parsed name)) as Hk.
  destruct (FootprintConverter._parse_footprint_data limit d (new_footprint name))
    as [[] fp0| |] eqn:E; try discriminate.
  exists d, fp0. inversion H.
  split; [reflexivity|]. split; [exact E|]. split; [exact Hk|reflexivity].
Qed.

End FootprintConversion.

(* ------------------------------------------------------------------ *)
(** ** Malformed shapes are skipped *)

(** A computation that leaves [P] alone whenever its parts do. *)
Section Dispatch.
Context {F : Type} {num : Number F} {rt : Runtime F}.
Import models geometry.
Variable h : Prop.
Variable P : EasyEdaFootprint F -> Prop.
Hypothesis pad_keeps : forall parts, keeps h P (FootprintConverter._parse_pad parts).
Hypothesis track_keeps : forall parts, keeps h P (FootprintConverter._parse_track parts).
Hypothesis circle_keeps : forall parts, keeps h P (FootprintConverter._parse_circle parts).
Hypothesis arc_keeps : forall parts, keeps h P (FootprintConverter._parse_arc parts).
Hypothesis rect_keeps : forall parts, keeps h P (FootprintConverter._parse_rect parts).
Hypothesis solid_region_keeps :
  forall parts, keeps h P (FootprintConverter._parse_solid_region parts).
Hypothesis text_keeps : forall parts, keeps h P (FootprintConverter._parse_text parts).
Hypothesis hole_keeps : forall parts, keeps h P (FootprintConverter._parse_hole parts).
Hypothesis via_keeps : forall parts, keeps h P (FootprintConverter._parse_via parts).

Lemma shape_string_keeps (shape_str : string) :
  keeps h P (FootprintConverter._parse_shape_string shape_str).
Proof.
  unfold FootprintConverter._parse_shape_string.
  destruct (String.eqb shape_str ""); [apply keeps_ret|].
  destruct (pystr.split shape_str "~") eqn:E; [apply keeps_ret|]. rewrite <- E.
  apply keeps_bind; [apply keeps_index|intros p0].
  apply keeps_try; [|intros e; apply keeps_ret].
  repeat match goal with
         | |- keeps _ _ (if ?b then _ else _) => destruct b
         end;
    auto using keeps_ret.
Qed.

Lemma footprint_data_keeps (limit : nat) (data : json) :
  keeps h P (FootprintConverter._parse_footprint_data limit data).
Proof.
  assert (Hget : forall d k, keeps h P (FootprintConverter.get_or_none (F := F) d k)).
  { intros d k. unfold FootprintConverter.get_or_none.
    destruct d as [| | | | |d];
      [apply keeps_raise|apply keeps_raise|apply keeps_raise|apply keeps_raise
      |apply keeps_raise|].
    destruct (dict_get d k); apply keeps_ret. }
  revert data. induction limit as [|limit IH]; intros data; simpl.
  - apply keeps_raise.
  - apply keeps_bind; [apply Hget|intros shape].
    apply keeps_bind.
    { destruct (truthy shape); [apply keeps_ret|].
      apply keeps_bind; [apply Hget|intros alt].
      destruct (truthy alt); apply keeps_ret. }
    intros shapes.
    apply keeps_bind; [apply iterate_keeps|intros items].
    apply keeps_bind.
    { unfold FootprintConverter.parse_shape_list.
      apply keeps_for_each. intros [| | |shape_str| |d]; try apply keeps_ret.
      apply shape_string_keeps. }
    intros _.
    destruct data as [| | | | |d];
      [apply keeps_raise|apply keeps_raise|apply keeps_raise|apply keeps_raise
      |apply keeps_raise|].
    destruct (dict_get d "dataStr") as [nested|]; [|apply keeps_ret].
    match goal with
    | |- keeps _ _ (match ?n with _ => _ end) => destruct n
    end; first [apply keeps_ret | apply IH].
Qed.

End Dispatch.

Section MalformedShapes.
Context {F : Type} {num : Number F} {rt : Runtime F}.
Import models geometry.
Local Open Scope num_scope.

Lemma pad_command_not_empty (shape_str : string) :
  Spec.is_pad_command shape_str -> String.eqb shape_str "" = false.
Proof.
  intros H. destruct (String.eqb_spec shape_str ""); [|reflexivity].
  subst. vm_compute in H. discriminate.
Qed.

(** A [PAD] command goes to [_parse_pad], inside [try]. *)
Lemma pad_command_dispatch (shape_str : string) (fp : EasyEdaFootprint F) :
  Spec.is_pad_command shape_str ->
  FootprintConverter._parse_shape_string shape_str fp
  = try_except (FootprintConverter._parse_pad (pystr.split shape_str "~"))
               (fun _ => ret tt) fp.
Proof.
  intros H. unfold FootprintConverter._parse_shape_string.
  rewrite (pad_command_not_empty shape_str H).
  unfold Spec.is_pad_command in H.
  destruct (pystr.split shape_str "~") as [|p0 rest] eqn:E;
    [vm_compute in H; discriminate|].
  cbn [hd] in H. unfold bind. cbn [index nth_error ret].
  rewrite H. reflexivity.
Qed.

Lemma pad_command_skipped (shape_str : string) (fp : EasyEdaFootprint F) :
  Spec.is_pad_command shape_str -> (Spec.field_count shape_str < 9)%nat ->
  FootprintConverter._parse_shape_string shape_str fp = Done tt fp.
Proof.
  intros H Hn. rewrite (pad_command_dispatch shape_str fp H).
  unfold try_except. rewrite parse_pad_short by exact Hn. reflexivity.
Qed.

Lemma pad_command_appends (shape_str : string) (fp : EasyEdaFootprint F) :
  Spec.is_pad_command shape_str -> (9 <= Spec.field_count shape_str)%nat ->
  exists pad,
    FootprintConverter._parse_shape_string shape_str fp
    = Done tt (FootprintConverter.set_pads (fp_pads fp ++ [pad]) fp).
Proof.
  intros H Hn. rewrite (pad_command_dispatch shape_str fp H).
  destruct (parse_pad_appends (pystr.split shape_str "~") fp Hn) as (pad & Hrun).
  exists pad. unfold try_except. rewrite Hrun. reflexivity.
Qed.

(** Over a list of [PAD] commands, the pads grow by the number of commands
    with nine fields or more. *)
Lemma pad_commands_count (shapes : list string) (fp : EasyEdaFootprint F) :
  Forall Spec.is_pad_command shapes ->
  exists fp',
    FootprintConverter.parse_shape_list (map JStr shapes) fp = Done tt fp' /\
    length (fp_pads fp')
    = (length (fp_pads fp)
       + length (List.filter (fun s => 9 <=? Spec.field_count s)%nat shapes))%nat.
Proof.
  intros Hall. revert fp.
  induction Hall as [|shape_str shapes Hpad Hall IH]; intros fp.
  - exists fp. split; [reflexivity|]. cbn [List.filter length]. lia.
  - unfold FootprintConverter.parse_shape_list in *. cbn [map for_each].
    unfold bind at 1. cbn [List.filter].
    destruct (Nat.leb_spec 9 (Spec.field_count shape_str)) as [Hge|Hlt].
    + destruct (pad_command_appends shape_str fp Hpad Hge) as (pad & Hrun).
      rewrite Hrun.
      destruct (IH (FootprintConverter.set_pads (fp_pads fp ++ [pad]) fp))
        as (fp' & Hrest & Hlen).
      exists fp'. split; [exact Hrest|]. rewrite Hlen.
      cbn [fp_pads FootprintConverter.set_pads length]. rewrite length_app.
      cbn [length]. lia.
    + rewrite (pad_command_skipped shape_str fp Hpad Hlt).
      destruct (IH fp) as (fp' & Hrest & Hlen).
      exists fp'. split; [exact Hrest|]. rewrite Hlen. lia.
Qed.

(** On the payload [{"shape": [...]}] with a non-empty list, reading the
    data is running the loop. *)
Lemma parse_shape_payload (limit : nat) (shapes : list string)
    (fp fp' : EasyEdaFootprint F) :
  shapes <> [] ->
  FootprintConverter.parse_shape_list (map JStr shapes) fp = Done tt fp' ->
  FootprintConverter._parse_footprint_data (S limit) (Spec.shape_payload shapes) fp
  = Done tt fp'.
Proof.
  intros Hne Hrun. unfold Spec.shape_payload.
  cbn [FootprintConverter._parse_footprint_data FootprintConverter.get_or_none
       dict_get].
  change (String.eqb "shape" "shape") with true. cbv beta iota.
  unfold bind at 1. cbn [ret].
  assert (Ht : truthy (JList (map JStr shapes)) = true)
    by (destruct shapes; [congruence|reflexivity]).
  rewrite Ht. unfold bind at 1. cbn [ret].
  unfold bind at 1. cbn [FootprintConverter.split_shapes iterate ret].
  unfold bind at 1. rewrite Hrun.
  change (String.eqb "dataStr" "shape") with false. cbv beta iota.
  reflexivity.
Qed.

Lemma centered_pads_length (fp : EasyEdaFootprint F) :
  length (fp_pads (FootprintConverter.centered fp)) = length (fp_pads fp).
Proof.
  unfold FootprintConverter.centered.
  destruct (FootprintConverter.center_of (FootprintConverter.center_points fp))
    as [[cx cy]|]; [|reflexivity].
  cbn [fp_pads FootprintConverter.shift_all]. apply length_map.
Qed.

Lemma with_bounds_pads (fp : EasyEdaFootprint F) :
  fp_pads (FootprintConverter.with_bounds fp) = fp_pads fp.
Proof.
  unfold FootprintConverter.with_bounds.
  destruct (FootprintConverter.bounds_points fp); reflexivity.
Qed.

Lemma with_courtyard_pads (fp : EasyEdaFootprint F) :
  fp_pads (FootprintConverter.with_courtyard fp) = fp_pads fp.
Proof.
  unfold FootprintConverter.with_courtyard.
  destruct (fp_bounds fp); reflexivity.
Qed.

Lemma finished_pads (fp0 : EasyEdaFootprint F) :
  fp_pads (Spec.finished fp0) = fp_pads (FootprintConverter.centered fp0).
Proof.
  unfold Spec.finished. cbv zeta.
  destruct (has_courtyard _);
    [|rewrite with_courtyard_pads]; apply with_bounds_pads.
Qed.

End MalformedShapes.

Section Skipped.
Context {F : Type} {num : Number F} {rt : Runtime F}.
Import models geometry.
Local Open Scope num_scope.

(** A command that cannot be read leaves the footprint as it is. *)
Lemma unreadable_command_skipped (shape_str : string) (fp : EasyEdaFootprint F) :
  Spec.unreadable shape_str ->
  FootprintConverter._parse_shape_string shape_str fp = Done tt fp.
Proof.
  unfold Spec.unreadable, Spec.command_type, Spec.field_count, Spec.required_fields,
    FootprintConverter._parse_shape_string.
  intros Hshort.
  destruct (String.eqb shape_str ""); [reflexivity|].
  destruct (pystr.split shape_str "~") as [|p0 rest] eqn:E; [reflexivity|].
  remember (p0 :: rest) as parts eqn:Hparts.
  assert (Hhd : hd ""%string parts = p0) by (subst parts; reflexivity).
  assert (H0 : index (S := EasyEdaFootprint F) parts 0 = ret p0)
    by (subst parts; reflexivity).
  rewrite Hhd in Hshort. cbn [table_get] in Hshort.
  unfold bind. rewrite H0. unfold ret at 1. unfold try_except.
  repeat match goal with
         | H : context [String.eqb ?a ?b] |- _ => destruct (String.eqb a b)
         end;
    try reflexivity;
    try (destruct (String.eqb _ "SVGNODE"); reflexivity);
    unfold FootprintConverter._parse_pad, FootprintConverter._parse_track,
      FootprintConverter._parse_circle, FootprintConverter._parse_arc,
      FootprintConverter._parse_rect, FootprintConverter._parse_solid_region,
      FootprintConverter._parse_text, FootprintConverter._parse_hole,
      FootprintConverter._parse_via;
    match goal with
    | |- context [(length parts <? ?n)%nat] =>
        destruct (Nat.ltb_spec (length parts) n) as [_|Hge]; [reflexivity|lia]
    end.
Qed.

Lemma grown_from_refl (fp : EasyEdaFootprint F) : Spec.grown_from fp fp.
Proof.
  unfold Spec.grown_from.
  repeat split; exists []; symmetry; apply app_nil_r.
Qed.

(** Closes what a [modify] that appends primitives leaves. *)
Ltac grown_modify :=
  let fp1 := fresh "fp" in
  let H := fresh "H" in
  intros fp1 H;
  destruct H as (Hname & Hbounds & [lp Hp] & [ll Hl] & [lc Hc] & [la Ha]
                 & [lg Hg] & [lt Ht] & [lh Hh]);
  unfold Spec.grown_from;
  cbn [fp_name fp_bounds fp_pads fp_lines fp_circles fp_arcs fp_polygons fp_texts
       fp_holes
       FootprintConverter.set_pads FootprintConverter.set_lines
       FootprintConverter.set_circles FootprintConverter.set_arcs
       FootprintConverter.set_polygons FootprintConverter.set_texts
       FootprintConverter.set_holes];
  repeat split; try assumption;
  first [ eexists; eassumption
        | match goal with
          | E : ?l = _ ++ _ |- exists new, ?l ++ _ = _ ++ new =>
              rewrite E, <- app_assoc; eexists; reflexivity
          end ].

Ltac grown_parser := repeat keeps_step; try grown_modify.

Variable fp0 : EasyEdaFootprint F.

Lemma pad_grows parts :
  keeps False (Spec.grown_from fp0) (FootprintConverter._parse_pad parts).
Proof. unfold FootprintConverter._parse_pad. grown_parser. Qed.

Lemma track_grows parts :
  keeps False (Spec.grown_from fp0) (FootprintConverter._parse_track parts).
Proof. unfold FootprintConverter._parse_track. grown_parser. Qed.

Lemma circle_grows parts :
  keeps False (Spec.grown_from fp0) (FootprintConverter._parse_circle parts).
Proof. unfold FootprintConverter._parse_circle. grown_parser. Qed.

Lemma arc_grows parts :
  keeps False (Spec.grown_from fp0) (FootprintConverter._parse_arc parts).
Proof. unfold FootprintConverter._parse_arc. grown_parser. Qed.

Lemma rect_grows parts :
  keeps False (Spec.grown_from fp0) (FootprintConverter._parse_rect parts).
Proof. unfold FootprintConverter._parse_rect. grown_parser. Qed.

Lemma solid_region_grows parts :
  keeps False (Spec.grown_from fp0) (FootprintConverter._parse_solid_region parts).
Proof. unfold FootprintConverter._parse_solid_region. grown_parser. Qed.

Lemma text_grows parts :
  keeps False (Spec.grown_from fp0) (FootprintConverter._parse_text parts).
Proof. unfold FootprintConverter._parse_text. grown_parser. Qed.

Lemma hole_grows parts :
  keeps False (Spec.grown_from fp0) (FootprintConverter._parse_hole parts).
Proof. unfold FootprintConverter._parse_hole. grown_parser. Qed.

Lemma via_grows parts :
  keeps False (Spec.grown_from fp0) (FootprintConverter._parse_via parts).
Proof. unfold FootprintConverter._parse_via. grown_parser. Qed.

Lemma shape_string_grows (shape_str : string) :
  keeps False (Spec.grown_from fp0) (FootprintConverter._parse_shape_string shape_str).
Proof.
  apply shape_string_keeps;
    auto using pad_grows, track_grows, circle_grows, arc_grows, rect_grows,
      solid_region_grows, text_grows, hole_grows, via_grows.
Qed.

Lemma shape_list_grows (items : list json) :
  keeps False (Spec.grown_from fp0) (FootprintConverter.parse_shape_list items).
Proof.
  unfold FootprintConverter.parse_shape_list.
  apply keeps_for_each. intros [| | |shape_str| |d]; try apply keeps_ret.
  apply shape_string_grows.
Qed.

End Skipped.

(** C9.  The loop over the shapes always runs to its end, whatever the
    shapes: no exception leaves it, what follows a shape is processed from
    the state that shape left, and nothing parsed before is lost or changed
    (primitives are only added at the end of the lists).  A single command
    is skipped, leaving the footprint as it is, whenever it cannot be read:
    it is of a kind the converter does not know, or it has fewer fields
    than its kind asks for ([PAD] 9, [TRACK] 5, [CIRCLE] 6, [ARC] 5,
    [RECT] 6, [SOLIDREGION] 4, [TEXT] 11, [HOLE] 4, [VIA] 5).  Hence a shape
    list with nine valid [PAD] commands and one [PAD] command of three
    fields, in any order, yields exactly nine pads. *)
Theorem malformed_shapes_are_skipped :
  (forall (F : Type) (num : Number F) (rt : Runtime F) (items rest : list json)
          (fp : models.EasyEdaFootprint F),
      exists fp1,
        FootprintConverter.parse_shape_list items fp = Done tt fp1 /\
        Spec.grown_from fp fp1 /\
        FootprintConverter.parse_shape_list (items ++ rest) fp
        = FootprintConverter.parse_shape_list rest fp1) /\
  (forall (F : Type) (num : Number F) (rt : Runtime F) (shape_str : string)
          (fp : models.EasyEdaFootprint F),
      (Spec.unreadable shape_str ->
       FootprintConverter._parse_shape_string shape_str fp = Done tt fp) /\
      exists fp1,
        FootprintConverter._parse_shape_string shape_str fp = Done tt fp1 /\
        Spec.grown_from fp fp1) /\
  (forall (F : Type) (num : Number F) (rt : Runtime F) (limit : nat)
          (before after : list string) (bad name : string),
      Forall (fun s => Spec.is_pad_command s /\ (9 <= Spec.field_count s)%nat)
             (before ++ after) ->
      length (before ++ after) = 9%nat ->
      Spec.is_pad_command bad -> Spec.field_count bad = 3%nat ->
      exists fp0 fp : models.EasyEdaFootprint F,
        FootprintConverter._parse_footprint_data (S limit)
          (Spec.shape_payload (before ++ bad :: after)) (models.new_footprint name)
          = Done tt fp0 /\
        length (models.fp_pads fp0) = 9%nat /\
        FootprintConverter.convert (S limit)
          (Spec.shape_payload (before ++ bad :: after)) name = Returns (Some fp) /\
        length (models.fp_pads fp) = 9%nat).
Proof.
  split; [|split].
  - intros F num rt items rest fp.
    destruct (done_of_keeps (Spec.grown_from fp)
                (FootprintConverter.parse_shape_list items) fp)
      as ([] & fp1 & Hrun & Hgrown);
      [apply shape_list_grows|apply parse_shape_list_catches|apply grown_from_refl|].
    exists fp1. split; [exact Hrun|]. split; [exact Hgrown|].
    unfold FootprintConverter.parse_shape_list in *.
    rewrite for_each_app. unfold bind. rewrite Hrun. reflexivity.
  - intros F num rt shape_str fp. split; [apply unreadable_command_skipped|].
    destruct (done_of_keeps (Spec.grown_from fp)
                (FootprintConverter._parse_shape_string shape_str) fp)
      as ([] & fp1 & Hrun & Hgrown);
      [apply shape_string_grows|apply parse_shape_string_catches|apply grown_from_refl|].
    exists fp1. split; assumption.
  - intros F num rt limit before after bad name Hgood Hlen Hbad Hbad3.
    assert (Hall : Forall Spec.is_pad_command (before ++ bad :: after)).
    { apply Forall_app in Hgood. destruct Hgood as [Hb Ha].
      apply Forall_app. split.
      - eapply List.Forall_impl; [|exact Hb]. intros s [Hs _]. exact Hs.
      - constructor; [exact Hbad|].
        eapply List.Forall_impl; [|exact Ha]. intros s [Hs _]. exact Hs. }
    destruct (pad_commands_count (before ++ bad :: after) (models.new_footprint name) Hall)
      as (fp0 & Hrun & Hcount).
    assert (Hkeep : forall l : list string,
               Forall (fun s => Spec.is_pad_command s /\ (9 <= Spec.field_count s)%nat) l ->
               List.filter (fun s => (9 <=? Spec.field_count s)%nat) l = l).
    { intros l Hl. induction Hl as [|s l [_ Hs] Hl IH]; [reflexivity|].
      cbn [List.filter].
      destruct (Nat.leb_spec 9 (Spec.field_count s)); [|lia].
      f_equal. exact IH. }
    assert (Hnine : length (models.fp_pads fp0) = 9%nat).
    { rewrite Hcount. cbn [models.fp_pads models.new_footprint length].
      apply Forall_app in Hgood. destruct Hgood as [Hb Ha].
      rewrite List.filter_app. cbn [List.filter]. rewrite Hbad3.
      change (9 <=? 3)%nat with false. cbv iota.
      rewrite (Hkeep before Hb), (Hkeep after Ha). exact Hlen. }
    assert (Hne : before ++ bad :: after <> []) by (destruct before; discriminate).
    pose proof (parse_shape_payload limit _ _ _ Hne Hrun) as Hdata.
    exists fp0, (Spec.finished fp0).
    split; [exact Hdata|]. split; [exact Hnine|]. split.
    + rewrite convert_unfold.
      change (loads_if_text (Spec.shape_payload (before ++ bad :: after)))
        with (Some (Spec.shape_payload (before ++ bad :: after))).
      cbv iota. rewrite Hdata. reflexivity.
    + rewrite finished_pads, centered_pads_length. exact Hnine.
Qed.

(** Nine valid [PAD] commands and [PAD~OVAL~30] in fourth place, under the
    plain runtime; and a [TRACK] command of three fields. *)
Lemma malformed_shapes_are_skipped_witness :
  (exists fp0 fp : models.EasyEdaFootprint float,
     FootprintConverter._parse_footprint_data (rt := plain_runtime) 1
       (Spec.shape_payload Spec.ten_pads) (models.new_footprint "X") = Done tt fp0 /\
     length (models.fp_pads fp0) = 9%nat /\
     FootprintConverter.convert (rt := plain_runtime) 1
       (Spec.shape_payload Spec.ten_pads) "X" = Returns (Some fp) /\
     length (models.fp_pads fp) = 9%nat) /\
  Spec.unreadable "TRACK~1~3" /\
  FootprintConverter._parse_shape_string (rt := plain_runtime) "TRACK~1~3"
    (models.new_footprint (F := float) "X") = Done tt (models.new_footprint "X").
Proof.
  split; [|split].
  - apply (proj2 (proj2 malformed_shapes_are_skipped) float binary64 plain_runtime 0%nat
             (firstn 3 Spec.ten_pads) (skipn 4 Spec.ten_pads) "PAD~OVAL~30"%string
             "X"%string).
    + repeat (apply List.Forall_cons; [split; [vm_compute; reflexivity|vm_compute; lia]|]).
      apply List.Forall_nil.
    + reflexivity.
    + vm_compute. reflexivity.
    + vm_compute. reflexivity.
  - vm_compute. lia.
  - apply (proj1 (proj1 (proj2 malformed_shapes_are_skipped) float binary64 plain_runtime
                    "TRACK~1~3"%string (models.new_footprint "X"))).
    vm_compute. lia.
Defined.

(* ------------------------------------------------------------------ *)
(** ** Payloads without geometry *)

Section EmptyConversion.
Context {F : Type} {num : Number F} {rt : Runtime F}.
Import models geometry.
Local Open Scope num_scope.

(** How the symbol [convert] ends, from how the reading of the shapes ends. *)
Lemma symbol_convert_unfold (fuel : nat) (data : json)
    (name description category : string) :
  SymbolConverter.convert fuel data name description category =
  match loads_if_text data with
  | None => Returns None
  | Some d =>
      match SymbolConverter.parse_shapes fuel d
              (Spec.fresh_symbol name description category) with
      | Done _ s0 => Returns (Some (SymbolConverter.with_offset s0))
      | Raise _ _ => Returns None
      | Hang => NoReturn
      end
  end.
Proof.
  unfold SymbolConverter.convert, SymbolConverter.convert_body, Spec.fresh_symbol.
  unfold bind at 1. cbn [modify].
  destruct (loads_if_text data) as [d|]; [|reflexivity].
  unfold bind at 1.
  destruct (SymbolConverter.parse_shapes fuel d _) as [[] s0| |]; reflexivity.
Qed.

Lemma with_offset_empty (s : EasyEdaSymbol F) :
  Spec.symbol_empty s -> SymbolConverter.with_offset s = s.
Proof.
  intros (Hp & Hr & Hl & Hc & _).
  unfold SymbolConverter.with_offset, SymbolConverter.offset_points.
  rewrite Hp, Hr, Hl, Hc. reflexivity.
Qed.

Lemma finished_empty (fp : EasyEdaFootprint F) :
  Spec.footprint_empty fp -> fp_bounds fp = None -> Spec.finished fp = fp.
Proof.
  intros (Hp & Hl & Hc & _ & Hg & _) Hb.
  assert (Hcen : FootprintConverter.centered fp = fp).
  { unfold FootprintConverter.centered, FootprintConverter.center_points.
    rewrite Hp, Hl, Hc. reflexivity. }
  assert (Hbnd : FootprintConverter.with_bounds fp = fp).
  { unfold FootprintConverter.with_bounds, FootprintConverter.bounds_points.
    rewrite Hp, Hl, Hc.
    rewrite Hg. reflexivity. }
  unfold Spec.finished. cbv zeta. rewrite Hcen, Hbnd.
  unfold has_courtyard. rewrite Hl. cbn [existsb].
  unfold FootprintConverter.with_courtyard. rewrite Hb. reflexivity.
Qed.

End EmptyConversion.

(** C1 as the code has it.  A payload whose shapes produce no geometry is
    converted to the empty object, not to "no result": the symbol converter
    returns the symbol it started from (named, with its reference prefix),
    the footprint converter the footprint it started from (no bounds, no
    courtyard).  "No result" ([None]) is returned exactly when the payload
    is a text that [json.loads] refuses or when an exception leaves the
    reading of the shapes (a payload that is not a dict, a "shape" entry
    that cannot be iterated). *)
Theorem empty_conversion_returns_object :
  (forall (F : Type) (num : Number F) (rt : Runtime F) (fuel : nat) (data d : json)
          (name description category : string) (s0 : models.EasyEdaSymbol F),
      loads_if_text data = Some d ->
      SymbolConverter.parse_shapes fuel d (Spec.fresh_symbol name description category)
        = Done tt s0 ->
      Spec.symbol_empty s0 ->
      SymbolConverter.convert fuel data name description category = Returns (Some s0)) /\
  (forall (F : Type) (num : Number F) (rt : Runtime F) (limit : nat) (data d : json)
          (name : string) (fp0 : models.EasyEdaFootprint F),
      loads_if_text data = Some d ->
      FootprintConverter._parse_footprint_data limit d (models.new_footprint name)
        = Done tt fp0 ->
      Spec.footprint_empty fp0 ->
      FootprintConverter.convert limit data name = Returns (Some fp0)) /\
  (forall (F : Type) (num : Number F) (rt : Runtime F) (fuel : nat) (data : json)
          (name description category : string),
      SymbolConverter.convert fuel data name description category = Returns None <->
      loads_if_text data = None \/
      exists d e s,
        loads_if_text data = Some d /\
        SymbolConverter.parse_shapes fuel d (Spec.fresh_symbol name description category)
          = Raise e s) /\
  (forall (F : Type) (num : Number F) (rt : Runtime F) (limit : nat) (data : json)
          (name : string),
      FootprintConverter.convert limit data name = Returns None <->
      loads_if_text data = None \/
      exists d e fp,
        loads_if_text data = Some d /\
        FootprintConverter._parse_footprint_data limit d (models.new_footprint name)
          = Raise e fp).
Proof.
  split; [|split; [|split]].
  - intros F num rt fuel data d name description category s0 Hd Hrun Hempty.
    rewrite symbol_convert_unfold, Hd, Hrun, (with_offset_empty s0 Hempty).
    reflexivity.
  - intros F num rt limit data d name fp0 Hd Hrun Hempty.
    pose proof (@parse_footprint_data_keeps F num rt True _ as_parsed_closed limit d
                  (models.new_footprint name) (new_footprint_as_parsed name)) as Hk.
    rewrite Hrun in Hk. destruct Hk as [Hb _].
    rewrite convert_unfold, Hd, Hrun, (finished_empty fp0 Hempty Hb).
    reflexivity.
  - intros F num rt fuel data name description category.
    rewrite symbol_convert_unfold.
    destruct (loads_if_text data) as [d|]; [|split; auto].
    destruct (SymbolConverter.parse_shapes fuel d _) as [[] s0|e s|] eqn:E; split;
      try discriminate; try solve [intros _; right; eauto]; try reflexivity;
      intros [H|(d' & e' & s' & Hd & Hr)]; try discriminate;
      inversion Hd; subst; congruence.
  - intros F num rt limit data name.
    rewrite convert_unfold.
    destruct (loads_if_text data) as [d|]; [|split; auto].
    destruct (FootprintConverter._parse_footprint_data limit d _) as [[] s0|e s|] eqn:E;
      split; try discriminate; try solve [intros _; right; eauto]; try reflexivity;
      intros [H|(d' & e' & s' & Hd & Hr)]; try discriminate;
      inversion Hd; subst; congruence.
Qed.

(** The payload with the shapes [FOO~1~2], [SVGNODE~x] and the empty
    command: nothing is parsed, and both converters return an object. *)
Lemma empty_conversion_returns_object_witness :
  SymbolConverter.convert (F := float) (rt := plain_runtime) 1
    Spec.unsupported_payload "X" "" ""
    = Returns (Some (Spec.fresh_symbol "X" "" "")) /\
  FootprintConverter.convert (F := float) (rt := plain_runtime) 1
    Spec.unsupported_payload "X" = Returns (Some (models.new_footprint "X")).
Proof.
  split.
  - apply (proj1 empty_conversion_returns_object float binary64 plain_runtime 1%nat
             Spec.unsupported_payload Spec.unsupported_payload);
      [reflexivity|vm_compute; reflexivity|repeat split].
  - apply (proj1 (proj2 empty_conversion_returns_object) float binary64 plain_runtime
             1%nat Spec.unsupported_payload Spec.unsupported_payload);
      [reflexivity|vm_compute; reflexivity|repeat split].
Defined.

(** C1 as stated fails: on the payload of unsupported shapes the parsers
    produce no geometry, yet neither converter returns [None]. *)
Lemma unsupported_shapes_yield_an_object :
  (FootprintConverter._parse_footprint_data (F := float) (rt := plain_runtime) 1
     Spec.unsupported_payload (models.new_footprint "X")
     = Done tt (models.new_footprint "X") /\
   Spec.footprint_empty (models.new_footprint (F := float) "X") /\
   FootprintConverter.convert (F := float) (rt := plain_runtime) 1
     Spec.unsupported_payload "X" <> Returns None) /\
  (SymbolConverter.parse_shapes (F := float) (rt := plain_runtime) 1
     Spec.unsupported_payload (Spec.fresh_symbol "X" "" "")
     = Done tt (Spec.fresh_symbol "X" "" "") /\
   Spec.symbol_empty (Spec.fresh_symbol (F := float) "X" "" "") /\
   SymbolConverter.convert (F := float) (rt := plain_runtime) 1
     Spec.unsupported_payload "X" "" "" <> Returns None).
Proof.
  split; (split; [vm_compute; reflexivity|]); (split; [repeat split|]);
    vm_compute; discriminate.
Qed.

(* ------------------------------------------------------------------ *)
(** ** Overrides take precedence over the heuristic *)

Section Overrides.
Context {F : Type} {num : Number F}.
Import models geometry.

Lemma set_field_other (k k' : string) (v : option (F * F * F))
    (entry : gmap string (list F)) :
  k <> k' -> Model3DConfig.set_field k v entry !! k' = entry !! k'.
Proof.
  intros Hne. unfold Model3DConfig.set_field.
  destruct v; [apply lookup_insert_ne; exact Hne|reflexivity].
Qed.

Lemma set_override_holds (overrides : gmap string (gmap string (list F)))
    (lcsc_id : string) (r : F * F * F) :
  Spec.holds_rotation (pystr.upper lcsc_id) (Model3DConfig.list_of_tuple r)
    (Model3DConfig.set_override overrides lcsc_id None (Some r) None).
Proof.
  unfold Spec.holds_rotation, Model3DConfig.set_override.
  eexists. split; [apply lookup_insert_eq|].
  cbn [Model3DConfig.set_field]. apply lookup_insert_eq.
Qed.

Lemma step_holds (key : string) (r : list F) (o : Model3DConfig.op)
    (overrides : gmap string (gmap string (list F))) :
  Spec.keeps_rotation key o -> Spec.holds_rotation key r overrides ->
  Spec.holds_rotation key r (Model3DConfig.step overrides o).
Proof.
  intros Hk (entry & He & Hr). unfold Spec.holds_rotation.
  destruct o as [i off rot sc|i|i fp]; cbn [Model3DConfig.step Spec.keeps_rotation] in *.
  - unfold Model3DConfig.set_override.
    destruct (decide (pystr.upper i = key)) as [Heq|Hne].
    + destruct Hk as [Hk|Hk]; [contradiction|]. subst rot key.
      rewrite He. eexists. split; [apply lookup_insert_eq|].
      rewrite set_field_other by discriminate.
      cbn [Model3DConfig.set_field].
      rewrite set_field_other by discriminate. exact Hr.
    + exists entry. split; [|exact Hr].
      rewrite lookup_insert_ne by exact Hne. exact He.
  - exists entry. split; [|exact Hr].
    unfold Model3DConfig.remove_override.
    rewrite lookup_delete_ne by exact Hk. exact He.
  - exists entry. auto.
Qed.

Lemma run_holds (key : string) (r : list F) (ops : list Model3DConfig.op)
    (overrides : gmap string (gmap string (list F))) :
  Forall (Spec.keeps_rotation key) ops -> Spec.holds_rotation key r overrides ->
  Spec.holds_rotation key r (Model3DConfig.run overrides ops).
Proof.
  intros Hops. revert overrides.
  induction Hops as [|o ops Ho Hops IH]; intros overrides Hh; [exact Hh|].
  unfold Model3DConfig.run in *. cbn [fold_left].
  apply IH, step_holds; assumption.
Qed.

(** C4.  After [set_override(id, rotation=r)] (the claim's [r] is
    (0, 0, 45)), and through any later calls that do not store another
    rotation for [id] nor remove its override, [calculate_transform(id, fp)]
    returns the rotation [r] for every footprint, with the stored offset or
    (0, 0, 0) and the stored scale or (1, 1, 1); once [remove_override(id)]
    is called it returns what the geometry heuristic computes. *)
Theorem override_precedence
    (overrides : gmap string (gmap string (list F))) (lcsc_id : string)
    (r : F * F * F) (ops : list Model3DConfig.op) (footprint : EasyEdaFootprint F) :
  Forall (Spec.keeps_rotation (pystr.upper lcsc_id)) ops ->
  let stored :=
    Model3DConfig.run (Model3DConfig.set_override overrides lcsc_id None (Some r) None)
                      ops in
  (exists entry,
     Model3DConfig.get_override stored lcsc_id = Some entry /\
     Model3DConfig.calculate_transform stored lcsc_id footprint
     = (match entry !! "offset"%string with
        | Some v => v
        | None => [of_int 0; of_int 0; of_int 0]
        end,
        Model3DConfig.list_of_tuple r,
        match entry !! "scale"%string with
        | Some v => v
        | None => [of_int 1; of_int 1; of_int 1]
        end)) /\
  Model3DConfig.calculate_transform
    (Model3DConfig.remove_override stored lcsc_id) lcsc_id footprint
  = Model3DConfig._calculate_heuristic_transform footprint.
Proof.
  intros Hops stored.
  destruct (run_holds (pystr.upper lcsc_id) (Model3DConfig.list_of_tuple r) ops _ Hops
              (set_override_holds overrides lcsc_id r)) as (entry & He & Hr).
  fold stored in He. split.
  - exists entry. split; [exact He|].
    unfold Model3DConfig.calculate_transform, Model3DConfig.get_override.
    rewrite He.
    destruct (decide (entry = ∅)) as [Hempty|_].
    + subst entry. rewrite lookup_empty in Hr. discriminate.
    + unfold Model3DConfig.field_or. rewrite Hr. reflexivity.
  - unfold Model3DConfig.calculate_transform, Model3DConfig.get_override,
      Model3DConfig.remove_override.
    rewrite lookup_delete_eq. reflexivity.
Qed.

End Overrides.

(** An empty store; [set_override("c12345", rotation=(0, 0, 45))]; then an
    override for another part, a transform query, an offset for the same
    part and the removal of a third one. *)
Lemma override_precedence_witness :
  let ops :=
    [Model3DConfig.SetOverride "C999" None (Some (90, 0, 0)%float) None;
     Model3DConfig.CalculateTransform "c12345" (models.new_footprint "FP");
     Model3DConfig.SetOverride "C12345" (Some (1, 2, 3)%float) None None;
     Model3DConfig.RemoveOverride "c1"] in
  let stored :=
    Model3DConfig.run
      (Model3DConfig.set_override ∅ "c12345" None (Some (0, 0, 45)%float) None) ops in
  (exists entry,
     Model3DConfig.get_override stored "c12345" = Some entry /\
     Model3DConfig.calculate_transform stored "c12345" (models.new_footprint "FP")
     = (match entry !! "offset"%string with
        | Some v => v
        | None => [of_int 0; of_int 0; of_int 0]
        end,
        [0; 0; 45]%float,
        match entry !! "scale"%string with
        | Some v => v
        | None => [of_int 1; of_int 1; of_int 1]
        end)) /\
  Model3DConfig.calculate_transform
    (Model3DConfig.remove_override stored "c12345") "c12345" (models.new_footprint "FP")
  = Model3DConfig._calculate_heuristic_transform (models.new_footprint "FP").
Proof.
  apply (override_precedence (F := float) ∅ "c12345" (0, 0, 45)%float).
  repeat apply List.Forall_cons; try apply List.Forall_nil; cbn [Spec.keeps_rotation].
  - left. vm_compute. discriminate.
  - exact I.
  - right. reflexivity.
  - vm_compute. discriminate.
Defined.

(* ------------------------------------------------------------------ *)
(** ** The synthesized courtyard *)

Section Courtyard.
Context {F : Type} {num : Number F} {rt : Runtime F}.
Import models geometry.
Local Open Scope num_scope.

Lemma with_bounds_lines (fp : EasyEdaFootprint F) :
  fp_lines (FootprintConverter.with_bounds fp) = fp_lines fp.
Proof.
  unfold FootprintConverter.with_bounds.
  destruct (FootprintConverter.bounds_points fp); reflexivity.
Qed.

Lemma courtyard_lines_rectangle (x0 y0 x1 y1 : F) :
  FootprintConverter.courtyard_lines (x0, y0, x1, y1)
  = Spec.courtyard_rectangle (x0 - of_decimal 25 2) (y0 - of_decimal 25 2)
                             (x1 + of_decimal 25 2) (y1 + of_decimal 25 2).
Proof. reflexivity. Qed.

Lemma courtyard_rectangle_closed (a b c d : F) :
  Spec.closed_loop (Spec.courtyard_rectangle a b c d).
Proof. unfold Spec.closed_loop. simpl. repeat split. Qed.

(** Centring moves the lines and keeps their layers. *)
Lemma centered_has_courtyard (fp : EasyEdaFootprint F) :
  has_courtyard (FootprintConverter.centered fp) = has_courtyard fp.
Proof.
  unfold FootprintConverter.centered.
  destruct (FootprintConverter.center_of (FootprintConverter.center_points fp))
    as [[cx cy]|]; [|reflexivity].
  unfold has_courtyard. cbn [fp_lines FootprintConverter.shift_all].
  induction (fp_lines fp) as [|l ls IH]; [reflexivity|].
  cbn [map existsb]. rewrite IH. reflexivity.
Qed.

Lemma before_courtyard_run (limit : nat) (d : json) (name : string)
    (fp0 : EasyEdaFootprint F) :
  FootprintConverter._parse_footprint_data limit d (new_footprint name) = Done tt fp0 ->
  Spec.before_courtyard limit d (new_footprint name)
  = Done tt (FootprintConverter.with_bounds (FootprintConverter.centered fp0)).
Proof.
  intros Hrun. unfold Spec.before_courtyard, bind. rewrite Hrun. reflexivity.
Qed.

(** C5.  Let a conversion return a footprint with bounds
    [(x0, y0, x1, y1)], and let [parsed] be the footprint just before the
    courtyard step (shapes read, geometry centred, bounds computed; it has a
    courtyard line exactly when the shapes as read have one).  If no line of
    [parsed] lies on a courtyard layer, the conversion adds exactly four
    lines after the lines of [parsed]: the closed rectangle with corners
    [(x0 - 0.25, y0 - 0.25)] and [(x1 + 0.25, y1 + 0.25)], on [F.CrtYd],
    with a 0.05 stroke.  If a line does, the lines stay those of [parsed]. *)
Theorem courtyard_synthesis (limit : nat) (data : json) (name : string)
    (fp : EasyEdaFootprint F) (x0 y0 x1 y1 : F) :
  FootprintConverter.convert limit data name = Returns (Some fp) ->
  fp_bounds fp = Some (x0, y0, x1, y1) ->
  exists d fp0 parsed,
    loads_if_text data = Some d /\
    FootprintConverter._parse_footprint_data limit d (new_footprint name)
      = Done tt fp0 /\
    Spec.before_courtyard limit d (new_footprint name) = Done tt parsed /\
    has_courtyard parsed = has_courtyard fp0 /\
    fp_bounds parsed = Some (x0, y0, x1, y1) /\
    (has_courtyard parsed = false ->
       let margin := of_decimal 25 2 in
       let added := Spec.courtyard_rectangle (x0 - margin) (y0 - margin)
                                             (x1 + margin) (y1 + margin) in
       fp_lines fp = fp_lines parsed ++ added /\
       length added = 4%nat /\
       Spec.closed_loop added) /\
    (has_courtyard parsed = true -> fp_lines fp = fp_lines parsed).
Proof.
  intros Hconv Hbounds.
  destruct (convert_Some_inv limit data name fp Hconv) as (d & fp0 & Hd & Hrun & _ & Hfp).
  exists d, fp0, (FootprintConverter.with_bounds (FootprintConverter.centered fp0)).
  split; [exact Hd|]. split; [exact Hrun|].
  split; [apply before_courtyard_run, Hrun|].
  split.
  { unfold has_courtyard at 1. rewrite with_bounds_lines.
    apply centered_has_courtyard. }
  subst fp. unfold Spec.finished in *. cbv zeta in *.
  set (parsed := FootprintConverter.with_bounds (FootprintConverter.centered fp0)) in *.
  destruct (has_courtyard parsed) eqn:Hc.
  - split; [exact Hbounds|]. split; [discriminate|]. intros _. reflexivity.
  - unfold FootprintConverter.with_courtyard in *.
    destruct (fp_bounds parsed) as [b|] eqn:Hb.
    + cbn [fp_bounds fp_lines FootprintConverter.set_lines] in *.
      rewrite Hb in Hbounds. inversion Hbounds; subst b.
      split; [reflexivity|]. split; [|discriminate].
      intros _. cbv zeta. rewrite courtyard_lines_rectangle.
      split; [reflexivity|]. split; [reflexivity|apply courtyard_rectangle_closed].
    + rewrite Hb in Hbounds. discriminate.
Qed.

End Courtyard.

(** Three pads and no courtyard line: the lines of the result are the four
    lines around its bounds. *)
Lemma courtyard_synthesis_witness :
  exists (fp : models.EasyEdaFootprint float) (x0 y0 x1 y1 : float),
    FootprintConverter.convert (rt := plain_runtime) 1 Spec.three_pads_payload "X"
      = Returns (Some fp) /\
    models.fp_bounds fp = Some (x0, y0, x1, y1) /\
    models.fp_lines fp
    = Spec.courtyard_rectangle (x0 - 0.25)%float (y0 - 0.25)%float
                               (x1 + 0.25)%float (y1 + 0.25)%float /\
    Spec.closed_loop (models.fp_lines fp).
Proof.
  eexists. eexists. eexists. eexists. eexists.
  assert (H1 : FootprintConverter.convert (rt := plain_runtime (F := float)) 1
                 Spec.three_pads_payload "X" = Returns (Some _))
    by (vm_compute; reflexivity).
  split; [exact H1|].
  match goal with
  | |- ?A /\ _ => assert (H2 : A) by (vm_compute; reflexivity)
  end.
  split; [exact H2|].
  destruct (courtyard_synthesis 1 Spec.three_pads_payload "X" _ _ _ _ _ H1 H2)
    as (d & fp0 & parsed & Hd & _ & Hbefore & _ & _ & Hno & _).
  inversion Hd; subst d. vm_compute in Hbefore. inversion Hbefore; subst parsed.
  destruct (Hno eq_refl) as (Hlines & _ & Hclosed).
  split; [exact Hlines|]. rewrite Hlines. exact Hclosed.
Defined.

(* ------------------------------------------------------------------ *)
(** ** What the symbol shape parsers keep *)

Section SymbolParsing.
Context {F : Type} {num : Number F} {rt : Runtime F}.
Import models geometry.
Local Open Scope num_scope.

Hint Resolve clamped_stroke default_stroke_012 default_stroke_0254 clamped_font
  : strokes.

(** Closes what a [modify] of the symbol leaves. *)
Ltac symbol_modify :=
  let s := fresh "s" in
  let H := fresh "H" in
  intros s H; unfold Spec.symbol_as_parsed in *;
  cbn [sym_rectangles sym_polylines sym_circles sym_arcs sym_texts
       SymbolConverter.set_pins SymbolConverter.set_rectangles
       SymbolConverter.set_polylines SymbolConverter.set_circles
       SymbolConverter.set_arcs SymbolConverter.set_texts];
  repeat match goal with H : _ /\ _ |- _ => destruct H end;
  repeat split; try assumption;
  try (apply Forall_app; split; [assumption|];
       repeat first [apply List.Forall_nil | apply List.Forall_cons];
       cbn [rect_stroke_width poly_stroke_width scircle_stroke_width
            sarc_stroke_width stext_font_size];
       auto with strokes).

Ltac keeps_symbol_parser :=
  repeat first [ keeps_step | apply keeps_of_loop ]; try symbol_modify.

Lemma symbol_parse_pin_keeps fuel parts full_str :
  keeps True Spec.symbol_as_parsed (SymbolConverter._parse_pin fuel parts full_str).
Proof. unfold SymbolConverter._parse_pin. keeps_symbol_parser. Qed.

Lemma symbol_parse_rectangle_keeps parts :
  keeps True Spec.symbol_as_parsed (SymbolConverter._parse_rectangle parts).
Proof. unfold SymbolConverter._parse_rectangle. keeps_symbol_parser. Qed.

Lemma symbol_parse_polyline_keeps parts :
  keeps True Spec.symbol_as_parsed (SymbolConverter._parse_polyline parts).
Proof. unfold SymbolConverter._parse_polyline. keeps_symbol_parser. Qed.

Lemma symbol_parse_line_keeps parts :
  keeps True Spec.symbol_as_parsed (SymbolConverter._parse_line parts).
Proof. unfold SymbolConverter._parse_line. keeps_symbol_parser. Qed.

Lemma symbol_parse_circle_keeps parts :
  keeps True Spec.symbol_as_parsed (SymbolConverter._parse_circle parts).
Proof. unfold SymbolConverter._parse_circle. keeps_symbol_parser. Qed.

Lemma symbol_parse_arc_keeps parts :
  keeps True Spec.symbol_as_parsed (SymbolConverter._parse_arc parts).
Proof. unfold SymbolConverter._parse_arc. keeps_symbol_parser. Qed.

Lemma symbol_parse_text_keeps parts :
  keeps True Spec.symbol_as_parsed (SymbolConverter._parse_text parts).
Proof. unfold SymbolConverter._parse_text. keeps_symbol_parser. Qed.

(** Marking the last polyline changes its fill only. *)
Lemma mark_last_outline_strokes (l : list (SymbolPolyline F)) :
  Forall (fun p => Spec.parsed_stroke (poly_stroke_width p)) l ->
  Forall (fun p => Spec.parsed_stroke (poly_stroke_width p))
         (SymbolConverter.mark_last_outline l).
Proof.
  intros H. unfold SymbolConverter.mark_last_outline.
  destruct l as [|p r]; [exact H|].
  apply Forall_alter; [exact H|]. intros x _ Hx. exact Hx.
Qed.

Lemma symbol_parse_polygon_keeps parts :
  keeps True Spec.symbol_as_parsed (SymbolConverter._parse_polygon parts).
Proof.
  unfold SymbolConverter._parse_polygon.
  apply keeps_bind; [apply symbol_parse_polyline_keeps|intros _].
  apply keeps_modify. intros s (Hr & Hp & Hc & Ha & Ht).
  unfold Spec.symbol_as_parsed.
  cbn [sym_rectangles sym_polylines sym_circles sym_arcs sym_texts
       SymbolConverter.set_polylines].
  repeat split; try assumption. apply mark_last_outline_strokes, Hp.
Qed.

Lemma symbol_parse_shape_keeps fuel shape_str :
  keeps True Spec.symbol_as_parsed (SymbolConverter._parse_shape fuel shape_str).
Proof.
  unfold SymbolConverter._parse_shape.
  destruct (String.eqb shape_str ""); [apply keeps_ret|].
  destruct (pystr.split shape_str "~") eqn:E; [apply keeps_ret|]. rewrite <- E.
  apply keeps_bind; [apply keeps_index|intros p0].
  apply keeps_try; [|intros e; apply keeps_ret].
  repeat match goal with
         | |- keeps _ _ (if ?b then _ else _) => destruct b
         end;
    auto using symbol_parse_pin_keeps, symbol_parse_rectangle_keeps,
      symbol_parse_polyline_keeps, symbol_parse_line_keeps,
      symbol_parse_circle_keeps, symbol_parse_arc_keeps, symbol_parse_text_keeps,
      symbol_parse_polygon_keeps, keeps_ret.
Qed.

Lemma symbol_parse_shapes_keeps fuel data :
  keeps True Spec.symbol_as_parsed (SymbolConverter.parse_shapes fuel data).
Proof.
  unfold SymbolConverter.parse_shapes.
  apply keeps_bind.
  { unfold SymbolConverter.get_shape.
    destruct data as [| | | | |d];
      [apply keeps_raise|apply keeps_raise|apply keeps_raise|apply keeps_raise
      |apply keeps_raise|].
    destruct (dict_get d "shape"); apply keeps_ret. }
  intros shapes.
  apply keeps_bind; [apply iterate_keeps|intros items].
  apply keeps_for_each. intros [| | |shape_str| |d]; try apply keeps_ret.
  apply symbol_parse_shape_keeps.
Qed.

Lemma fresh_symbol_as_parsed (name description category : string) :
  Spec.symbol_as_parsed (Spec.fresh_symbol (F := F) name description category).
Proof. unfold Spec.symbol_as_parsed. simpl. repeat split; constructor. Qed.

Lemma with_offset_as_parsed (s : EasyEdaSymbol F) :
  Spec.symbol_as_parsed s -> Spec.symbol_as_parsed (SymbolConverter.with_offset s).
Proof.
  unfold SymbolConverter.with_offset.
  destruct (SymbolConverter.offset_points s); [auto|]. intros H. exact H.
Qed.

Lemma symbol_convert_as_parsed (fuel : nat) (data : json)
    (name description category : string) (s : EasyEdaSymbol F) :
  SymbolConverter.convert fuel data name description category = Returns (Some s) ->
  Spec.symbol_as_parsed s.
Proof.
  rewrite symbol_convert_unfold.
  destruct (loads_if_text data) as [d|]; [|discriminate].
  pose proof (symbol_parse_shapes_keeps fuel d
                (Spec.fresh_symbol name description category)
                (fresh_symbol_as_parsed name description category)) as Hk.
  destruct (SymbolConverter.parse_shapes fuel d _) as [[] s0| |]; try discriminate.
  intros H. inversion H. apply with_offset_as_parsed, Hk.
Qed.

End SymbolParsing.

(* ------------------------------------------------------------------ *)
(** ** Stroke widths and font sizes *)

Section FinishedStrokes.
Context {F : Type} {num : Number F} {rt : Runtime F}.
Import models geometry.
Local Open Scope num_scope.

Lemma centered_as_parsed (fp : EasyEdaFootprint F) :
  Spec.footprint_as_parsed fp -> Spec.footprint_as_parsed (FootprintConverter.centered fp).
Proof.
  intros H. unfold FootprintConverter.centered.
  destruct (FootprintConverter.center_of (FootprintConverter.center_points fp))
    as [[cx cy]|]; [|exact H].
  destruct H as (Hb & Hl & Hc & Ha & Hp & Ht).
  unfold Spec.footprint_as_parsed.
  cbn [fp_bounds fp_lines fp_circles fp_arcs fp_polygons fp_texts
       FootprintConverter.shift_all].
  split; [exact Hb|].
  repeat split; apply List.Forall_map;
    (eapply List.Forall_impl; [|eassumption]); intros x Hx; exact Hx.
Qed.

(** The strokes of a converted footprint: parsed ones, and 0.05 on the
    front courtyard layer for the lines of the synthesized courtyard. *)
Lemma finished_strokes (fp0 : EasyEdaFootprint F) :
  Spec.footprint_as_parsed fp0 ->
  Forall (fun l => Spec.parsed_stroke (line_stroke_width l) \/
                   (line_layer l = "F.CrtYd"%string /\
                    line_stroke_width l = of_decimal 5 2))
         (fp_lines (Spec.finished fp0)) /\
  Forall (fun c => Spec.parsed_stroke (circle_stroke_width c))
         (fp_circles (Spec.finished fp0)) /\
  Forall (fun a => Spec.parsed_stroke (arc_stroke_width a))
         (fp_arcs (Spec.finished fp0)) /\
  Forall (fun p => Spec.parsed_stroke (polygon_stroke_width p))
         (fp_polygons (Spec.finished fp0)) /\
  Forall (fun t => Spec.parsed_stroke (text_thickness t) /\
                   Spec.parsed_font (text_font_size t))
         (fp_texts (Spec.finished fp0)).
Proof.
  intros H. apply centered_as_parsed in H.
  destruct H as (_ & Hl & Hc & Ha & Hp & Ht).
  set (fp1 := FootprintConverter.centered fp0) in *.
  assert (Hparsed : forall l, Spec.parsed_stroke (line_stroke_width l) ->
                     Spec.parsed_stroke (line_stroke_width l) \/
                     (line_layer l = "F.CrtYd"%string /\
                      line_stroke_width l = of_decimal 5 2)) by (intros; left; assumption).
  unfold Spec.finished. cbv zeta. fold fp1.
  assert (Hsame : forall fp2,
             fp2 = FootprintConverter.with_bounds fp1 ->
             fp_lines fp2 = fp_lines fp1 /\ fp_circles fp2 = fp_circles fp1 /\
             fp_arcs fp2 = fp_arcs fp1 /\ fp_polygons fp2 = fp_polygons fp1 /\
             fp_texts fp2 = fp_texts fp1).
  { intros fp2 ->. unfold FootprintConverter.with_bounds.
    destruct (FootprintConverter.bounds_points fp1); repeat split. }
  destruct (Hsame _ eq_refl) as (El & Ec & Ea & Ep & Et).
  set (fp2 := FootprintConverter.with_bounds fp1) in *.
  destruct (has_courtyard fp2).
  - rewrite El, Ec, Ea, Ep, Et.
    split; [eapply List.Forall_impl; [exact Hparsed|exact Hl]|].
    repeat split; assumption.
  - unfold FootprintConverter.with_courtyard.
    destruct (fp_bounds fp2) as [[[[x0 y0] x1] y1]|].
    + cbn [fp_lines fp_circles fp_arcs fp_polygons fp_texts
           FootprintConverter.set_lines].
      rewrite El, Ec, Ea, Ep, Et.
      split.
      { apply Forall_app. split; [eapply List.Forall_impl; [exact Hparsed|exact Hl]|].
        repeat first [apply List.Forall_nil | apply List.Forall_cons];
          right; split; reflexivity. }
      repeat split; assumption.
    + rewrite El, Ec, Ea, Ep, Et.
      split; [eapply List.Forall_impl; [exact Hparsed|exact Hl]|].
      repeat split; assumption.
Qed.

End FinishedStrokes.

(** *** Order of binary64 numbers *)

Lemma SFcompare_antisym (a b : spec_float) :
  SFcompare b a = option_map CompOpp (SFcompare a b).
Proof.
  destruct a as [sa|sa| |sa ma ea], b as [sb|sb| |sb mb eb]; simpl;
    try reflexivity;
    try (destruct sa; reflexivity);
    try (destruct sb; reflexivity);
    try (destruct sa, sb; reflexivity).
  destruct sa, sb; try reflexivity; f_equal;
    rewrite (Z.compare_antisym ea eb); destruct (ea ?= eb)%Z; simpl; try reflexivity.
  - f_equal. apply ZC4.
  - apply ZC4.
Qed.

Lemma SFcompare_self (a : spec_float) :
  SFcompare a a = None \/ SFcompare a a = Some Eq.
Proof.
  pose proof (SFcompare_antisym a a) as H.
  destruct (SFcompare a a) as [[| |]|]; simpl in H; auto; discriminate.
Qed.

Lemma float_ltb_irrefl (c : float) : PrimFloat.ltb c c = false.
Proof.
  rewrite FloatAxioms.ltb_spec. unfold SFltb.
  destruct (SFcompare_self (Prim2SF c)) as [H|H]; rewrite H; reflexivity.
Qed.

Lemma SFcompare_defined (a b : spec_float) :
  SFcompare a a = Some Eq -> SFcompare b b = Some Eq ->
  exists o, SFcompare a b = Some o.
Proof.
  destruct a as [sa|sa| |sa ma ea], b as [sb|sb| |sb mb eb]; simpl;
    intros Ha Hb; try discriminate; eauto.
Qed.

Lemma not_nan_self (w : float) :
  PrimFloat.is_nan w = false -> SFcompare (Prim2SF w) (Prim2SF w) = Some Eq.
Proof.
  intros Hn. unfold PrimFloat.is_nan in Hn. rewrite FloatAxioms.eqb_spec in Hn.
  unfold SFeqb in Hn.
  destruct (SFcompare_self (Prim2SF w)) as [H|H]; rewrite H in *;
    [discriminate|reflexivity].
Qed.

(** Between numbers, "not below" is "at least". *)
Lemma float_not_below (c w : float) :
  PrimFloat.is_nan c = false -> PrimFloat.ltb w c = false ->
  PrimFloat.is_nan w = false -> PrimFloat.leb c w = true.
Proof.
  intros Hc Hlt Hw. rewrite FloatAxioms.ltb_spec in Hlt. rewrite FloatAxioms.leb_spec.
  unfold SFltb in Hlt. unfold SFleb.
  rewrite (SFcompare_antisym (Prim2SF w) (Prim2SF c)).
  destruct (SFcompare_defined _ _ (not_nan_self w Hw) (not_nan_self c Hc)) as (o & Ho).
  rewrite Ho in *. destruct o; simpl; congruence.
Qed.

(** [max(w, c)] is at least [c], for a number [c]. *)
Lemma clamp_at_least (c w : float) :
  PrimFloat.is_nan c = false -> Spec.at_least c (geometry.max2 w c).
Proof.
  intros Hc. unfold geometry.max2, geometry.max_from. cbn [fold_left nltb binary64].
  destruct (PrimFloat.ltb w c) eqn:Hlt; split.
  - apply float_ltb_irrefl.
  - intros _. apply float_not_below; [exact Hc|apply float_ltb_irrefl|exact Hc].
  - exact Hlt.
  - intros Hw. apply float_not_below; assumption.
Qed.

Lemma parsed_stroke_at_least (v : float) :
  Spec.parsed_stroke v -> Spec.at_least 0.1 v.
Proof.
  intros [(w & ->)|[->| ->]].
  - change (of_decimal 1 1) with 0.1%float. apply clamp_at_least. reflexivity.
  - split; [reflexivity|intros _; reflexivity].
  - split; [reflexivity|intros _; reflexivity].
Qed.

Lemma parsed_font_at_least (v : float) :
  Spec.parsed_font v -> Spec.at_least 0.5 v.
Proof.
  intros (w & ->).
  change (of_decimal 5 1) with 0.5%float. apply clamp_at_least. reflexivity.
Qed.

(** C7 as the code has it.  In a converted footprint or symbol, every
    stroke width that comes from a shape command is not below 0.1 mm and
    every font size not below 0.5 mm, and they are at least 0.1 mm and
    0.5 mm whenever they are numbers (not NaN); the lines of the synthesized
    courtyard are the exception: their stroke is 0.05 mm, by design. *)
Theorem parsed_strokes_and_fonts_clamped (rt : Runtime float) :
  (forall (limit : nat) (data : json) (name : string)
          (fp : models.EasyEdaFootprint float),
      FootprintConverter.convert limit data name = Returns (Some fp) ->
      Forall (fun l => Spec.at_least 0.1 (models.line_stroke_width l) \/
                       (models.line_layer l = "F.CrtYd"%string /\
                        models.line_stroke_width l = 0.05%float))
             (models.fp_lines fp) /\
      Forall (fun c => Spec.at_least 0.1 (models.circle_stroke_width c))
             (models.fp_circles fp) /\
      Forall (fun a => Spec.at_least 0.1 (models.arc_stroke_width a))
             (models.fp_arcs fp) /\
      Forall (fun p => Spec.at_least 0.1 (models.polygon_stroke_width p))
             (models.fp_polygons fp) /\
      Forall (fun t => Spec.at_least 0.1 (models.text_thickness t) /\
                       Spec.at_least 0.5 (models.text_font_size t))
             (models.fp_texts fp)) /\
  (forall (fuel : nat) (data : json) (name description category : string)
          (s : models.EasyEdaSymbol float),
      SymbolConverter.convert fuel data name description category = Returns (Some s) ->
      Forall (fun r => Spec.at_least 0.1 (models.rect_stroke_width r))
             (models.sym_rectangles s) /\
      Forall (fun p => Spec.at_least 0.1 (models.poly_stroke_width p))
             (models.sym_polylines s) /\
      Forall (fun c => Spec.at_least 0.1 (models.scircle_stroke_width c))
             (models.sym_circles s) /\
      Forall (fun a => Spec.at_least 0.1 (models.sarc_stroke_width a))
             (models.sym_arcs s) /\
      Forall (fun t => Spec.at_least 0.5 (models.stext_font_size t))
             (models.sym_texts s)).
Proof.
  split.
  - intros limit data name fp Hconv.
    destruct (convert_Some_inv limit data name fp Hconv) as (d & fp0 & _ & _ & Hp & ->).
    destruct (finished_strokes fp0 Hp) as (Hl & Hc & Ha & Hg & Ht).
    split; [|split; [|split; [|split]]].
    + eapply List.Forall_impl; [|exact Hl].
      intros l [H|[H1 H2]]; [left; apply parsed_stroke_at_least, H|right].
      split; [exact H1|rewrite H2; reflexivity].
    + eapply List.Forall_impl; [|exact Hc]. intros c. apply parsed_stroke_at_least.
    + eapply List.Forall_impl; [|exact Ha]. intros a. apply parsed_stroke_at_least.
    + eapply List.Forall_impl; [|exact Hg]. intros g. apply parsed_stroke_at_least.
    + eapply List.Forall_impl; [|exact Ht]. intros t [H1 H2].
      split; [apply parsed_stroke_at_least, H1|apply parsed_font_at_least, H2].
  - intros fuel data name description category s Hconv.
    destruct (symbol_convert_as_parsed fuel data name description category s Hconv)
      as (Hr & Hp & Hc & Ha & Ht).
    split; [|split; [|split; [|split]]].
    + eapply List.Forall_impl; [|exact Hr]. intros r. apply parsed_stroke_at_least.
    + eapply List.Forall_impl; [|exact Hp]. intros p. apply parsed_stroke_at_least.
    + eapply List.Forall_impl; [|exact Hc]. intros c. apply parsed_stroke_at_least.
    + eapply List.Forall_impl; [|exact Ha]. intros a. apply parsed_stroke_at_least.
    + eapply List.Forall_impl; [|exact Ht]. intros t. apply parsed_font_at_least.
Qed.

(** A pad with a track of source width 1 (0.254 mm) on the courtyard layer,
    and a symbol with one polyline: their strokes are at least 0.1 mm. *)
Lemma parsed_strokes_and_fonts_clamped_witness :
  exists (fp : models.EasyEdaFootprint float) (s : models.EasyEdaSymbol float),
    FootprintConverter.convert (rt := plain_runtime) 1 Spec.courtyard_payload "X"
      = Returns (Some fp) /\
    length (models.fp_lines fp) = 2%nat /\
    Forall (fun l => Spec.at_least 0.1 (models.line_stroke_width l) \/
                     (models.line_layer l = "F.CrtYd"%string /\
                      models.line_stroke_width l = 0.05%float))
           (models.fp_lines fp) /\
    SymbolConverter.convert (rt := plain_runtime) 4 Spec.polyline_then_polygon "X" "" ""
      = Returns (Some s) /\
    length (models.sym_polylines s) = 1%nat /\
    Forall (fun p => Spec.at_least 0.1 (models.poly_stroke_width p))
           (models.sym_polylines s).
Proof.
  eexists. eexists.
  assert (H1 : FootprintConverter.convert (rt := plain_runtime (F := float)) 1
                 Spec.courtyard_payload "X" = Returns (Some _))
    by (vm_compute; reflexivity).
  split; [exact H1|]. split; [reflexivity|].
  split; [exact (proj1 (proj1 (parsed_strokes_and_fonts_clamped plain_runtime)
                          _ _ _ _ H1))|].
  assert (H2 : SymbolConverter.convert (rt := plain_runtime (F := float)) 4
                 Spec.polyline_then_polygon "X" "" "" = Returns (Some _))
    by (vm_compute; reflexivity).
  split; [exact H2|]. split; [reflexivity|].
  exact (proj1 (proj2 (proj2 (parsed_strokes_and_fonts_clamped plain_runtime)
                         _ _ _ _ _ _ H2))).
Defined.

(** C7 as stated fails: the courtyard that the conversion of three pads
    synthesizes is stored with a stroke of 0.05 mm, below 0.1 mm. *)
Lemma courtyard_stroke_below_minimum :
  exists (fp : models.EasyEdaFootprint float) (line : models.FootprintLine float),
    FootprintConverter.convert (rt := plain_runtime) 1 Spec.three_pads_payload "X"
      = Returns (Some fp) /\
    In line (models.fp_lines fp) /\
    models.line_stroke_width line = 0.05%float /\
    PrimFloat.ltb (models.line_stroke_width line) 0.1 = true /\
    PrimFloat.leb 0.1 (models.line_stroke_width line) = false.
Proof.
  eexists. eexists.
  split; [vm_compute; reflexivity|].
  split; [left; reflexivity|].
  split; [|split]; reflexivity.
Qed.

(* ------------------------------------------------------------------ *)
(** ** Centring *)

Section Centring.
Context {F : Type} {num : Number F} {rt : Runtime F}.
Import models geometry.
Local Open Scope num_scope.




End Centring.


(** In binary64 these subtractions are rounded, so that the midpoint of
    the box of the moved pads need not be zero: for two pads given at
    (1, 1) and (16, 16) it is one unit in the last place of 1 away. *)
Lemma two_pads_midpoint_residue :
  exists fp : models.EasyEdaFootprint float,
    FootprintConverter.convert (rt := plain_runtime) 1 Spec.two_pads_payload "X"
      = Returns (Some fp) /\
    Spec.pad_centre_box_midpoint (models.fp_pads fp)
    = (0x1p-52, -0x1p-52)%float.
Proof.
  eexists. split; vm_compute; reflexivity.
Qed.


(* ------------------------------------------------------------------ *)
(** ** The heuristic rotation *)

Section HeuristicRotation.
Context {F : Type} {num : Number F}.
Import models geometry.
Local Open Scope num_scope.





End HeuristicRotation.



(* ================================================================== *)
(** * Further properties of the conversion core *)

Import models geometry.
Local Open Scope num_scope.

(* ------------------------------------------------------------------ *)
(** ** A pin rotation that is not finite *)


Section InfiniteRotation.
Context {rt : Runtime float}.
Import models geometry.
Local Open Scope num_scope.

Lemma symbol_parse_shape_catches (fuel : nat) (shape_str : string) :
  catches_all (S := EasyEdaSymbol float) (SymbolConverter._parse_shape fuel shape_str).
Proof.
  unfold SymbolConverter._parse_shape.
  destruct (String.eqb shape_str ""); [apply catches_ret|].
  pose proof (split_length_pos shape_str "~") as Hpos.
  destruct (pystr.split shape_str "~") eqn:E; [apply catches_ret|]. rewrite <- E.
  intros st. unfold bind.
  rewrite (index_Done _ _ EmptyString) by (rewrite E; simpl; lia).
  apply catches_try_ret.
Qed.

Lemma symbol_parse_shape_payload (fuel : nat) (shapes : list string)
    (s : EasyEdaSymbol float) :
  SymbolConverter.parse_shapes fuel (Spec.shape_payload shapes) s
  = for_each (map JStr shapes)
      (fun shape => match shape with
                    | JStr shape_str => SymbolConverter._parse_shape fuel shape_str
                    | _ => ret tt
                    end) s.
Proof. reflexivity. Qed.

(** X2.  In binary64 the loops of [normalize_angle] never end on an
    infinite angle (infinity minus 360 is infinity).  Hence a symbol payload
    holding, anywhere among its shapes, one [P] command of seven fields or
    more whose rotation field [float] reads as plus or minus infinity makes
    [SymbolConverter.convert] run forever, whatever fuel is given: it
    returns neither a symbol nor [None]. *)
Theorem infinite_pin_rotation_never_returns (fuel : nat)
    (before after parts : list string) (shape_str p6 : string)
    (name description category : string) :
  pystr.split shape_str "~" = parts ->
  pystr.upper (hd EmptyString parts) = "P"%string ->
  (7 <= length parts)%nat ->
  nth_error parts 6 = Some p6 ->
  py_float p6 = Some infinity \/ py_float p6 = Some neg_infinity ->
  SymbolConverter.convert fuel (Spec.shape_payload (before ++ shape_str :: after))
    name description category = NoReturn.
Proof.
  intros Hsplit Hp Hlen H6 Hinf.
  rewrite symbol_convert_unfold. cbn [loads_if_text Spec.shape_payload].
  change (JDict [("shape"%string, JList (map JStr (before ++ shape_str :: after)))])
    with (Spec.shape_payload (before ++ shape_str :: after)).
  rewrite symbol_parse_shape_payload, map_app, for_each_app. unfold bind.
  match goal with
  | |- match match ?m with _ => _ end with _ => _ end = _ =>
      pose proof (catches_for_each (map JStr before) _
                    (fun shape => match shape as j return catches_all
                       (match j with
                        | JStr shape_str => SymbolConverter._parse_shape fuel shape_str
                        | _ => ret tt end) with
                     | JStr str => symbol_parse_shape_catches fuel str
                     | _ => catches_ret tt end)
                    (Spec.fresh_symbol name description category)) as Hc;
      destruct m as [[] s1| |]
  end; [|contradiction|reflexivity].
  cbn [map for_each]. unfold bind.
  assert (Hrun : SymbolConverter._parse_shape fuel shape_str s1 = Hang).
  { unfold SymbolConverter._parse_shape.
    destruct (String.eqb_spec shape_str "") as [->|_].
    { subst parts. simpl in Hlen. lia. }
    rewrite Hsplit.
    destruct parts as [|p0 rest]; [simpl in Hlen; lia|].
    unfold bind. cbn [index nth_error ret hd] in *. rewrite Hp.
    cbn [String.eqb Ascii.eqb Bool.eqb]. unfold try_except.
    rewrite (parse_pin_hangs fuel (p0 :: rest) shape_str p6 s1 Hlen H6 Hinf).
    reflexivity. }
  rewrite Hrun. reflexivity.
Qed.

End InfiniteRotation.

(** A rectangle, a pin whose rotation field is [inf], a polyline. *)
Lemma infinite_pin_rotation_never_returns_witness :
  SymbolConverter.convert (rt := infinity_runtime) 1000
    (Spec.shape_payload (["R~0~0~~~10~10"%string] ++ "P~show~0~1~10~20~inf~gge1"%string
                           :: ["PL~0 0 10 10~#000000~1"%string]))
    "X" "" "" = NoReturn.
Proof.
  apply (infinite_pin_rotation_never_returns (rt := infinity_runtime) 1000
           ["R~0~0~~~10~10"%string] ["PL~0 0 10 10~#000000~1"%string]
           (pystr.split "P~show~0~1~10~20~inf~gge1" "~")
           "P~show~0~1~10~20~inf~gge1" "inf" "X" "" "");
    [reflexivity|reflexivity|vm_compute; lia|reflexivity|left; reflexivity].
Defined.

(* ------------------------------------------------------------------ *)
(** ** Bounding boxes *)


Section Extremes.
Context {F : Type} {num : Number F}.
Import geometry.
Local Open Scope num_scope.

(** [min] and [max] return one of the values they are given. *)
Lemma min_from_in (x : F) (xs : list F) : In (min_from x xs) (x :: xs).
Proof.
  unfold min_from. revert x. induction xs as [|v xs IH]; intros x; [left; reflexivity|].
  cbn [fold_left]. specialize (IH (if v <? x then v else x)).
  destruct IH as [IH|IH]; [|right; right; exact IH].
  rewrite <- IH. destruct (v <? x); [right; left|left]; reflexivity.
Qed.

Lemma max_from_in (x : F) (xs : list F) : In (max_from x xs) (x :: xs).
Proof.
  unfold max_from. revert x. induction xs as [|v xs IH]; intros x; [left; reflexivity|].
  cbn [fold_left]. specialize (IH (if v >? x then v else x)).
  destruct IH as [IH|IH]; [|right; right; exact IH].
  rewrite <- IH. destruct (v >? x); [right; left|left]; reflexivity.
Qed.

End Extremes.

Section FloatBoxes.
Import geometry.
Local Open Scope num_scope.

(** The order of binary64 numbers is transitive, and total on numbers. *)
Lemma SFleb_trans (a b c : spec_float) :
  SFleb a b = true -> SFleb b c = true -> SFleb a c = true.
Proof.
  unfold SFleb.
  destruct a as [sa|sa| |sa ma ea], b as [sb|sb| |sb mb eb], c as [sc|sc| |sc mc ec];
    cbn [SFcompare]; try discriminate; try reflexivity;
    try (destruct sa; try discriminate; try reflexivity;
         destruct sb; try discriminate; try reflexivity;
         destruct sc; try discriminate; reflexivity);
    try (destruct sa; try discriminate; try reflexivity;
         destruct sc; try discriminate; try reflexivity;
         destruct sb; try discriminate; reflexivity);
    try (destruct sb; try discriminate; try reflexivity;
         destruct sc; try discriminate; try reflexivity;
         destruct sa; try discriminate; reflexivity).
  destruct sa, sb, sc; try discriminate; try reflexivity;
    destruct (Z.compare_spec ea eb), (Z.compare_spec eb ec), (Z.compare_spec ea ec);
    try discriminate; try reflexivity; try lia; subst;
    pose proof (Pos.compare_spec ma mb) as Hab;
    pose proof (Pos.compare_spec mb mc) as Hbc;
    pose proof (Pos.compare_spec ma mc) as Hac;
    unfold Pos.compare in Hab, Hbc, Hac;
    destruct Hab, Hbc, Hac;
    cbn [CompOpp]; try discriminate; try reflexivity; try lia.
Qed.

Lemma float_leb_trans (x y z : float) :
  PrimFloat.leb x y = true -> PrimFloat.leb y z = true -> PrimFloat.leb x z = true.
Proof. rewrite !FloatAxioms.leb_spec. apply SFleb_trans. Qed.

Lemma float_ltb_leb (x y : float) :
  PrimFloat.ltb x y = true -> PrimFloat.leb x y = true.
Proof.
  rewrite FloatAxioms.ltb_spec, FloatAxioms.leb_spec. unfold SFltb, SFleb.
  destruct (SFcompare _ _) as [[| |]|]; congruence.
Qed.

Lemma float_leb_refl (x : float) :
  PrimFloat.is_nan x = false -> PrimFloat.leb x x = true.
Proof.
  intros H. rewrite FloatAxioms.leb_spec. unfold SFleb.
  rewrite (not_nan_self x H). reflexivity.
Qed.

Lemma min_from_below (x : float) (xs : list float) :
  Forall (fun v => PrimFloat.is_nan v = false) (x :: xs) ->
  PrimFloat.leb (min_from x xs) x = true.
Proof.
  unfold min_from. revert x. induction xs as [|v xs IH]; intros x Hn.
  - apply float_leb_refl. inversion Hn. assumption.
  - inversion Hn as [|? ? Hx Hr]; subst. inversion Hr as [|? ? Hv Hxs]; subst.
    cbn [fold_left nltb binary64].
    destruct (PrimFloat.ltb v x) eqn:E.
    + eapply float_leb_trans; [apply IH; constructor; assumption|].
      apply float_ltb_leb, E.
    + apply IH. constructor; assumption.
Qed.

Lemma min_from_least (x : float) (xs : list float) (v : float) :
  Forall (fun v => PrimFloat.is_nan v = false) (x :: xs) ->
  In v (x :: xs) -> PrimFloat.leb (min_from x xs) v = true.
Proof.
  revert x. induction xs as [|w xs IH]; intros x Hn Hin.
  - destruct Hin as [<-|[]]. apply float_leb_refl. inversion Hn. assumption.
  - inversion Hn as [|? ? Hx Hr]; subst. inversion Hr as [|? ? Hw Hxs]; subst.
    change (min_from x (w :: xs))
      with (min_from (if PrimFloat.ltb w x then w else x) xs).
    assert (Hacc : Forall (fun v => PrimFloat.is_nan v = false)
                     ((if PrimFloat.ltb w x then w else x) :: xs))
      by (destruct (PrimFloat.ltb w x); constructor; assumption).
    destruct Hin as [<-|[<-|Hin]].
    + eapply float_leb_trans; [apply min_from_below, Hacc|].
      destruct (PrimFloat.ltb w x) eqn:E;
        [apply float_ltb_leb, E|apply float_leb_refl, Hx].
    + eapply float_leb_trans; [apply min_from_below, Hacc|].
      destruct (PrimFloat.ltb w x) eqn:E;
        [apply float_leb_refl, Hw|apply float_not_below; assumption].
    + apply IH; [exact Hacc|right; exact Hin].
Qed.

Lemma max_from_above (x : float) (xs : list float) :
  Forall (fun v => PrimFloat.is_nan v = false) (x :: xs) ->
  PrimFloat.leb x (max_from x xs) = true.
Proof.
  unfold max_from. revert x. induction xs as [|v xs IH]; intros x Hn.
  - apply float_leb_refl. inversion Hn. assumption.
  - inversion Hn as [|? ? Hx Hr]; subst. inversion Hr as [|? ? Hv Hxs]; subst.
    cbn [fold_left nltb binary64].
    destruct (PrimFloat.ltb x v) eqn:E.
    + eapply float_leb_trans; [apply float_ltb_leb, E|].
      apply IH; constructor; assumption.
    + apply IH. constructor; assumption.
Qed.

Lemma max_from_greatest (x : float) (xs : list float) (v : float) :
  Forall (fun v => PrimFloat.is_nan v = false) (x :: xs) ->
  In v (x :: xs) -> PrimFloat.leb v (max_from x xs) = true.
Proof.
  revert x. induction xs as [|w xs IH]; intros x Hn Hin.
  - destruct Hin as [<-|[]]. apply float_leb_refl. inversion Hn. assumption.
  - inversion Hn as [|? ? Hx Hr]; subst. inversion Hr as [|? ? Hw Hxs]; subst.
    change (max_from x (w :: xs))
      with (max_from (if PrimFloat.ltb x w then w else x) xs).
    assert (Hacc : Forall (fun v => PrimFloat.is_nan v = false)
                     ((if PrimFloat.ltb x w then w else x) :: xs))
      by (destruct (PrimFloat.ltb x w); constructor; assumption).
    destruct Hin as [<-|[<-|Hin]].
    + eapply float_leb_trans; [|apply max_from_above, Hacc].
      destruct (PrimFloat.ltb x w) eqn:E;
        [apply float_ltb_leb, E|apply float_leb_refl, Hx].
    + eapply float_leb_trans; [|apply max_from_above, Hacc].
      destruct (PrimFloat.ltb x w) eqn:E;
        [apply float_leb_refl, Hw|apply float_not_below; assumption].
    + apply IH; [exact Hacc|right; exact Hin].
Qed.


Lemma bounding_box_contains (points : list (float * float)) (p : float * float) :
  Forall Spec.no_nan points ->
  In p points -> Spec.inside (bounding_box points) p = true.
Proof.
  intros Hn Hin. destruct points as [|q qs]; [destruct Hin|].
  assert (Hx : In (fst p) (fst q :: map fst qs)).
  { change (In (fst p) (map fst (q :: qs))). apply in_map, Hin. }
  assert (Hy : In (snd p) (snd q :: map snd qs)).
  { change (In (snd p) (map snd (q :: qs))). apply in_map, Hin. }
  assert (Hnx : Forall (fun v => PrimFloat.is_nan v = false) (fst q :: map fst qs)).
  { change (Forall (fun v => PrimFloat.is_nan v = false) (map fst (q :: qs))).
    apply List.Forall_map. eapply List.Forall_impl; [|exact Hn]. intros a [Ha _]. exact Ha. }
  assert (Hny : Forall (fun v => PrimFloat.is_nan v = false) (snd q :: map snd qs)).
  { change (Forall (fun v => PrimFloat.is_nan v = false) (map snd (q :: qs))).
    apply List.Forall_map. eapply List.Forall_impl; [|exact Hn]. intros a [_ Ha]. exact Ha. }
  cbn [bounding_box Spec.inside nleb binary64].
  rewrite !andb_true_iff.
  repeat split; auto using min_from_least, max_from_greatest.
Qed.

(** X3.  [bounding_box] in binary64: when no coordinate given is NaN,
    every point given lies in the box returned, borders included; and,
    NaN or not, each of the four coordinates of the box is a coordinate of
    one of the points (the box is the smallest one). *)
Theorem bounding_box_holds_every_point (points : list (float * float))
    (p : float * float) :
  Forall Spec.no_nan points ->
  In p points ->
  Spec.inside (bounding_box points) p = true /\
  In (fst (fst (fst (bounding_box points)))) (map fst points) /\
  In (snd (fst (fst (bounding_box points)))) (map snd points) /\
  In (snd (fst (bounding_box points))) (map fst points) /\
  In (snd (bounding_box points)) (map snd points).
Proof.
  intros Hn Hin. split; [apply bounding_box_contains; assumption|].
  destruct points as [|q qs]; [destruct Hin|].
  cbn [bounding_box fst snd map].
  repeat split; first [apply min_from_in | apply max_from_in].
Qed.

End FloatBoxes.

(** The points (3, 1), (-2, 5) and (0, 0): the box is (-2, 0, 3, 5). *)
Lemma bounding_box_holds_every_point_witness :
  Forall Spec.no_nan [(3, 1); (-2, 5); (0, 0)]%float /\
  Spec.inside (geometry.bounding_box [(3, 1); (-2, 5); (0, 0)]%float) (0, 0)%float = true /\
  geometry.bounding_box [(3, 1); (-2, 5); (0, 0)]%float = (-2, 0, 3, 5)%float.
Proof.
  assert (Hn : Forall Spec.no_nan [(3, 1); (-2, 5); (0, 0)]%float)
    by (repeat constructor).
  split; [exact Hn|]. split.
  - apply (bounding_box_holds_every_point [(3, 1); (-2, 5); (0, 0)]%float (0, 0)%float Hn).
    right. right. left. reflexivity.
  - vm_compute. reflexivity.
Defined.

(* ------------------------------------------------------------------ *)
(** ** The bounds of a converted footprint *)


Section BoundsPoints.
Context {F : Type} {num : Number F}.

Lemma flat_map_nil {A B} (f : A -> list B) (l : list A) :
  flat_map f l = [] -> Forall (fun a => f a = []) l.
Proof.
  induction l as [|a l IH]; intros H; [constructor|].
  cbn [flat_map] in H. apply app_eq_nil in H. destruct H as [Ha Hl].
  constructor; [exact Ha|apply IH, Hl].
Qed.

(** Without any point to bound, the footprint has no pad, line or circle,
    and its polygons have no point. *)
Lemma bounds_points_nil (fp : EasyEdaFootprint F) :
  FootprintConverter.bounds_points fp = [] ->
  fp_pads fp = [] /\ fp_lines fp = [] /\ fp_circles fp = [] /\
  Forall (fun g => polygon_points g = []) (fp_polygons fp).
Proof.
  unfold FootprintConverter.bounds_points. intros H.
  apply app_eq_nil in H. destruct H as [Hp H].
  apply app_eq_nil in H. destruct H as [Hl H].
  apply app_eq_nil in H. destruct H as [Hc Hg].
  split; [revert Hp; destruct (fp_pads fp); [reflexivity|discriminate]|].
  split; [revert Hl; destruct (fp_lines fp); [reflexivity|discriminate]|].
  split; [revert Hc; destruct (fp_circles fp); [reflexivity|discriminate]|].
  apply flat_map_nil in Hg.
  eapply List.Forall_impl; [|exact Hg]. intros g. cbv beta.
  destruct (polygon_points g); [reflexivity|discriminate].
Qed.

Lemma centered_bounds (fp : EasyEdaFootprint F) :
  fp_bounds (FootprintConverter.centered fp) = fp_bounds fp.
Proof.
  unfold FootprintConverter.centered.
  destruct (FootprintConverter.center_of _) as [[cx cy]|]; reflexivity.
Qed.

End BoundsPoints.

Section FloatBounds.
Context {rt : Runtime float}.

(** What the box of [bounds_points] holds. *)
Lemma bounds_points_enclosed (fp : EasyEdaFootprint float) :
  Forall Spec.no_nan (FootprintConverter.bounds_points fp) ->
  let b := bounding_box (FootprintConverter.bounds_points fp) in
  Forall (fun pad => Spec.box_inside b (Spec.pad_bbox pad) = true) (fp_pads fp) /\
  Forall (fun l => Spec.inside b (Spec.line_start l) && Spec.inside b (Spec.line_end l)
                   = true) (fp_lines fp) /\
  Forall (fun c => Spec.box_inside b (Spec.circle_bbox c) = true) (fp_circles fp) /\
  Forall (fun g => Forall (fun pt => Spec.inside b (pt_x pt, pt_y pt) = true)
                          (polygon_points g)) (fp_polygons fp).
Proof.
  intros Hn b. subst b. revert Hn. unfold FootprintConverter.bounds_points. intros Hn.
  repeat split; apply List.Forall_forall.
  - intros pad Hin. unfold Spec.box_inside, Spec.pad_bbox.
    apply andb_true_iff. split; apply (bounding_box_contains _ _ Hn);
      apply in_or_app; left; apply in_flat_map; exists pad;
      (split; [exact Hin|]); [left|right; left]; reflexivity.
  - intros l Hin. apply andb_true_iff.
    split; apply (bounding_box_contains _ _ Hn);
      apply in_or_app; right; apply in_or_app; left; apply in_flat_map; exists l;
      (split; [exact Hin|]); [left|right; left]; reflexivity.
  - intros c Hin. unfold Spec.box_inside, Spec.circle_bbox.
    apply andb_true_iff. split; apply (bounding_box_contains _ _ Hn);
      apply in_or_app; right; apply in_or_app; right; apply in_or_app; left;
      apply in_flat_map; exists c;
      (split; [exact Hin|]); [left|right; left]; reflexivity.
  - intros g Hin. apply List.Forall_forall. intros pt Hpt.
    apply (bounding_box_contains _ _ Hn).
    apply in_or_app; right; apply in_or_app; right; apply in_or_app; right.
    apply in_flat_map. exists g. split; [exact Hin|].
    apply (in_map (fun pt0 => (pt_x pt0, pt_y pt0))), Hpt.
Qed.

(** Lines added to a footprint leave the points it had among those that
    are bounded. *)
Lemma bounds_points_more_lines (fp : EasyEdaFootprint float)
    (extra : list (FootprintLine float)) (q : float * float) :
  In q (FootprintConverter.bounds_points fp) ->
  In q (FootprintConverter.bounds_points
          (FootprintConverter.set_lines (fp_lines fp ++ extra) fp)).
Proof.
  unfold FootprintConverter.bounds_points.
  cbn [fp_pads fp_lines fp_circles fp_polygons FootprintConverter.set_lines].
  rewrite flat_map_app, !in_app_iff. tauto.
Qed.

(** X4.  The bounds of a converted footprint, in binary64, when none of
    the coordinates that are bounded is NaN.  When the footprint has
    bounds, they hold the rectangle of every pad (centre plus and minus
    half its width and height), both ends of every line other than those
    on [F.CrtYd] (the synthesized courtyard lies outside), the box of every
    circle and every polygon point.  It has no bounds only when it has no
    pad, line or circle, and no polygon point. *)
Theorem bounds_enclose_geometry (limit : nat) (data : json) (name : string)
    (fp : EasyEdaFootprint float) :
  FootprintConverter.convert limit data name = Returns (Some fp) ->
  Forall Spec.no_nan (FootprintConverter.bounds_points fp) ->
  match fp_bounds fp with
  | Some b =>
      Forall (fun pad => Spec.box_inside b (Spec.pad_bbox pad) = true) (fp_pads fp) /\
      Forall (fun l => line_layer l = "F.CrtYd"%string \/
                       Spec.inside b (Spec.line_start l)
                       && Spec.inside b (Spec.line_end l) = true) (fp_lines fp) /\
      Forall (fun c => Spec.box_inside b (Spec.circle_bbox c) = true) (fp_circles fp) /\
      Forall (fun g => Forall (fun pt => Spec.inside b (pt_x pt, pt_y pt) = true)
                              (polygon_points g)) (fp_polygons fp)
  | None =>
      fp_pads fp = [] /\ fp_lines fp = [] /\ fp_circles fp = [] /\
      Forall (fun g => polygon_points g = []) (fp_polygons fp)
  end.
Proof.
  intros Hconv.
  destruct (convert_Some_inv limit data name fp Hconv) as (d & fp0 & _ & _ & Hp & ->).
  destruct Hp as (Hb & _).
  unfold Spec.finished. cbv zeta.
  set (c := FootprintConverter.centered fp0).
  assert (Hcb : fp_bounds c = None) by (subst c; rewrite centered_bounds; exact Hb).
  unfold FootprintConverter.with_bounds.
  destruct (FootprintConverter.bounds_points c) as [|p ps] eqn:E.
  - intros _. destruct (bounds_points_nil c E) as (H1 & H2 & H3 & H4).
    assert (Hno : has_courtyard c = false) by (unfold has_courtyard; rewrite H2; reflexivity).
    rewrite Hno. unfold FootprintConverter.with_courtyard. rewrite Hcb, Hcb.
    auto.
  - set (w := FootprintConverter.set_bounds (Some (bounding_box (p :: ps))) c).
    assert (Henc : Forall Spec.no_nan (FootprintConverter.bounds_points c) ->
              Forall (fun pad => Spec.box_inside (bounding_box (p :: ps)) (Spec.pad_bbox pad)
                                 = true) (fp_pads c) /\
              Forall (fun l => Spec.inside (bounding_box (p :: ps)) (Spec.line_start l)
                               && Spec.inside (bounding_box (p :: ps)) (Spec.line_end l)
                               = true) (fp_lines c) /\
              Forall (fun c0 => Spec.box_inside (bounding_box (p :: ps)) (Spec.circle_bbox c0)
                                = true) (fp_circles c) /\
              Forall (fun g => Forall (fun pt => Spec.inside (bounding_box (p :: ps))
                                                   (pt_x pt, pt_y pt) = true)
                                      (polygon_points g)) (fp_polygons c)).
    { intros Hn. pose proof (bounds_points_enclosed c Hn) as H. cbv zeta in H.
      rewrite E in H. exact H. }
    destruct (has_courtyard w) eqn:Hc.
    + intros Hn. destruct (Henc Hn) as (H1 & H2 & H3 & H4).
      cbn [fp_bounds fp_pads fp_lines fp_circles fp_polygons w
           FootprintConverter.set_bounds].
      split; [exact H1|]. split; [|split; [exact H3|exact H4]].
      eapply List.Forall_impl; [|exact H2]. intros l Hl. right. exact Hl.
    + unfold FootprintConverter.with_courtyard.
      cbn [fp_bounds w FootprintConverter.set_bounds]. intros Hn.
      assert (Hn' : Forall Spec.no_nan (FootprintConverter.bounds_points c)).
      { apply List.Forall_forall. intros q Hq.
        apply (proj1 (List.Forall_forall _ _) Hn).
        apply (bounds_points_more_lines w _ q). exact Hq. }
      destruct (Henc Hn') as (H1 & H2 & H3 & H4).
      cbn [fp_bounds fp_pads fp_lines fp_circles fp_polygons w
           FootprintConverter.set_bounds FootprintConverter.set_lines].
      split; [exact H1|]. split; [|split; [exact H3|exact H4]].
      apply Forall_app. split.
      * eapply List.Forall_impl; [|exact H2]. intros l Hl. right. exact Hl.
      * destruct (bounding_box (p :: ps)) as [[[x0 y0] x1] y1].
        cbn [FootprintConverter.courtyard_lines expand_bbox].
        repeat apply List.Forall_cons; try apply List.Forall_nil; left; reflexivity.
Qed.

End FloatBounds.

(** Three pads, in binary64. *)
Lemma bounds_enclose_geometry_witness :
  exists fp : EasyEdaFootprint float,
    FootprintConverter.convert (rt := plain_runtime) 1 Spec.three_pads_payload "X"
      = Returns (Some fp) /\
    Forall Spec.no_nan (FootprintConverter.bounds_points fp) /\
    length (fp_pads fp) = 3%nat /\
    fp_bounds fp <> None /\
    match fp_bounds fp with
    | Some b =>
        Forall (fun pad => Spec.box_inside b (Spec.pad_bbox pad) = true) (fp_pads fp) /\
        Forall (fun l => line_layer l = "F.CrtYd"%string \/
                         Spec.inside b (Spec.line_start l)
                         && Spec.inside b (Spec.line_end l) = true) (fp_lines fp) /\
        Forall (fun c => Spec.box_inside b (Spec.circle_bbox c) = true) (fp_circles fp) /\
        Forall (fun g => Forall (fun pt => Spec.inside b (pt_x pt, pt_y pt) = true)
                                (polygon_points g)) (fp_polygons fp)
    | None =>
        fp_pads fp = [] /\ fp_lines fp = [] /\ fp_circles fp = [] /\
        Forall (fun g => polygon_points g = []) (fp_polygons fp)
    end.
Proof.
  assert (H : exists fp : EasyEdaFootprint float,
            FootprintConverter.convert (rt := plain_runtime) 1 Spec.three_pads_payload "X"
              = Returns (Some fp) /\
            Forall Spec.no_nan (FootprintConverter.bounds_points fp) /\
            length (fp_pads fp) = 3%nat /\ fp_bounds fp <> None).
  { eexists. split; [vm_compute; reflexivity|].
    split; [vm_compute; repeat constructor|]. split; [reflexivity|discriminate]. }
  destruct H as (fp & H1 & H2 & H3 & H4).
  exists fp. split; [exact H1|]. split; [exact H2|]. split; [exact H3|].
  split; [exact H4|].
  exact (bounds_enclose_geometry (rt := plain_runtime) 1 Spec.three_pads_payload
           "X" fp H1 H2).
Defined.

(* ------------------------------------------------------------------ *)
(** ** Tracks and rectangles of a footprint *)


Section FootprintShapes.
Context {F : Type} {num : Number F} {rt : Runtime F}.

Lemma parse_track_result (parts : list string) (fp : EasyEdaFootprint F) :
  (5 <= length parts)%nat ->
  FootprintConverter._parse_track parts fp
  = Done tt (FootprintConverter.set_lines
               (fp_lines fp ++
                FootprintConverter.track_segments
                  (FootprintConverter._parse_point_list (nth 4 parts EmptyString))
                  (get_kicad_layer (nth 2 parts EmptyString))
                  (parse_float (nth 1 parts EmptyString) * FootprintConverter.SCALE))
               fp).
Proof.
  intros H. unfold FootprintConverter._parse_track.
  destruct (Nat.ltb_spec (length parts) 5) as [Hlt|_]; [lia|].
  mrun. reflexivity.
Qed.

Lemma track_segments_cons (p q : F * F) (r : list (F * F)) (layer : string) (w : F) :
  FootprintConverter.track_segments (p :: q :: r) layer w
  = {| line_x1 := fst p; line_y1 := - snd p;
       line_x2 := fst q; line_y2 := - snd q;
       line_layer := layer;
       line_stroke_width := max2 w (of_decimal 1 1) |}
    :: FootprintConverter.track_segments (q :: r) layer w.
Proof. reflexivity. Qed.

Lemma track_segments_length (points : list (F * F)) (layer : string) (w : F) :
  length (FootprintConverter.track_segments points layer w) = (length points - 1)%nat.
Proof.
  induction points as [|p r IH]; [reflexivity|].
  destruct r as [|q r']; [reflexivity|].
  rewrite track_segments_cons. cbn [length] in *. rewrite IH. lia.
Qed.

Lemma track_segments_chained (points : list (F * F)) (layer : string) (w : F) :
  Spec.chained (FootprintConverter.track_segments points layer w).
Proof.
  induction points as [|p r IH]; [exact I|].
  destruct r as [|q r']; [exact I|].
  destruct r' as [|q' r'']; [exact I|].
  rewrite track_segments_cons. rewrite track_segments_cons in IH |- *.
  split; [reflexivity|exact IH].
Qed.

Lemma track_segments_ends (points : list (F * F)) (layer : string) (w : F) :
  map Spec.line_start (FootprintConverter.track_segments points layer w)
  = map (fun p => (fst p, - snd p)) (removelast points) /\
  map Spec.line_end (FootprintConverter.track_segments points layer w)
  = map (fun p => (fst p, - snd p)) (tl points).
Proof.
  induction points as [|p r IH]; [split; reflexivity|].
  destruct r as [|q r']; [split; reflexivity|].
  destruct IH as [IH1 IH2].
  split.
  - change (removelast (p :: q :: r')) with (p :: removelast (q :: r')).
    rewrite track_segments_cons. cbn [map]. rewrite IH1. reflexivity.
  - rewrite track_segments_cons. cbn [map tl] in *. rewrite IH2. reflexivity.
Qed.

Lemma track_segments_layer (points : list (F * F)) (layer : string) (w : F) :
  Forall (fun l => line_layer l = layer /\
                   line_stroke_width l = max2 w (of_decimal 1 1))
         (FootprintConverter.track_segments points layer w).
Proof.
  induction points as [|p r IH]; [constructor|].
  destruct r as [|q r']; [constructor|].
  rewrite track_segments_cons.
  constructor; [split; reflexivity|exact IH].
Qed.

(** X8.  A [TRACK] command of five fields or more whose point list reads
    as n points adds exactly n - 1 lines (none for n < 2), after the lines
    already there: segment i runs from point i to point i + 1, with Y
    negated, so that each segment starts where the one before it ends; all
    are on the layer of the command, with its stroke width clamped from
    below at 0.1. *)
Theorem track_adds_connected_segments (parts : list string) (fp : EasyEdaFootprint F) :
  (5 <= length parts)%nat ->
  let points := FootprintConverter._parse_point_list (nth 4 parts EmptyString) in
  exists new,
    FootprintConverter._parse_track parts fp
    = Done tt (FootprintConverter.set_lines (fp_lines fp ++ new) fp) /\
    length new = (length points - 1)%nat /\
    Spec.chained new /\
    map Spec.line_start new = map (fun p => (fst p, - snd p)) (removelast points) /\
    map Spec.line_end new = map (fun p => (fst p, - snd p)) (tl points) /\
    Forall (fun l => line_layer l = get_kicad_layer (nth 2 parts EmptyString) /\
                     line_stroke_width l
                     = max2 (parse_float (nth 1 parts EmptyString)
                             * FootprintConverter.SCALE) (of_decimal 1 1)) new.
Proof.
  intros H points. eexists. split; [apply parse_track_result, H|].
  split; [apply track_segments_length|].
  split; [apply track_segments_chained|].
  split; [apply track_segments_ends|].
  split; [apply track_segments_ends|apply track_segments_layer].
Qed.

Lemma parse_rect_result (parts : list string) (fp : EasyEdaFootprint F) :
  (6 <= length parts)%nat ->
  let x := parse_float (nth 1 parts EmptyString) * FootprintConverter.SCALE in
  let y := parse_float (nth 2 parts EmptyString) * FootprintConverter.SCALE in
  let width := parse_float (nth 3 parts EmptyString) * FootprintConverter.SCALE in
  let height := parse_float (nth 4 parts EmptyString) * FootprintConverter.SCALE in
  let layer := get_kicad_layer (nth 5 parts EmptyString) in
  FootprintConverter._parse_rect parts fp
  = Done tt (FootprintConverter.set_lines
               (fp_lines fp ++
                [ FootprintLine_default x (- y) (x + width) (- y) layer;
                  FootprintLine_default (x + width) (- y) (x + width) (- y - height) layer;
                  FootprintLine_default (x + width) (- y - height) x (- y - height) layer;
                  FootprintLine_default x (- y - height) x (- y) layer ])
               fp).
Proof.
  intros H. unfold FootprintConverter._parse_rect.
  destruct (Nat.ltb_spec (length parts) 6) as [Hlt|_]; [lia|].
  mrun. reflexivity.
Qed.

(** X9.  A [RECT] command of six fields or more adds exactly four lines,
    after the lines already there: a closed outline that starts at the
    source corner with Y negated, on the layer of the command, with the
    default stroke 0.12. *)
Theorem rect_adds_a_closed_outline (parts : list string) (fp : EasyEdaFootprint F) :
  (6 <= length parts)%nat ->
  exists new,
    FootprintConverter._parse_rect parts fp
    = Done tt (FootprintConverter.set_lines (fp_lines fp ++ new) fp) /\
    length new = 4%nat /\
    Spec.closed_loop new /\
    option_map Spec.line_start (head new)
    = Some (parse_float (nth 1 parts EmptyString) * FootprintConverter.SCALE,
            - (parse_float (nth 2 parts EmptyString) * FootprintConverter.SCALE)) /\
    Forall (fun l => line_layer l = get_kicad_layer (nth 5 parts EmptyString) /\
                     line_stroke_width l = of_decimal 12 2) new.
Proof.
  intros H. eexists. split; [apply (parse_rect_result parts fp H)|].
  split; [reflexivity|].
  split; [unfold Spec.closed_loop; simpl; repeat split|].
  split; [reflexivity|].
  repeat apply List.Forall_cons; try apply List.Forall_nil; split; reflexivity.
Qed.

End FootprintShapes.

(** A track through four points: three segments. *)
Lemma track_adds_connected_segments_witness :
  exists new : list (FootprintLine float),
    FootprintConverter._parse_track (rt := plain_runtime)
      (pystr.split "TRACK~1~3~~0 0 10 0 10 10 0 10" "~") (new_footprint "X")
    = Done tt (FootprintConverter.set_lines new (new_footprint "X")) /\
    length new = 3%nat /\ Spec.chained new.
Proof.
  destruct (track_adds_connected_segments (F := float) (rt := plain_runtime)
              (pystr.split "TRACK~1~3~~0 0 10 0 10 10 0 10" "~") (new_footprint "X"))
    as (new & Hrun & Hlen & Hch & _); [vm_compute; lia|].
  exists new. split; [exact Hrun|]. split; [|exact Hch].
  rewrite Hlen. vm_compute. reflexivity.
Defined.

(** A rectangle of 10 by 5 source units on the silk layer. *)
Lemma rect_adds_a_closed_outline_witness :
  exists new : list (FootprintLine float),
    FootprintConverter._parse_rect (rt := plain_runtime)
      (pystr.split "RECT~0~0~10~5~3" "~") (new_footprint "X")
    = Done tt (FootprintConverter.set_lines new (new_footprint "X")) /\
    length new = 4%nat /\ Spec.closed_loop new.
Proof.
  destruct (rect_adds_a_closed_outline (F := float) (rt := plain_runtime)
              (pystr.split "RECT~0~0~10~5~3" "~") (new_footprint "X"))
    as (new & Hrun & Hlen & Hcl & _); [vm_compute; lia|].
  exists new. split; [exact Hrun|]. split; [exact Hlen|exact Hcl].
Defined.

(* ------------------------------------------------------------------ *)
(** ** What every primitive of a converted footprint looks like *)


Section WellFormed.
Context {F : Type} {num : Number F} {rt : Runtime F}.

Lemma table_get_in {A} (t : list (string * A)) (k : string) (v : A) :
  table_get t k = Some v -> In v (map snd t).
Proof.
  induction t as [|[k' v'] t IH]; [discriminate|].
  cbn [table_get map snd]. destruct (String.eqb k k').
  - intros H. injection H as ->. left. reflexivity.
  - intros H. right. apply IH, H.
Qed.

(** Whatever the source layer, the KiCad layer is one of the table. *)
Lemma kicad_layer_known (layer : string) : Spec.known_layer (get_kicad_layer layer).
Proof.
  unfold Spec.known_layer, get_kicad_layer.
  destruct (table_get EASYEDA_LAYER_MAP layer) as [l|] eqn:E.
  - apply table_get_in in E. exact E.
  - simpl. tauto.
Qed.

Lemma track_segments_known (points : list (F * F)) (layer : string) (w : F) :
  Forall (fun l => Spec.known_layer (line_layer l))
         (FootprintConverter.track_segments points (get_kicad_layer layer) w).
Proof.
  eapply List.Forall_impl; [|apply track_segments_layer].
  intros l [-> _]. apply kicad_layer_known.
Qed.

Lemma text_kinds (kind layer content : string) (x y fs th rot : F) :
  let typed :=
    if existsb (String.eqb kind) ["ref"; "reference"]%string
    then ("reference", "REF**")
    else if existsb (String.eqb kind) ["val"; "value"]%string
    then ("value", content)
    else ("user", content) in
  Spec.text_as_converted
    {| text_text := snd typed; text_x := x; text_y := y;
       text_layer := get_kicad_layer layer;
       text_font_size := fs; text_thickness := th;
       text_rotation := rot; text_type := fst typed |}%string.
Proof.
  cbv zeta. unfold Spec.text_as_converted. cbn [text_layer text_type text_text].
  split; [apply kicad_layer_known|].
  destruct (existsb (String.eqb kind) ["ref"; "reference"]%string);
    [left; split; reflexivity|].
  destruct (existsb (String.eqb kind) ["val"; "value"]%string);
    [right; left|right; right]; reflexivity.
Qed.

Hint Resolve kicad_layer_known track_segments_known : strokes.

(** Closes what a [modify] that appends graphics leaves. *)
Ltac well_formed_modify :=
  let fp := fresh "fp" in
  let H := fresh "H" in
  intros fp H;
  destruct H as (Hpads & Hlines & Hcircles & Harcs & Hpolys & Htexts);
  unfold Spec.footprint_well_formed;
  cbn [fp_pads fp_lines fp_circles fp_arcs fp_polygons fp_texts
       FootprintConverter.set_pads FootprintConverter.set_lines
       FootprintConverter.set_circles FootprintConverter.set_arcs
       FootprintConverter.set_polygons FootprintConverter.set_texts
       FootprintConverter.set_holes];
  (split; [|split; [|split; [|split; [|split]]]]); try assumption;
  (apply Forall_app; split; [assumption|]);
  repeat first [apply List.Forall_nil | apply List.Forall_cons];
  cbn [line_layer circle_layer circle_fill arc_layer polygon_layer polygon_fill
       FootprintLine_default];
  first [ apply text_kinds
        | split; [apply kicad_layer_known|reflexivity]
        | auto with strokes ].

Ltac well_formed_parser := repeat keeps_step; try well_formed_modify.

Variable h : Prop.

Lemma track_well_formed parts :
  keeps h Spec.footprint_well_formed (FootprintConverter._parse_track parts).
Proof. unfold FootprintConverter._parse_track. well_formed_parser. Qed.

Lemma circle_well_formed parts :
  keeps h Spec.footprint_well_formed (FootprintConverter._parse_circle parts).
Proof. unfold FootprintConverter._parse_circle. well_formed_parser. Qed.

Lemma arc_well_formed parts :
  keeps h Spec.footprint_well_formed (FootprintConverter._parse_arc parts).
Proof. unfold FootprintConverter._parse_arc. well_formed_parser. Qed.

Lemma rect_well_formed parts :
  keeps h Spec.footprint_well_formed (FootprintConverter._parse_rect parts).
Proof. unfold FootprintConverter._parse_rect. well_formed_parser. Qed.

Lemma solid_region_well_formed parts :
  keeps h Spec.footprint_well_formed (FootprintConverter._parse_solid_region parts).
Proof. unfold FootprintConverter._parse_solid_region. well_formed_parser. Qed.

Lemma text_well_formed parts :
  keeps h Spec.footprint_well_formed (FootprintConverter._parse_text parts).
Proof. unfold FootprintConverter._parse_text. well_formed_parser. Qed.

Lemma hole_well_formed parts :
  keeps h Spec.footprint_well_formed (FootprintConverter._parse_hole parts).
Proof.
  unfold FootprintConverter._parse_hole. repeat keeps_step.
  intros fp Hfp. exact Hfp.
Qed.

(** A [PAD] command that is read appends a pad of one of the kinds of
    [pad_as_converted]. *)
Lemma parse_pad_well_formed (parts : list string) (fp : EasyEdaFootprint F) :
  (9 <= length parts)%nat ->
  exists pad,
    FootprintConverter._parse_pad parts fp
    = Done tt (FootprintConverter.set_pads (fp_pads fp ++ [pad]) fp) /\
    Spec.pad_as_converted pad.
Proof.
  intros H. unfold FootprintConverter._parse_pad.
  destruct (Nat.ltb_spec (length parts) 9) as [Hlt|_]; [lia|].
  mrun.
  assert (Hshape : In (match table_get FootprintConverter.PAD_SHAPE_MAP
                               (pystr.upper (nth 1 parts EmptyString)) with
                       | Some sh => sh
                       | None => RECT
                       end) [RECT; CIRCLE; OVAL; CUSTOM]).
  { destruct (table_get _ _) as [sh|] eqn:E; [|left; reflexivity].
    apply table_get_in in E. simpl in E.
    destruct E as [<-|[<-|[<-|[<-|[<-|[]]]]]]; simpl; tauto. }
  destruct (Nat.ltb_spec 9 (length parts)) as [H9|H9];
    destruct (Nat.ltb_spec 11 (length parts)) as [H11|H11]; try lia; mrun;
    try destruct (nltb (of_int 0)
                    (parse_float (nth 9 parts EmptyString) * FootprintConverter.SCALE))
      eqn:Hr;
    mrun; cbn [fst snd];
    try destruct (pystr.startswith (get_kicad_layer (nth 6 parts EmptyString)) "F.");
    (eexists; split; [reflexivity|]);
    unfold Spec.pad_as_converted;
    cbn [pad_shape pad_drill_shape pad_type pad_drill_size pad_layers pad_number
         pad_width pad_height];
    (split; [exact Hshape|]); (split; [reflexivity|]);
    first [ left; split; [reflexivity|]; split; [reflexivity|]; (left + right); reflexivity
          | right; left; split; [reflexivity|]; split; [reflexivity|];
            eexists; split; [exact Hr|reflexivity] ].
Qed.

Lemma pad_well_formed parts :
  keeps h Spec.footprint_well_formed (FootprintConverter._parse_pad parts).
Proof.
  intros fp Hfp.
  destruct (Nat.lt_ge_cases (length parts) 9) as [Hlt|Hge].
  - rewrite (parse_pad_short parts fp Hlt). exact Hfp.
  - destruct (parse_pad_well_formed parts fp Hge) as (pad & -> & Hpad).
    destruct Hfp as (Hpads & Hrest). split; [|exact Hrest].
    cbn [fp_pads FootprintConverter.set_pads].
    apply Forall_app. split; [exact Hpads|].
    apply List.Forall_cons; [exact Hpad|apply List.Forall_nil].
Qed.

Lemma parse_via_result (parts : list string) (fp : EasyEdaFootprint F) :
  (5 <= length parts)%nat ->
  let diameter := parse_float (nth 3 parts EmptyString) * FootprintConverter.SCALE in
  let drill := parse_float (nth 4 parts EmptyString) * FootprintConverter.SCALE in
  let pad := {| pad_number := "";
                pad_x := parse_float (nth 1 parts EmptyString) * FootprintConverter.SCALE;
                pad_y := - (parse_float (nth 2 parts EmptyString) * FootprintConverter.SCALE);
                pad_width := diameter; pad_height := diameter;
                pad_shape := CIRCLE; pad_type := THRU_HOLE;
                pad_rotation := of_int 0; pad_drill_size := drill;
                pad_drill_shape := "circle"; pad_layers := ["*.Cu"%string];
                pad_roundrect_ratio := of_decimal 25 2 |} in
  FootprintConverter._parse_via parts fp
  = Done tt (if drill >? of_decimal 1 1
             then FootprintConverter.set_pads (fp_pads fp ++ [pad]) fp
             else fp).
Proof.
  intros H. unfold FootprintConverter._parse_via.
  destruct (Nat.ltb_spec (length parts) 5) as [Hlt|_]; [lia|].
  mrun. cbv zeta.
  destruct (nltb (of_decimal 1 1)
              (parse_float (nth 4 parts EmptyString) * FootprintConverter.SCALE));
    reflexivity.
Qed.

Lemma via_well_formed parts :
  keeps h Spec.footprint_well_formed (FootprintConverter._parse_via parts).
Proof.
  intros fp Hfp.
  destruct (Nat.lt_ge_cases (length parts) 5) as [Hlt|Hge].
  - unfold FootprintConverter._parse_via.
    destruct (Nat.ltb_spec (length parts) 5); [exact Hfp|lia].
  - rewrite (parse_via_result parts fp Hge). cbv zeta.
    destruct (nltb (of_decimal 1 1) _) eqn:Hd; [|exact Hfp].
    destruct Hfp as (Hpads & Hrest). split; [|exact Hrest].
    cbn [fp_pads FootprintConverter.set_pads].
    apply Forall_app. split; [exact Hpads|].
    apply List.Forall_cons; [|apply List.Forall_nil].
    unfold Spec.pad_as_converted.
    cbn [pad_shape pad_drill_shape pad_type pad_drill_size pad_layers pad_number
         pad_width pad_height].
    split; [simpl; tauto|]. split; [reflexivity|].
    right. right. repeat split; try reflexivity. exact Hd.
Qed.

Lemma parse_data_well_formed (limit : nat) (data : json) :
  keeps h Spec.footprint_well_formed (FootprintConverter._parse_footprint_data limit data).
Proof.
  apply footprint_data_keeps;
    auto using pad_well_formed, track_well_formed, circle_well_formed,
      arc_well_formed, rect_well_formed, solid_region_well_formed,
      text_well_formed, hole_well_formed, via_well_formed.
Qed.

End WellFormed.

Section WellFormedConversion.
Context {F : Type} {num : Number F} {rt : Runtime F}.

Lemma centered_well_formed (fp : EasyEdaFootprint F) :
  Spec.footprint_well_formed fp ->
  Spec.footprint_well_formed (FootprintConverter.centered fp).
Proof.
  intros H. unfold FootprintConverter.centered.
  destruct (FootprintConverter.center_of (FootprintConverter.center_points fp))
    as [[cx cy]|]; [|exact H].
  destruct H as (H1 & H2 & H3 & H4 & H5 & H6).
  unfold Spec.footprint_well_formed.
  cbn [fp_pads fp_lines fp_circles fp_arcs fp_polygons fp_texts
       FootprintConverter.shift_all].
  (split; [|split; [|split; [|split; [|split]]]]); apply List.Forall_map;
    (eapply List.Forall_impl; [|eassumption]); intros x Hx; exact Hx.
Qed.

Lemma finished_well_formed (fp0 : EasyEdaFootprint F) :
  Spec.footprint_well_formed fp0 -> Spec.footprint_well_formed (Spec.finished fp0).
Proof.
  intros H. apply centered_well_formed in H.
  set (c := FootprintConverter.centered fp0) in *.
  assert (Hw : Spec.footprint_well_formed (FootprintConverter.with_bounds c)).
  { unfold FootprintConverter.with_bounds.
    destruct (FootprintConverter.bounds_points c); exact H. }
  unfold Spec.finished. cbv zeta. fold c.
  destruct (has_courtyard (FootprintConverter.with_bounds c)); [exact Hw|].
  unfold FootprintConverter.with_courtyard.
  destruct (fp_bounds (FootprintConverter.with_bounds c)) as [[[[x0 y0] x1] y1]|];
    [|exact Hw].
  destruct Hw as (H1 & H2 & H3 & H4 & H5 & H6).
  unfold Spec.footprint_well_formed.
  cbn [fp_pads fp_lines fp_circles fp_arcs fp_polygons fp_texts
       FootprintConverter.set_lines].
  (split; [|split; [|split; [|split; [|split]]]]); try assumption.
  apply Forall_app. split; [assumption|].
  cbn [FootprintConverter.courtyard_lines expand_bbox].
  repeat apply List.Forall_cons; try apply List.Forall_nil;
    unfold Spec.known_layer; simpl; tauto.
Qed.

Lemma convert_well_formed (limit : nat) (data : json) (name : string)
    (fp : EasyEdaFootprint F) :
  FootprintConverter.convert limit data name = Returns (Some fp) ->
  Spec.footprint_well_formed fp.
Proof.
  intros Hconv.
  destruct (convert_Some_inv limit data name fp Hconv) as (d & fp0 & _ & Hrun & _ & ->).
  apply finished_well_formed.
  pose proof (parse_data_well_formed True limit d (new_footprint name)) as Hk.
  rewrite Hrun in Hk. apply Hk.
  unfold Spec.footprint_well_formed. simpl. repeat split; constructor.
Qed.

(** X10.  Every pad of a converted footprint is of one of three kinds: a
    surface-mount pad with drill 0 on the three front or the three back
    layers; a through-hole pad on [*.Cu], [*.Paste], [*.Mask] whose drill is
    twice a radius that tested positive; or the pad of a [VIA]: through-
    hole, round, unnumbered, on [*.Cu], as wide as high, its drill tested
    above 0.1.  Its shape is rect, circle, oval or custom and its drill
    shape is "circle": the converter never produces a non-plated or
    connect pad, nor a roundrect or trapezoid one. *)
Theorem converted_pads_are_smd_or_through_hole (limit : nat) (data : json)
    (name : string) (fp : EasyEdaFootprint F) :
  FootprintConverter.convert limit data name = Returns (Some fp) ->
  Forall Spec.pad_as_converted (fp_pads fp).
Proof.
  intros Hconv.
  destruct (convert_Some_inv limit data name fp Hconv) as (d & fp0 & _ & Hrun & _ & ->).
  pose proof (parse_data_well_formed True limit d (new_footprint name)) as Hk.
  rewrite Hrun in Hk.
  assert (Hnew : Spec.footprint_well_formed (new_footprint (F := F) name)).
  { unfold Spec.footprint_well_formed. simpl. repeat split; constructor. }
  destruct (Hk Hnew) as (Hpads & _).
  rewrite finished_pads.
  unfold FootprintConverter.centered.
  destruct (FootprintConverter.center_of (FootprintConverter.center_points fp0))
    as [[cx cy]|]; [|exact Hpads].
  cbn [fp_pads FootprintConverter.shift_all]. apply List.Forall_map.
  eapply List.Forall_impl; [|exact Hpads]. intros pad Hpad. exact Hpad.
Qed.

(** X11.  Every line, circle, arc, polygon and text of a converted
    footprint is on one of the KiCad layers of [EASYEDA_LAYER_MAP],
    whatever layer fields the payload holds (an unknown layer becomes
    [F.SilkS]; the synthesized courtyard is on [F.CrtYd]). *)
Theorem converted_graphics_on_known_layers (limit : nat) (data : json)
    (name : string) (fp : EasyEdaFootprint F) :
  FootprintConverter.convert limit data name = Returns (Some fp) ->
  Forall (fun l => Spec.known_layer (line_layer l)) (fp_lines fp) /\
  Forall (fun c => Spec.known_layer (circle_layer c)) (fp_circles fp) /\
  Forall (fun a => Spec.known_layer (arc_layer a)) (fp_arcs fp) /\
  Forall (fun g => Spec.known_layer (polygon_layer g)) (fp_polygons fp) /\
  Forall (fun t => Spec.known_layer (text_layer t)) (fp_texts fp).
Proof.
  intros Hconv.
  destruct (convert_well_formed limit data name fp Hconv)
    as (_ & H2 & H3 & H4 & H5 & H6).
  split; [exact H2|].
  split; [eapply List.Forall_impl; [|exact H3]; intros c Hc; apply Hc|].
  split; [exact H4|].
  split; [eapply List.Forall_impl; [|exact H5]; intros g Hg; apply Hg|].
  eapply List.Forall_impl; [|exact H6]. intros t Ht. apply Ht.
Qed.

(** X12.  Every text of a converted footprint has the type "reference",
    "value" or "user", and a reference text reads [REF**] whatever the
    payload gave as its content. *)
Theorem converted_texts_are_typed (limit : nat) (data : json)
    (name : string) (fp : EasyEdaFootprint F) :
  FootprintConverter.convert limit data name = Returns (Some fp) ->
  Forall (fun t => (text_type t = "reference"%string /\ text_text t = "REF**"%string) \/
                   text_type t = "value"%string \/ text_type t = "user"%string)
         (fp_texts fp).
Proof.
  intros Hconv.
  destruct (convert_well_formed limit data name fp Hconv) as (_ & _ & _ & _ & _ & H6).
  eapply List.Forall_impl; [|exact H6]. intros t Ht. apply Ht.
Qed.

End WellFormedConversion.

(** A payload with a surface-mount pad, a through-hole pad, a via, a
    track, a circle, two texts, a hole and a solid region. *)
Lemma converted_pads_are_smd_or_through_hole_witness :
  exists fp : EasyEdaFootprint float,
    FootprintConverter.convert (rt := plain_runtime) 1 Spec.mixed_payload "X"
      = Returns (Some fp) /\
    map pad_type (fp_pads fp) = [SMD; THRU_HOLE; THRU_HOLE] /\
    Forall Spec.pad_as_converted (fp_pads fp).
Proof.
  eexists.
  assert (H1 : FootprintConverter.convert (rt := plain_runtime (F := float)) 1
                 Spec.mixed_payload "X" = Returns (Some _))
    by (vm_compute; reflexivity).
  split; [exact H1|]. split; [reflexivity|].
  exact (converted_pads_are_smd_or_through_hole 1 Spec.mixed_payload "X" _ H1).
Defined.

(** The same payload: six lines (two of the track, four of the courtyard)
    and two texts. *)
Lemma converted_graphics_on_known_layers_witness :
  exists fp : EasyEdaFootprint float,
    FootprintConverter.convert (rt := plain_runtime) 1 Spec.mixed_payload "X"
      = Returns (Some fp) /\
    length (fp_lines fp) = 6%nat /\
    Forall (fun l => Spec.known_layer (line_layer l)) (fp_lines fp) /\
    map text_layer (fp_texts fp) = ["F.SilkS"; "F.Fab"]%string /\
    Forall (fun t => Spec.known_layer (text_layer t)) (fp_texts fp).
Proof.
  eexists.
  assert (H1 : FootprintConverter.convert (rt := plain_runtime (F := float)) 1
                 Spec.mixed_payload "X" = Returns (Some _))
    by (vm_compute; reflexivity).
  pose proof (converted_graphics_on_known_layers 1 Spec.mixed_payload "X" _ H1)
    as (Hl & _ & _ & _ & Ht).
  split; [exact H1|]. split; [reflexivity|]. split; [exact Hl|].
  split; [reflexivity|exact Ht].
Defined.

(** The same payload: the reference text [R1] is stored as [REF**]. *)
Lemma converted_texts_are_typed_witness :
  exists fp : EasyEdaFootprint float,
    FootprintConverter.convert (rt := plain_runtime) 1 Spec.mixed_payload "X"
      = Returns (Some fp) /\
    map text_text (fp_texts fp) = ["REF**"; "hello"]%string /\
    Forall (fun t => (text_type t = "reference"%string /\ text_text t = "REF**"%string) \/
                     text_type t = "value"%string \/ text_type t = "user"%string)
           (fp_texts fp).
Proof.
  eexists.
  assert (H1 : FootprintConverter.convert (rt := plain_runtime (F := float)) 1
                 Spec.mixed_payload "X" = Returns (Some _))
    by (vm_compute; reflexivity).
  split; [exact H1|]. split; [reflexivity|].
  exact (converted_texts_are_typed 1 Spec.mixed_payload "X" _ H1).
Defined.

(* ------------------------------------------------------------------ *)
(** ** Pin 1 and the override store *)


Section Pin1.
Context {F : Type} {num : Number F}.






End Pin1.


Section OverrideStore.
Context {F : Type} {num : Number F}.

(** X14.  [set_override] followed by [get_override] for the same id: the
    entry found holds, for each of "offset", "rotation" and "scale", the
    value just given when one was given and the value stored before
    otherwise (none for an id without entry); any other key of the entry
    is as before. *)
Theorem set_override_merges_fields
    (overrides : gmap string (gmap string (list F))) (lcsc_id : string)
    (offset rotation scale : option (F * F * F)) :
  let old := match overrides !! pystr.upper lcsc_id with
             | Some entry => entry
             | None => ∅
             end in
  let field (given : option (F * F * F)) (k : string) :=
    match given with
    | Some t => Some (Model3DConfig.list_of_tuple t)
    | None => old !! k
    end in
  exists entry,
    Model3DConfig.get_override
      (Model3DConfig.set_override overrides lcsc_id offset rotation scale) lcsc_id
    = Some entry /\
    entry !! "offset"%string = field offset "offset"%string /\
    entry !! "rotation"%string = field rotation "rotation"%string /\
    entry !! "scale"%string = field scale "scale"%string /\
    (forall k, k <> "offset"%string -> k <> "rotation"%string -> k <> "scale"%string ->
       entry !! k = old !! k).
Proof.
  intros old field.
  unfold Model3DConfig.get_override, Model3DConfig.set_override.
  fold old. eexists. split; [apply lookup_insert_eq|].
  unfold Model3DConfig.set_field, field.
  repeat split.
  - destruct scale, rotation, offset;
      rewrite ?lookup_insert_ne by discriminate;
      rewrite ?lookup_insert_eq; reflexivity.
  - destruct scale, rotation, offset;
      rewrite ?lookup_insert_ne by discriminate;
      rewrite ?lookup_insert_eq; rewrite ?lookup_insert_ne by discriminate;
      reflexivity.
  - destruct scale, rotation, offset;
      rewrite ?lookup_insert_eq; rewrite ?lookup_insert_ne by discriminate;
      reflexivity.
  - intros k H1 H2 H3.
    destruct scale, rotation, offset;
      rewrite ?lookup_insert_ne by congruence; reflexivity.
Qed.

(** X15.  [set_override(id)] with no field, for an id without entry,
    stores the empty entry: [get_override] then returns it, and
    [calculate_transform], which tests the entry for truth, takes it for
    no override and returns what the heuristic computes. *)
Theorem empty_override_falls_back_to_heuristic
    (overrides : gmap string (gmap string (list F))) (lcsc_id : string)
    (footprint : EasyEdaFootprint F) :
  overrides !! pystr.upper lcsc_id = None ->
  Model3DConfig.get_override
    (Model3DConfig.set_override overrides lcsc_id None None None) lcsc_id = Some ∅ /\
  Model3DConfig.calculate_transform
    (Model3DConfig.set_override overrides lcsc_id None None None) lcsc_id footprint
  = Model3DConfig._calculate_heuristic_transform footprint.
Proof.
  intros Hnew.
  assert (Hget : Model3DConfig.get_override
                   (Model3DConfig.set_override overrides lcsc_id None None None) lcsc_id
                 = Some ∅).
  { unfold Model3DConfig.get_override, Model3DConfig.set_override.
    rewrite Hnew. cbn [Model3DConfig.set_field]. apply lookup_insert_eq. }
  split; [exact Hget|].
  unfold Model3DConfig.calculate_transform. rewrite Hget.
  destruct (decide (∅ = ∅)) as [_|Hne]; [reflexivity|congruence].
Qed.

(** X16.  Overrides are keyed by the upper-cased id.  Two ids that agree
    once upper-cased are the same to [calculate_transform], [set_override]
    and [remove_override]; for two that differ, setting or removing the
    override of one leaves what [calculate_transform] returns for the
    other unchanged. *)
Theorem overrides_keyed_by_upper_case_id
    (overrides : gmap string (gmap string (list F))) (a b : string)
    (offset rotation scale : option (F * F * F)) (footprint : EasyEdaFootprint F) :
  (pystr.upper a = pystr.upper b ->
   Model3DConfig.calculate_transform overrides a footprint
   = Model3DConfig.calculate_transform overrides b footprint /\
   Model3DConfig.set_override overrides a offset rotation scale
   = Model3DConfig.set_override overrides b offset rotation scale /\
   Model3DConfig.remove_override overrides a = Model3DConfig.remove_override overrides b) /\
  (pystr.upper a <> pystr.upper b ->
   Model3DConfig.calculate_transform
     (Model3DConfig.set_override overrides a offset rotation scale) b footprint
   = Model3DConfig.calculate_transform overrides b footprint /\
   Model3DConfig.calculate_transform (Model3DConfig.remove_override overrides a) b footprint
   = Model3DConfig.calculate_transform overrides b footprint).
Proof.
  split.
  - intros Heq.
    unfold Model3DConfig.calculate_transform, Model3DConfig.get_override,
      Model3DConfig.set_override, Model3DConfig.remove_override.
    rewrite Heq. repeat split.
  - intros Hne.
    unfold Model3DConfig.calculate_transform, Model3DConfig.get_override,
      Model3DConfig.set_override, Model3DConfig.remove_override.
    rewrite lookup_insert_ne by exact Hne.
    rewrite lookup_delete_ne by exact Hne.
    split; reflexivity.
Qed.

End OverrideStore.

(** The empty store and the id "c1". *)
Lemma empty_override_falls_back_to_heuristic_witness :
  Model3DConfig.get_override
    (Model3DConfig.set_override (F := float) ∅ "c1" None None None) "c1" = Some ∅ /\
  Model3DConfig.calculate_transform
    (Model3DConfig.set_override (F := float) ∅ "c1" None None None) "c1"
    (Spec.footprint_of_pads [Spec.pad_at "1" 7 0; Spec.pad_at "2" 0 0]%float)
  = Model3DConfig._calculate_heuristic_transform
      (Spec.footprint_of_pads [Spec.pad_at "1" 7 0; Spec.pad_at "2" 0 0]%float).
Proof.
  apply (empty_override_falls_back_to_heuristic (F := float) ∅ "c1").
  apply lookup_empty.
Defined.

(** "c1" and "c2" differ; "c1" and "C1" are the same id. *)
Lemma overrides_keyed_by_upper_case_id_witness :
  Model3DConfig.calculate_transform
    (Model3DConfig.set_override (F := float) ∅ "c1" None (Some (0, 0, 45)%float) None)
    "c2" (new_footprint "FP")
  = Model3DConfig.calculate_transform (F := float) ∅ "c2" (new_footprint "FP") /\
  Model3DConfig.set_override (F := float) ∅ "c1" None (Some (0, 0, 45)%float) None
  = Model3DConfig.set_override ∅ "C1" None (Some (0, 0, 45)%float) None.
Proof.
  split.
  - apply (proj2 (overrides_keyed_by_upper_case_id (F := float) ∅ "c1" "c2"
                    None (Some (0, 0, 45)%float) None (new_footprint "FP"))).
    vm_compute. discriminate.
  - apply (proj1 (overrides_keyed_by_upper_case_id (F := float) ∅ "c1" "C1"
                    None (Some (0, 0, 45)%float) None (new_footprint "FP"))).
    reflexivity.
Defined.

(* ------------------------------------------------------------------ *)
(** ** Bounds and courtyard of whatever has geometry *)


Section CourtyardPresence.
Context {F : Type} {num : Number F} {rt : Runtime F}.

Lemma courtyard_lines_on_courtyard (b : F * F * F * F) (lines : list (FootprintLine F)) :
  existsb (fun line => String.eqb (line_layer line) "F.CrtYd"
                       || String.eqb (line_layer line) "B.CrtYd")
          (lines ++ FootprintConverter.courtyard_lines b) = true.
Proof.
  rewrite existsb_app. apply orb_true_iff. right.
  destruct b as [[[x0 y0] x1] y1]. reflexivity.
Qed.

(** X17.  A converted footprint that has a pad, a line or a circle has
    bounds and at least one line on a courtyard layer: the one the payload
    brought, or the synthesized one. *)
Theorem converted_geometry_has_bounds_and_courtyard (limit : nat) (data : json)
    (name : string) (fp : EasyEdaFootprint F) :
  FootprintConverter.convert limit data name = Returns (Some fp) ->
  fp_pads fp <> [] \/ fp_lines fp <> [] \/ fp_circles fp <> [] ->
  fp_bounds fp <> None /\ has_courtyard fp = true.
Proof.
  intros Hconv Hgeo.
  destruct (convert_Some_inv limit data name fp Hconv) as (d & fp0 & _ & _ & Hp & ->).
  destruct Hp as (Hb & _).
  revert Hgeo. unfold Spec.finished. cbv zeta.
  set (c := FootprintConverter.centered fp0).
  assert (Hcb : fp_bounds c = None) by (subst c; rewrite centered_bounds; exact Hb).
  unfold FootprintConverter.with_bounds.
  destruct (FootprintConverter.bounds_points c) as [|p ps] eqn:E.
  - destruct (bounds_points_nil c E) as (H1 & H2 & H3 & _).
    assert (Hno : has_courtyard c = false) by (unfold has_courtyard; rewrite H2; reflexivity).
    rewrite Hno. unfold FootprintConverter.with_courtyard. rewrite Hcb.
    rewrite H1, H2, H3. intros [H|[H|H]]; congruence.
  - intros _.
    set (w := FootprintConverter.set_bounds (Some (bounding_box (p :: ps))) c).
    destruct (has_courtyard w) eqn:Hc.
    + split; [discriminate|exact Hc].
    + unfold FootprintConverter.with_courtyard.
      cbn [fp_bounds w FootprintConverter.set_bounds].
      split; [discriminate|].
      unfold has_courtyard. cbn [fp_lines FootprintConverter.set_lines].
      apply courtyard_lines_on_courtyard.
Qed.

End CourtyardPresence.

(** Three pads and no courtyard in the payload. *)
Lemma converted_geometry_has_bounds_and_courtyard_witness :
  exists fp : EasyEdaFootprint float,
    FootprintConverter.convert (rt := plain_runtime) 1 Spec.three_pads_payload "X"
      = Returns (Some fp) /\
    length (fp_pads fp) = 3%nat /\
    fp_bounds fp <> None /\ has_courtyard fp = true.
Proof.
  eexists.
  assert (H1 : FootprintConverter.convert (rt := plain_runtime (F := float)) 1
                 Spec.three_pads_payload "X" = Returns (Some _))
    by (vm_compute; reflexivity).
  split; [exact H1|]. split; [reflexivity|].
  apply (converted_geometry_has_bounds_and_courtyard 1 Spec.three_pads_payload "X" _ H1).
  left. discriminate.
Defined.

(* ------------------------------------------------------------------ *)
(** ** The reference prefix *)

Section ReferencePrefix.

Lemma lower_upper_char (c : ascii) :
  pystr.lower_char (pystr.upper_char c) = pystr.lower_char c.
Proof.
  destruct c as [[] [] [] [] [] [] [] []]; vm_compute; reflexivity.
Qed.

Lemma map_chars_app (f : ascii -> ascii) (s t : string) :
  pystr.map_chars f (s ++ t) = (pystr.map_chars f s ++ pystr.map_chars f t)%string.
Proof.
  induction s as [|c s IH]; [reflexivity|].
  change (String (f c) (pystr.map_chars f (s ++ t))
          = String (f c) (pystr.map_chars f s ++ pystr.map_chars f t))%string.
  rewrite IH. reflexivity.
Qed.

Lemma lower_upper (s : string) : pystr.lower (pystr.upper s) = pystr.lower s.
Proof.
  unfold pystr.lower, pystr.upper.
  induction s as [|c s IH]; [reflexivity|].
  cbn [pystr.map_chars]. rewrite lower_upper_char, IH. reflexivity.
Qed.

(** X18.  [guess_reference_prefix] on ASCII text does not depend on the
    case of the description and the category (both are lower-cased before
    the keywords are looked for), and it always returns one of the twelve
    prefixes of the table, "U" included. *)
Theorem reference_prefix_ignores_case (description category : string) :
  pystr.is_ascii description = true -> pystr.is_ascii category = true ->
  guess_reference_prefix (pystr.upper description) (pystr.upper category)
  = guess_reference_prefix description category /\
  In (guess_reference_prefix description category)
     ["R"; "C"; "L"; "D"; "Q"; "U"; "J"; "SW"; "K"; "Y"; "T"; "F"]%string.
Proof.
  intros _ _. split.
  - unfold guess_reference_prefix. cbv zeta.
    assert (Hlow : pystr.lower (pystr.upper description ++ " " ++ pystr.upper category)
                   = pystr.lower (description ++ " " ++ category)).
    { unfold pystr.lower. rewrite !map_chars_app.
      fold (pystr.lower (pystr.upper description)).
      fold (pystr.lower (pystr.upper category)).
      rewrite !lower_upper. reflexivity. }
    rewrite Hlow. reflexivity.
  - unfold guess_reference_prefix. cbv zeta.
    destruct (find _ COMPONENT_PREFIX_MAP) as [kp|] eqn:E; [|simpl; tauto].
    apply find_some in E. destruct E as [Hin _].
    unfold COMPONENT_PREFIX_MAP in Hin. simpl in Hin.
    repeat (destruct Hin as [<-|Hin]; [simpl; tauto|]). destruct Hin.
Qed.

End ReferencePrefix.

(** A description in mixed case. *)
Lemma reference_prefix_ignores_case_witness :
  guess_reference_prefix (pystr.upper "Thick Film Resistor") (pystr.upper "Resistors")
  = guess_reference_prefix "Thick Film Resistor" "Resistors" /\
  In (guess_reference_prefix "Thick Film Resistor" "Resistors")
     ["R"; "C"; "L"; "D"; "Q"; "U"; "J"; "SW"; "K"; "Y"; "T"; "F"]%string.
Proof.
  exact (reference_prefix_ignores_case "Thick Film Resistor" "Resistors" eq_refl eq_refl).
Defined.

(* ------------------------------------------------------------------ *)
(** ** Point lists *)

Section PointLists.
Context {F : Type} {num : Number F} {rt : Runtime F}.

Lemma point_pairs_flip (values : list string) :
  SymbolConverter.point_pairs values
  = map (fun p => {| pt_x := fst p; pt_y := - snd p |})
        (FootprintConverter.value_pairs values) /\
  length (FootprintConverter.value_pairs values) = Nat.div2 (length values).
Proof.
  assert (H : forall n (l : list string), (length l <= n)%nat ->
            SymbolConverter.point_pairs l
            = map (fun p => {| pt_x := fst p; pt_y := - snd p |})
                  (FootprintConverter.value_pairs l) /\
            length (FootprintConverter.value_pairs l) = Nat.div2 (length l)).
  { induction n as [|n IH]; intros l Hl.
    - destruct l; [split; reflexivity|simpl in Hl; lia].
    - destruct l as [|vx [|vy r]]; [split; reflexivity|split; reflexivity|].
      destruct (IH r) as [IH1 IH2]; [simpl in Hl; lia|].
      cbn [SymbolConverter.point_pairs FootprintConverter.value_pairs map length Nat.div2
           fst snd].
      rewrite IH1, IH2. split; reflexivity. }
  apply (H (length values)). lia.
Qed.

(** X19.  The two [_parse_point_list]: the values between commas and white
    space are read two by two, so that n values give n div 2 points and a
    value left alone at the end is dropped; on the same text the symbol
    converter reads the points the footprint converter reads, with Y
    negated. *)
Theorem point_lists_read_in_pairs (points_str : string) :
  let values := pystr.re_split_commas_spaces (pystr.strip points_str) in
  length (FootprintConverter._parse_point_list points_str) = Nat.div2 (length values) /\
  SymbolConverter._parse_point_list points_str
  = map (fun p => {| pt_x := fst p; pt_y := - snd p |})
        (FootprintConverter._parse_point_list points_str).
Proof.
  intros values. unfold FootprintConverter._parse_point_list,
    SymbolConverter._parse_point_list. fold values.
  destruct (point_pairs_flip values) as [H1 H2]. split; [exact H2|exact H1].
Qed.

End PointLists.

(* ------------------------------------------------------------------ *)
(** ** What a converted symbol looks like *)


(** A property of symbols that every shape parser keeps is kept by the
    reading of the shapes. *)
Section SymbolDispatch.
Context {F : Type} {num : Number F} {rt : Runtime F}.
Variable h : Prop.
Variable P : EasyEdaSymbol F -> Prop.
Variable fuel : nat.
Hypothesis pin_keeps :
  forall parts full_str, keeps h P (SymbolConverter._parse_pin fuel parts full_str).
Hypothesis rectangle_keeps : forall parts, keeps h P (SymbolConverter._parse_rectangle parts).
Hypothesis polyline_keeps : forall parts, keeps h P (SymbolConverter._parse_polyline parts).
Hypothesis line_keeps : forall parts, keeps h P (SymbolConverter._parse_line parts).
Hypothesis circle_keeps : forall parts, keeps h P (SymbolConverter._parse_circle parts).
Hypothesis arc_keeps : forall parts, keeps h P (SymbolConverter._parse_arc parts).
Hypothesis text_keeps : forall parts, keeps h P (SymbolConverter._parse_text parts).
Hypothesis polygon_keeps : forall parts, keeps h P (SymbolConverter._parse_polygon parts).

Lemma symbol_shape_keeps (shape_str : string) :
  keeps h P (SymbolConverter._parse_shape fuel shape_str).
Proof.
  unfold SymbolConverter._parse_shape.
  destruct (String.eqb shape_str ""); [apply keeps_ret|].
  destruct (pystr.split shape_str "~") eqn:E; [apply keeps_ret|]. rewrite <- E.
  apply keeps_bind; [apply keeps_index|intros p0].
  apply keeps_try; [|intros e; apply keeps_ret].
  repeat match goal with
         | |- keeps _ _ (if ?b then _ else _) => destruct b
         end;
    auto using keeps_ret.
Qed.

Lemma symbol_shapes_keep (data : json) :
  keeps h P (SymbolConverter.parse_shapes fuel data).
Proof.
  unfold SymbolConverter.parse_shapes.
  apply keeps_bind.
  { unfold SymbolConverter.get_shape.
    destruct data as [| | | | |d];
      [apply keeps_raise|apply keeps_raise|apply keeps_raise|apply keeps_raise
      |apply keeps_raise|].
    destruct (dict_get d "shape"); apply keeps_ret. }
  intros shapes.
  apply keeps_bind; [apply iterate_keeps|intros items].
  apply keeps_for_each. intros [| | |shape_str| |d]; try apply keeps_ret.
  apply symbol_shape_keeps.
Qed.

End SymbolDispatch.

Section SymbolWellFormed.
Context {F : Type} {num : Number F} {rt : Runtime F}.
Variable name prefix : string.

Local Abbreviation well_formed := (Spec.symbol_well_formed name prefix).

(** What a [P] command of seven fields or more comes to. *)
Lemma parse_pin_result (fuel : nat) (parts : list string) (full_str : string)
    (s : EasyEdaSymbol F) :
  (7 <= length parts)%nat ->
  SymbolConverter._parse_pin fuel parts full_str s
  = match normalize_angle fuel (parse_float (nth 6 parts EmptyString) + of_int 180) with
    | Some kicad_rotation =>
        Done tt (SymbolConverter.set_pins
                   (sym_pins s ++
                    [{| pin_number := nth 3 parts EmptyString;
                        pin_name := SymbolConverter.scan_pin_name parts;
                        pin_x := parse_float (nth 4 parts EmptyString)
                                 * SymbolConverter.SCALE;
                        pin_y := - (parse_float (nth 5 parts EmptyString)
                                    * SymbolConverter.SCALE);
                        pin_length := of_decimal 254 2;
                        pin_rotation := kicad_rotation;
                        pin_type := UNSPECIFIED; pin_shape := LINE;
                        pin_hidden := false; pin_name_visible := true;
                        pin_number_visible := true |}]) s)
    | None => Hang
    end.
Proof.
  intros Hlen. unfold SymbolConverter._parse_pin.
  destruct (Nat.ltb_spec (length parts) 7) as [Hlt|_]; [lia|].
  destruct (Nat.ltb_spec 3 (length parts)) as [_|Hge]; [|lia].
  mrun.
  destruct (normalize_angle fuel _); reflexivity.
Qed.

Lemma symbol_pin_well_formed fuel parts full_str :
  keeps True well_formed (SymbolConverter._parse_pin fuel parts full_str).
Proof.
  intros s Hs.
  destruct (Nat.lt_ge_cases (length parts) 7) as [Hlt|Hge].
  - unfold SymbolConverter._parse_pin.
    destruct (Nat.ltb_spec (length parts) 7); [exact Hs|lia].
  - rewrite (parse_pin_result fuel parts full_str s Hge).
    destruct (normalize_angle fuel _) as [rot|] eqn:Hrot; [|exact I].
    destruct Hs as (H1 & H2 & H3 & H4 & Hpins & Hrest).
    unfold Spec.symbol_well_formed.
    cbn [sym_name sym_prefix sym_unit_count sym_properties sym_pins sym_rectangles
         sym_polylines sym_circles sym_texts SymbolConverter.set_pins].
    repeat (split; [assumption|]). split; [|exact Hrest].
    apply Forall_app. split; [exact Hpins|].
    apply List.Forall_cons; [|apply List.Forall_nil].
    unfold Spec.pin_as_converted.
    cbn [pin_rotation pin_length pin_type pin_shape pin_hidden pin_name_visible
         pin_number_visible].
    split; [eauto|repeat split].
Qed.

(** Closes what a [modify] that appends a graphic leaves. *)
Ltac symbol_well_formed_modify :=
  let s := fresh "s" in
  let H := fresh "H" in
  intros s H;
  destruct H as (H1 & H2 & H3 & H4 & Hpins & Hrects & Hpolys & Hcircles & Htexts);
  unfold Spec.symbol_well_formed;
  cbn [sym_name sym_prefix sym_unit_count sym_properties sym_pins sym_rectangles
       sym_polylines sym_circles sym_texts
       SymbolConverter.set_pins SymbolConverter.set_rectangles
       SymbolConverter.set_polylines SymbolConverter.set_circles
       SymbolConverter.set_arcs SymbolConverter.set_texts];
  (split; [|split; [|split; [|split; [|split; [|split; [|split; [|split]]]]]]]);
  try assumption;
  (apply Forall_app; split; [assumption|]);
  repeat first [apply List.Forall_nil | apply List.Forall_cons];
  cbn [rect_fill poly_fill scircle_fill];
  first [reflexivity | left; reflexivity].

Ltac symbol_well_formed_parser := repeat keeps_step; try symbol_well_formed_modify.

Lemma symbol_rectangle_well_formed parts :
  keeps True well_formed (SymbolConverter._parse_rectangle parts).
Proof. unfold SymbolConverter._parse_rectangle. symbol_well_formed_parser. Qed.

Lemma symbol_polyline_well_formed parts :
  keeps True well_formed (SymbolConverter._parse_polyline parts).
Proof. unfold SymbolConverter._parse_polyline. symbol_well_formed_parser. Qed.

Lemma symbol_line_well_formed parts :
  keeps True well_formed (SymbolConverter._parse_line parts).
Proof. unfold SymbolConverter._parse_line. symbol_well_formed_parser. Qed.

Lemma symbol_circle_well_formed parts :
  keeps True well_formed (SymbolConverter._parse_circle parts).
Proof. unfold SymbolConverter._parse_circle. symbol_well_formed_parser. Qed.

Lemma symbol_arc_well_formed parts :
  keeps True well_formed (SymbolConverter._parse_arc parts).
Proof.
  unfold SymbolConverter._parse_arc. repeat keeps_step.
  intros s Hs. exact Hs.
Qed.

Lemma symbol_parse_text_result (parts : list string) (s : EasyEdaSymbol F) :
  (7 <= length parts)%nat ->
  let text_content := if (8 <? length parts)%nat then nth 8 parts EmptyString
                      else EmptyString in
  SymbolConverter._parse_text parts s
  = Done tt
      (if negb (String.eqb text_content "") && negb (pystr.startswith text_content "#")
       then SymbolConverter.set_texts
              (sym_texts s ++
               [{| stext_text := text_content;
                   stext_x := parse_float (nth 2 parts EmptyString) * SymbolConverter.SCALE;
                   stext_y := - (parse_float (nth 3 parts EmptyString)
                                 * SymbolConverter.SCALE);
                   stext_font_size :=
                     max2 (parse_float (nth 6 parts EmptyString) * SymbolConverter.SCALE)
                          (of_decimal 5 1);
                   stext_rotation := parse_float (nth 4 parts EmptyString);
                   stext_h_align := "center"; stext_v_align := "center" |}]) s
       else s).
Proof.
  intros Hlen. unfold SymbolConverter._parse_text.
  destruct (Nat.ltb_spec (length parts) 7) as [Hlt|_]; [lia|].
  destruct (Nat.ltb_spec 6 (length parts)) as [_|Hge]; [|lia].
  mrun. cbv zeta.
  destruct (Nat.ltb_spec 8 (length parts)) as [H8|H8]; mrun;
    match goal with
    | |- context [if ?b then _ else _] => destruct b
    end; reflexivity.
Qed.

Lemma symbol_text_well_formed parts :
  keeps True well_formed (SymbolConverter._parse_text parts).
Proof.
  intros s Hs.
  destruct (Nat.lt_ge_cases (length parts) 7) as [Hlt|Hge].
  - unfold SymbolConverter._parse_text.
    destruct (Nat.ltb_spec (length parts) 7); [exact Hs|lia].
  - rewrite (symbol_parse_text_result parts s Hge). cbv zeta.
    set (text_content := if (8 <? length parts)%nat then nth 8 parts EmptyString
                         else EmptyString).
    destruct (negb (String.eqb text_content "")) eqn:E1; [|exact Hs].
    destruct (negb (pystr.startswith text_content "#")) eqn:E2; [|exact Hs].
    cbn [andb].
    destruct Hs as (H1 & H2 & H3 & H4 & Hpins & Hrects & Hpolys & Hcircles & Htexts).
    unfold Spec.symbol_well_formed.
    cbn [sym_name sym_prefix sym_unit_count sym_properties sym_pins sym_rectangles
         sym_polylines sym_circles sym_texts SymbolConverter.set_texts].
    repeat (split; [assumption|]).
    apply Forall_app. split; [exact Htexts|].
    apply List.Forall_cons; [|apply List.Forall_nil].
    cbn [stext_text stext_h_align stext_v_align].
    split; [|split; [|split; reflexivity]].
    + intros Heq. rewrite Heq in E1. discriminate.
    + apply negb_true_iff, E2.
Qed.

Lemma mark_last_outline_fills (l : list (SymbolPolyline F)) :
  Forall (fun p => poly_fill p = "none"%string \/ poly_fill p = "outline"%string) l ->
  Forall (fun p => poly_fill p = "none"%string \/ poly_fill p = "outline"%string)
         (SymbolConverter.mark_last_outline l).
Proof.
  intros H. unfold SymbolConverter.mark_last_outline.
  destruct l as [|p l']; [exact H|].
  apply Forall_alter; [exact H|].
  intros q _ _. right. reflexivity.
Qed.

Lemma symbol_polygon_well_formed parts :
  keeps True well_formed (SymbolConverter._parse_polygon parts).
Proof.
  unfold SymbolConverter._parse_polygon.
  apply keeps_bind; [apply symbol_polyline_well_formed|intros _].
  apply keeps_modify. intros s Hs.
  destruct Hs as (H1 & H2 & H3 & H4 & Hpins & Hrects & Hpolys & Hcircles & Htexts).
  unfold Spec.symbol_well_formed.
  cbn [sym_name sym_prefix sym_unit_count sym_properties sym_pins sym_rectangles
       sym_polylines sym_circles sym_texts SymbolConverter.set_polylines].
  repeat (split; [assumption|]).
  split; [apply mark_last_outline_fills, Hpolys|]. split; assumption.
Qed.

Lemma parse_shapes_well_formed (fuel : nat) (data : json) :
  keeps True well_formed (SymbolConverter.parse_shapes fuel data).
Proof.
  apply symbol_shapes_keep;
    auto using symbol_pin_well_formed, symbol_rectangle_well_formed, symbol_polyline_well_formed,
      symbol_line_well_formed, symbol_circle_well_formed, symbol_arc_well_formed, symbol_text_well_formed,
      symbol_polygon_well_formed.
Qed.

End SymbolWellFormed.

Section SymbolConversion.
Context {F : Type} {num : Number F} {rt : Runtime F}.

Lemma with_offset_well_formed (name prefix : string) (s : EasyEdaSymbol F) :
  Spec.symbol_well_formed name prefix s ->
  Spec.symbol_well_formed name prefix (SymbolConverter.with_offset s).
Proof.
  intros H. unfold SymbolConverter.with_offset.
  destruct (SymbolConverter.offset_points s); exact H.
Qed.

Lemma convert_symbol_well_formed (fuel : nat) (data : json)
    (name description category : string) (s : EasyEdaSymbol F) :
  SymbolConverter.convert fuel data name description category = Returns (Some s) ->
  Spec.symbol_well_formed name (guess_reference_prefix description category) s.
Proof.
  rewrite symbol_convert_unfold.
  destruct (loads_if_text data) as [d|]; [|discriminate].
  pose proof (parse_shapes_well_formed name (guess_reference_prefix description category)
                fuel d (Spec.fresh_symbol name description category)) as Hk.
  destruct (SymbolConverter.parse_shapes fuel d _) as [[] s0| |]; try discriminate.
  intros H. inversion H. apply with_offset_well_formed, Hk.
  unfold Spec.symbol_well_formed, Spec.fresh_symbol. simpl.
  repeat split; constructor.
Qed.

(** A loop of [normalize_angle] that ends, ends below 360. *)
Lemma sub_turns_exit (fuel : nat) (a r : F) :
  sub_turns fuel a = Some r -> (r >=? of_int 360) = false.
Proof.
  revert a. induction fuel as [|fuel IH]; intros a; [discriminate|].
  cbn [sub_turns]. destruct (a >=? of_int 360) eqn:E; [apply IH|].
  intros H. injection H as <-. exact E.
Qed.

Lemma normalize_angle_below (fuel : nat) (a r : F) :
  normalize_angle fuel a = Some r -> (r >=? of_int 360) = false.
Proof.
  unfold normalize_angle. destruct (add_turns fuel a) as [a'|]; [|discriminate].
  apply sub_turns_exit.
Qed.

(** X20.  A converted symbol bears the component name it was asked for
    and the reference prefix guessed from the description and the
    category, whatever the shapes; it counts one unit; its rectangles and
    circles are not filled, its polylines are not filled or filled
    "outline"; its texts are not empty and do not start with [#]. *)
Theorem converted_symbol_is_named_and_filled (fuel : nat) (data : json)
    (name description category : string) (s : EasyEdaSymbol F) :
  SymbolConverter.convert fuel data name description category = Returns (Some s) ->
  sym_name s = name /\
  sym_prefix s = guess_reference_prefix description category /\
  sym_unit_count s = 1%Z /\
  Forall (fun r => rect_fill r = "none"%string) (sym_rectangles s) /\
  Forall (fun p => poly_fill p = "none"%string \/ poly_fill p = "outline"%string)
         (sym_polylines s) /\
  Forall (fun c => scircle_fill c = "none"%string) (sym_circles s) /\
  Forall (fun t => stext_text t <> ""%string /\
                   pystr.startswith (stext_text t) "#" = false) (sym_texts s).
Proof.
  intros Hconv.
  destruct (convert_symbol_well_formed fuel data name description category s Hconv)
    as (H1 & H2 & H3 & _ & _ & Hr & Hp & Hc & Ht).
  repeat (split; [assumption|]).
  eapply List.Forall_impl; [|exact Ht]. intros t (Ha & Hb & _). split; assumption.
Qed.

End SymbolConversion.

(* ------------------------------------------------------------------ *)
(** ** Angles in binary64 *)

Section TurnsOfBinary64.

(** A rounded number has the sign it was given: it is never below zero
    when that sign is plus. *)
Lemma round_aux_not_negative (mx ex : Z) (lx : location) :
  SFltb (binary_round_aux prec emax false mx ex lx) (S754_zero false) = false.
Proof.
  unfold binary_round_aux.
  destruct (shr_fexp prec emax mx ex lx) as [mrs' e'].
  destruct (shr_fexp prec emax _ e' loc_Exact) as [mrs'' e''].
  destruct (shr_m mrs''); [reflexivity| |reflexivity].
  destruct (_ <=? _)%Z; reflexivity.
Qed.

Lemma normalize_not_negative (m e : Z) :
  (0 <= m)%Z ->
  SFltb (binary_normalize prec emax m e false) (S754_zero false) = false.
Proof.
  intros Hm. destruct m as [|p|p]; [reflexivity| |lia].
  unfold binary_normalize, binary_round.
  destruct (shl_align p e _) as [mz ez]. apply round_aux_not_negative.
Qed.

Lemma iter_xO (d m : positive) :
  Z.pos (Pos.iter xO m d) = (Z.pos m * 2 ^ Z.pos d)%Z.
Proof.
  induction d as [|d IH] using Pos.peano_ind.
  - simpl. lia.
  - rewrite Pos.iter_succ, Pos2Z.inj_succ, Z.pow_succ_r by lia.
    rewrite Pos2Z.inj_xO, IH. lia.
Qed.

Lemma digits2_size (m : positive) : digits2_pos m = Pos.size m.
Proof. induction m as [m IH|m IH|]; simpl; [rewrite IH|rewrite IH|]; reflexivity. Qed.

(** A mantissa of 53 digits is at least [2^52]. *)
Lemma full_mantissa (m : positive) :
  digits2_pos m = 53%positive -> (2 ^ 52 <= Z.pos m)%Z.
Proof.
  intros H. rewrite digits2_size in H.
  pose proof (Pos.size_le m) as Hle. rewrite H in Hle.
  change (2 ^ 53)%positive with 9007199254740992%positive in Hle.
  change (2 ^ 52)%Z with 4503599627370496%Z. lia.
Qed.

(** One turn taken from an angle of a turn or more does not give an angle
    below zero. *)
Lemma turn_less_not_negative (x : float) :
  PrimFloat.leb 360 x = true -> PrimFloat.ltb (x - 360) 0 = false.
Proof.
  rewrite FloatAxioms.leb_spec, FloatAxioms.ltb_spec, FloatAxioms.sub_spec.
  pose proof (FloatAxioms.Prim2SF_valid x) as Hv.
  assert (H360 : Prim2SF 360 = S754_finite false 6333186975989760 (-44))
    by (vm_compute; reflexivity).
  assert (H0 : Prim2SF 0 = S754_zero false) by (vm_compute; reflexivity).
  rewrite H360, H0.
  destruct (Prim2SF x) as [s|s| |s m e].
  - discriminate.
  - destruct s; [discriminate|reflexivity].
  - discriminate.
  - destruct s; [discriminate|].
    unfold SFleb. cbn [SFcompare]. intros Hle.
    unfold SF64sub, SFsub. cbv zeta. apply normalize_not_negative.
    cbn [cond_Zopp].
    unfold valid_binary, bounded, canonical_mantissa, fexp, SpecFloat.emin in Hv.
    apply andb_true_iff in Hv. destruct Hv as [Hcan _].
    apply Z.eqb_eq in Hcan.
    change prec with 53%Z in Hcan. change emax with 1024%Z in Hcan.
    destruct (Z.compare_spec (-44) e) as [He|He|He]; [| |discriminate].
    + subst e. rewrite Z.min_id. unfold shl_align. cbn [Z.sub Z.add Z.opp Z.pos_sub fst].
      rewrite Z.sub_diag. cbn [fst].
      pose proof (Pos.compare_spec 6333186975989760 m) as Hc.
      unfold Pos.compare in Hc.
      destruct Hc as [Hc|Hc|Hc]; try discriminate; lia.
    + rewrite Z.min_r by lia.
      assert (Hd : digits2_pos m = 53%positive) by lia.
      pose proof (full_mantissa m Hd) as Hm.
      unfold shl_align. rewrite Z.sub_diag. cbn [fst].
      destruct (-44 - e)%Z as [|d|d] eqn:Ed; try lia.
      cbn [fst]. rewrite iter_xO.
      assert (H2 : (2 ^ 1 <= 2 ^ Z.pos d)%Z) by (apply Z.pow_le_mono_r; lia).
      change (2 ^ 52)%Z with 4503599627370496%Z in Hm.
      change (2 ^ 1)%Z with 2%Z in H2. nia.
Qed.


(** Between numbers, "not at least" is "below". *)
Lemma float_not_at_least (a b : float) :
  PrimFloat.is_nan a = false -> PrimFloat.is_nan b = false ->
  PrimFloat.leb a b = false -> PrimFloat.ltb b a = true.
Proof.
  intros Ha Hb Hle. rewrite FloatAxioms.leb_spec in Hle. rewrite FloatAxioms.ltb_spec.
  unfold SFleb in Hle. unfold SFltb.
  rewrite (SFcompare_antisym (Prim2SF a) (Prim2SF b)).
  destruct (SFcompare_defined _ _ (not_nan_self a Ha) (not_nan_self b Hb)) as (o & Ho).
  rewrite Ho in *. destruct o; simpl; congruence.
Qed.

Lemma add_turns_not_negative (fuel : nat) (a r : float) :
  add_turns fuel a = Some r -> PrimFloat.ltb r 0 = false.
Proof.
  revert a. induction fuel as [|fuel IH]; intros a; [discriminate|].
  cbn [add_turns]. destruct (a <? of_int 0) eqn:E; [apply IH|].
  intros H. injection H as <-. exact E.
Qed.

Lemma sub_turns_not_negative (fuel : nat) (a r : float) :
  PrimFloat.ltb a 0 = false -> sub_turns fuel a = Some r -> PrimFloat.ltb r 0 = false.
Proof.
  revert a. induction fuel as [|fuel IH]; intros a Ha; [discriminate|].
  cbn [sub_turns]. destruct (a >=? of_int 360) eqn:E.
  - apply IH. apply turn_less_not_negative. exact E.
  - intros H. injection H as <-. exact Ha.
Qed.

(** What [normalize_angle] returns in binary64 passes neither test of its
    loops: it lies from 0 up to 360, 360 excluded, unless it is NaN. *)
Lemma normalize_angle_within_a_turn (fuel : nat) (a r : float) :
  normalize_angle fuel a = Some r ->
  PrimFloat.ltb r 0 = false /\ PrimFloat.leb 360 r = false /\
  (PrimFloat.is_nan r = false ->
   PrimFloat.leb 0 r = true /\ PrimFloat.ltb r 360 = true).
Proof.
  intros H.
  assert (H360 : PrimFloat.leb 360 r = false) by exact (normalize_angle_below fuel a r H).
  assert (H0 : PrimFloat.ltb r 0 = false).
  { revert H. unfold normalize_angle.
    destruct (add_turns fuel a) as [a'|] eqn:E; [|discriminate].
    apply sub_turns_not_negative. exact (add_turns_not_negative fuel a a' E). }
  split; [exact H0|]. split; [exact H360|]. intros Hn. split.
  - apply float_not_below; [reflexivity|exact H0|exact Hn].
  - apply float_not_at_least; [reflexivity|exact Hn|exact H360].
Qed.

(** X1.  [normalize_angle] in binary64.  When it returns, the angle it
    returns passes neither test of its two loops: it is not below 0 and it
    is not 360 or more, so that it lies from 0 up to 360, 360 excluded,
    unless it is NaN; and [normalize_angle] returns such an angle as it is,
    at the first test of each loop. *)
Theorem normalize_angle_lands_within_a_turn (fuel : nat) (a r : float) :
  normalize_angle fuel a = Some r ->
  PrimFloat.ltb r 0 = false /\ PrimFloat.leb 360 r = false /\
  (PrimFloat.is_nan r = false ->
   PrimFloat.leb 0 r = true /\ PrimFloat.ltb r 360 = true) /\
  (forall fuel' : nat, normalize_angle (S fuel') r = Some r).
Proof.
  intros H.
  destruct (normalize_angle_within_a_turn fuel a r H) as (H0 & H360 & Hn).
  split; [exact H0|]. split; [exact H360|]. split; [exact Hn|].
  intros fuel'. unfold normalize_angle. cbn [add_turns].
  change (r <? of_int 0) with (PrimFloat.ltb r 0). rewrite H0.
  cbn [sub_turns].
  change (r >=? of_int 360) with (PrimFloat.leb 360 r). rewrite H360.
  reflexivity.
Qed.

End TurnsOfBinary64.

(** Minus 450 degrees: two turns are added, 270 is returned. *)
Lemma normalize_angle_lands_within_a_turn_witness :
  normalize_angle 3 (-450)%float = Some 270%float /\
  PrimFloat.ltb 270 0 = false /\ PrimFloat.leb 360 270 = false /\
  normalize_angle 1 270%float = Some 270%float.
Proof.
  assert (H : normalize_angle 3 (-450)%float = Some 270%float)
    by (vm_compute; reflexivity).
  destruct (normalize_angle_lands_within_a_turn 3 (-450)%float 270%float H)
    as (H0 & H360 & _ & Hagain).
  split; [exact H|]. split; [exact H0|]. split; [exact H360|exact (Hagain 0%nat)].
Defined.

Section PinRotation.

(** X21.  The pins of a converted symbol.  In any arithmetic (binary64
    included) the rotation of a pin is a value on which the test [>= 360]
    of [normalize_angle] fails, its length is 2.54 and its electrical type
    is unspecified.  In binary64 the test [< 0] fails on it as well: the
    rotation lies from 0 up to 360, 360 excluded, unless it is NaN. *)
Theorem converted_pins_are_turned_within_a_turn :
  (forall (F : Type) (num : Number F) (rt : Runtime F) (fuel : nat) (data : json)
          (name description category : string) (s : EasyEdaSymbol F),
      SymbolConverter.convert fuel data name description category = Returns (Some s) ->
      Forall (fun pin => (pin_rotation pin >=? of_int 360) = false /\
                         pin_length pin = of_decimal 254 2 /\
                         pin_type pin = UNSPECIFIED)
             (sym_pins s)) /\
  (forall (rt : Runtime float) (fuel : nat) (data : json)
          (name description category : string) (s : EasyEdaSymbol float),
      SymbolConverter.convert fuel data name description category = Returns (Some s) ->
      Forall (fun pin => PrimFloat.ltb (pin_rotation pin) 0 = false /\
                         (PrimFloat.is_nan (pin_rotation pin) = false ->
                          PrimFloat.leb 0 (pin_rotation pin) = true /\
                          PrimFloat.ltb (pin_rotation pin) 360 = true))
             (sym_pins s)).
Proof.
  split.
  - intros F num rt fuel data name description category s Hconv.
    destruct (convert_symbol_well_formed fuel data name description category s Hconv)
      as (_ & _ & _ & _ & Hpins & _).
    eapply List.Forall_impl; [|exact Hpins].
    intros pin ((fuel' & angle & Hrot) & Hlen & Htype & _).
    split; [exact (normalize_angle_below fuel' angle _ Hrot)|]. split; assumption.
  - intros rt fuel data name description category s Hconv.
    destruct (convert_symbol_well_formed fuel data name description category s Hconv)
      as (_ & _ & _ & _ & Hpins & _).
    eapply List.Forall_impl; [|exact Hpins].
    intros pin ((fuel' & angle & Hrot) & _).
    destruct (normalize_angle_within_a_turn fuel' angle _ Hrot) as (H0 & _ & Hn).
    split; [exact H0|exact Hn].
Qed.

End PinRotation.

(** A symbol with a rectangle, two pins, a polyline, a polygon, an ellipse
    and a text, described as "LED red". *)
Lemma converted_symbol_is_named_and_filled_witness :
  exists s : EasyEdaSymbol float,
    SymbolConverter.convert (rt := plain_runtime) 4 Spec.symbol_payload "X" "LED red" ""
      = Returns (Some s) /\
    sym_name s = "X"%string /\ sym_prefix s = "D"%string /\
    map poly_fill (sym_polylines s) = ["none"; "outline"]%string /\
    Forall (fun p => poly_fill p = "none"%string \/ poly_fill p = "outline"%string)
           (sym_polylines s).
Proof.
  eexists.
  assert (H1 : SymbolConverter.convert (rt := plain_runtime (F := float)) 4
                 Spec.symbol_payload "X" "LED red" "" = Returns (Some _))
    by (vm_compute; reflexivity).
  pose proof (converted_symbol_is_named_and_filled 4 Spec.symbol_payload
                "X" "LED red" "" _ H1) as (Hn & Hp & _ & _ & Hf & _).
  split; [exact H1|]. split; [exact Hn|]. split; [exact Hp|].
  split; [reflexivity|exact Hf].
Defined.

(** The same symbol in binary64: source rotations 90 and none give 270
    and 180. *)
Lemma converted_pins_are_turned_within_a_turn_witness :
  exists s : EasyEdaSymbol float,
    SymbolConverter.convert (rt := plain_runtime) 4 Spec.symbol_payload "X" "LED red" ""
      = Returns (Some s) /\
    map pin_rotation (sym_pins s) = [270; 180]%float /\
    Forall (fun pin => (pin_rotation pin >=? of_int 360) = false /\
                       pin_length pin = of_decimal 254 2 /\
                       pin_type pin = UNSPECIFIED)
           (sym_pins s) /\
    Forall (fun pin => PrimFloat.ltb (pin_rotation pin) 0 = false /\
                       (PrimFloat.is_nan (pin_rotation pin) = false ->
                        PrimFloat.leb 0 (pin_rotation pin) = true /\
                        PrimFloat.ltb (pin_rotation pin) 360 = true))
           (sym_pins s).
Proof.
  eexists.
  assert (H1 : SymbolConverter.convert (rt := plain_runtime (F := float)) 4
                 Spec.symbol_payload "X" "LED red" "" = Returns (Some _))
    by (vm_compute; reflexivity).
  split; [exact H1|]. split; [vm_compute; reflexivity|]. split.
  - exact (proj1 converted_pins_are_turned_within_a_turn float binary64 plain_runtime 4
             Spec.symbol_payload "X" "LED red" "" _ H1).
  - exact (proj2 converted_pins_are_turned_within_a_turn plain_runtime 4
             Spec.symbol_payload "X" "LED red" "" _ H1).
Defined.

(* ------------------------------------------------------------------ *)
(** ** Names and strings of the writers *)


Section Escaping.

Lemma escape_body_cons (c : ascii) (s : string) :
  pystr.replace_char quote_char (backslash ++ quote)
    (pystr.replace_char backslash_char (backslash ++ backslash) (String c s))
  = (Spec.escaped_char c
     ++ pystr.replace_char quote_char (backslash ++ quote)
          (pystr.replace_char backslash_char (backslash ++ backslash) s))%string.
Proof.
  unfold Spec.escaped_char.
  change (pystr.replace_char backslash_char (backslash ++ backslash) (String c s))
    with (if Ascii.eqb backslash_char c
          then (backslash ++ backslash
                ++ pystr.replace_char backslash_char (backslash ++ backslash) s)%string
          else String c (pystr.replace_char backslash_char (backslash ++ backslash) s)).
  rewrite (Ascii.eqb_sym backslash_char c).
  destruct (Ascii.eqb_spec c backslash_char) as [->|Hb]; [reflexivity|].
  cbn [pystr.replace_char].
  rewrite (Ascii.eqb_sym quote_char c).
  destruct (Ascii.eqb_spec c quote_char) as [->|Hq]; reflexivity.
Qed.

Lemma escaped_char_read (c : ascii) (t : string) :
  Spec.well_escaped (Spec.escaped_char c ++ t) = Spec.well_escaped t /\
  Spec.unescaped (Spec.escaped_char c ++ t) = String c (Spec.unescaped t).
Proof.
  unfold Spec.escaped_char.
  destruct (Ascii.eqb_spec c backslash_char) as [->|Hb]; [split; reflexivity|].
  destruct (Ascii.eqb_spec c quote_char) as [->|Hq]; [split; reflexivity|].
  change (String c EmptyString ++ t)%string with (String c t).
  cbn [Spec.well_escaped Spec.unescaped].
  apply Ascii.eqb_neq in Hb, Hq. rewrite Hb, Hq. split; reflexivity.
Qed.

Lemma escape_body_read (s : string) :
  let body := pystr.replace_char quote_char (backslash ++ quote)
                (pystr.replace_char backslash_char (backslash ++ backslash) s) in
  Spec.well_escaped body = true /\ Spec.unescaped body = s.
Proof.
  induction s as [|c s [IH1 IH2]]; [split; reflexivity|].
  cbv zeta. rewrite escape_body_cons.
  destruct (escaped_char_read c
              (pystr.replace_char quote_char (backslash ++ quote)
                 (pystr.replace_char backslash_char (backslash ++ backslash) s)))
    as [H1 H2].
  rewrite H1, H2. cbv zeta in IH1, IH2. rewrite IH1, IH2. split; reflexivity.
Qed.

(** X22.  [_escape_string], in both writers: the result is the argument's
    escaped text between two quotes; in that text no quote stands without
    a backslash before it and no backslash is left alone at the end, so
    the token ends where the writer ends it; and reading the text back,
    each backslash standing for the character after it, gives the
    argument again (hence two different strings are never written
    alike). *)
Theorem escaped_string_reads_back (s : string) :
  exists body,
    FootprintWriter._escape_string s = (quote ++ body ++ quote)%string /\
    SymbolWriter._escape_string s = (quote ++ body ++ quote)%string /\
    Spec.well_escaped body = true /\
    Spec.unescaped body = s.
Proof.
  unfold FootprintWriter._escape_string, SymbolWriter._escape_string, escape_string.
  destruct (String.eqb_spec s "") as [->|Hne].
  - exists EmptyString. repeat split.
  - cbv zeta. eexists. split; [reflexivity|]. split; [reflexivity|].
    apply escape_body_read.
Qed.

End Escaping.

Section Sanitizing.

Lemma name_char_underscore : name_char "_" = true.
Proof. reflexivity. Qed.

Lemma map_chars_all (f : ascii -> ascii) (p : ascii -> bool) (s : string) :
  (forall c, p (f c) = true) -> pystr.all_chars p (pystr.map_chars f s) = true.
Proof.
  intros H. induction s as [|c s IH]; [reflexivity|].
  cbn [pystr.map_chars pystr.all_chars]. rewrite H, IH. reflexivity.
Qed.

Lemma map_chars_fixed (f : ascii -> ascii) (p : ascii -> bool) (s : string) :
  (forall c, p c = true -> f c = c) ->
  pystr.all_chars p s = true -> pystr.map_chars f s = s.
Proof.
  intros H. induction s as [|c s IH]; [reflexivity|].
  cbn [pystr.map_chars pystr.all_chars]. intros Hall.
  apply andb_true_iff in Hall. destruct Hall as [Hc Hs].
  rewrite (H c Hc), (IH Hs). reflexivity.
Qed.

Lemma kept_char (c : ascii) :
  name_char (if name_char c then c else "_"%char) = true.
Proof. destruct (name_char c) eqn:E; [exact E|reflexivity]. Qed.

Lemma sanitize_name_clean (fallback name : string) :
  Spec.clean_name fallback -> Spec.clean_name (sanitize_name fallback name).
Proof.
  intros Hf. unfold sanitize_name. cbv zeta.
  pose proof (map_chars_all (fun c => if name_char c then c else "_"%char) name_char
                name kept_char) as Hall.
  destruct (pystr.map_chars _ name) as [|c r] eqn:E; [exact Hf|].
  destruct (pystr.is_digit c) eqn:Hd.
  - cbn [String.eqb]. unfold Spec.clean_name.
    split; [discriminate|]. split; [|reflexivity].
    change (pystr.all_chars name_char (String "_" (String c r)))
      with (name_char "_" && pystr.all_chars name_char (String c r)).
    rewrite Hall. reflexivity.
  - destruct (String.eqb_spec (String c r) "") as [Heq|_]; [discriminate|].
    unfold Spec.clean_name. split; [discriminate|]. split; [exact Hall|exact Hd].
Qed.

Lemma sanitize_name_fixed (fallback name : string) :
  Spec.clean_name name -> sanitize_name fallback name = name.
Proof.
  intros (Hne & Hall & Hfirst). unfold sanitize_name. cbv zeta.
  rewrite (map_chars_fixed _ name_char name); [|intros c Hc; rewrite Hc; reflexivity|exact Hall].
  destruct name as [|c r]; [congruence|].
  rewrite Hfirst. destruct (String.eqb_spec (String c r) ""); [discriminate|reflexivity].
Qed.

(** X23.  [_sanitize_name] on ASCII text, in both writers: the result is
    never empty, holds only letters, digits, [_], [-] and [.], and does not
    start with a digit; sanitizing it again changes nothing, and a name
    that is already clean is returned as it is. *)
Theorem sanitized_names_are_clean (name : string) :
  pystr.is_ascii name = true ->
  Spec.clean_name (FootprintWriter._sanitize_name name) /\
  Spec.clean_name (SymbolWriter._sanitize_name name) /\
  FootprintWriter._sanitize_name (FootprintWriter._sanitize_name name)
  = FootprintWriter._sanitize_name name /\
  SymbolWriter._sanitize_name (SymbolWriter._sanitize_name name)
  = SymbolWriter._sanitize_name name /\
  (Spec.clean_name name ->
   FootprintWriter._sanitize_name name = name /\
   SymbolWriter._sanitize_name name = name).
Proof.
  intros _.
  assert (Hf : Spec.clean_name "Footprint").
  { split; [discriminate|]. split; reflexivity. }
  assert (Hc : Spec.clean_name "Component").
  { split; [discriminate|]. split; reflexivity. }
  unfold FootprintWriter._sanitize_name, SymbolWriter._sanitize_name.
  pose proof (sanitize_name_clean "Footprint" name Hf) as H1.
  pose proof (sanitize_name_clean "Component" name Hc) as H2.
  split; [exact H1|]. split; [exact H2|].
  split; [apply sanitize_name_fixed, H1|].
  split; [apply sanitize_name_fixed, H2|].
  intros Hn. split; apply sanitize_name_fixed, Hn.
Qed.

End Sanitizing.

(** A name with blanks, brackets and a leading digit, and the empty
    name. *)
Lemma sanitized_names_are_clean_witness :
  FootprintWriter._sanitize_name "0805 R(1%)" = "_0805_R_1__"%string /\
  Spec.clean_name (FootprintWriter._sanitize_name "0805 R(1%)") /\
  SymbolWriter._sanitize_name "" = "Component"%string /\
  Spec.clean_name (SymbolWriter._sanitize_name "").
Proof.
  split; [reflexivity|].
  split; [exact (proj1 (sanitized_names_are_clean "0805 R(1%)" eq_refl))|].
  split; [reflexivity|].
  exact (proj1 (proj2 (sanitized_names_are_clean "" eq_refl))).
Defined.
